(** * netonline: a passive online-state engine

    A shallow embedding of the Go package [netonline]:

    - [Netlink]: the rtnetlink datagram parser [parseNlMsgs];
    - [Chan], [EventSource]: buffered channels and the per-platform reader
      loops of [startOSEventStream];
    - [Evaluator]: the Linux [recomputeOnline] and its helpers;
    - [Watch]: the edge detector / debouncer [Watch];
    - [WakeGap]: [StartWakeGapWatcher].

    The definitions come first; the facts proved of them follow, module by
    module ([NetlinkFacts], [EvaluatorFacts], [EventSourceFacts],
    [WatchFacts], [WakeGapFacts]).

    Go's fixed-width integers are integers of [Z] with the wrap-around
    written where the source computes; Go strings are [string]s of bytes;
    byte slices are [list byte]. *)

From Stdlib Require Import ZArith String Ascii List Bool Lia.
From Stdlib Require Import Strings.Byte DecimalString.
Import ListNotations.
Open Scope Z_scope.

(** ** Machine integers *)

(** [wrap_unsigned w x]: the value of [x] stored in an unsigned [w]-bit word. *)
Definition wrap_unsigned (w x : Z) : Z := x mod 2 ^ w.

(** [wrap_signed w x]: the value of [x] stored in a signed [w]-bit word
    (two's complement). *)
Definition wrap_signed (w x : Z) : Z := (x + 2 ^ (w - 1)) mod 2 ^ w - 2 ^ (w - 1).

Definition max_int64 : Z := 2 ^ 63 - 1.
Definition min_int64 : Z := - 2 ^ 63.
Definition is_int64 (x : Z) : Prop := min_int64 <= x <= max_int64.

(** [len l] is Go's [len] of a slice, as an integer. *)
Definition len {A : Type} (l : list A) : Z := Z.of_nat (length l).

(** * The rtnetlink parser *)

Module Netlink.

(** [type nlmsghdr struct { Len uint32; Type uint16; Flags uint16;
    Seq uint32; Pid uint32 }] *)
Record nlmsghdr := {
  Len : Z;
  Type_ : Z;
  Flags : Z;
  Seq : Z;
  Pid : Z
}.

(** [type nlmsg struct { Header nlmsghdr; Body []byte }] *)
Record nlmsg := {
  Header : nlmsghdr;
  Body : list byte
}.

Definition byte_val (b : byte) : Z := Z.of_N (Byte.to_N b).

(** Little-endian value of a run of bytes (netlink headers are in host
    byte order; the hosts modelled are little-endian). *)
Fixpoint le_val (bs : list byte) : Z :=
  match bs with
  | [] => 0
  | b :: rest => byte_val b + 256 * le_val rest
  end.

Definition field (b : list byte) (off n : nat) : Z :=
  le_val (firstn n (skipn off b)).

(** The unsafe pointer cast of [&b[0]] to a header pointer, dereferenced:
    the sixteen first bytes read as a header. The source performs it only under [len(b) >= hdrLen]. *)
Definition read_hdr (b : list byte) : nlmsghdr :=
  {| Len := field b 0 4;
     Type_ := field b 4 2;
     Flags := field b 6 2;
     Seq := field b 8 4;
     Pid := field b 12 4 |}.

(** [const hdrLen = int(unsafe.Sizeof(nlmsghdr{}))] *)
Definition hdrLen : Z := 16.

(** Go's slice expression [b[lo:hi]]: a run-time panic unless
    [0 <= lo <= hi <= cap(b)]. The parser only ever re-slices with bounds it
    compared with [len(b)], and [len(b) <= cap(b)]; the capacity beyond the
    length is never read, so the slice is modelled by its length. *)
Definition slice (b : list byte) (lo hi : Z) : option (list byte) :=
  if (0 <=? lo) && (lo <=? hi) && (hi <=? len b)
  then Some (firstn (Z.to_nat (hi - lo)) (skipn (Z.to_nat lo) b))
  else None.

(** [b[lo:]] *)
Definition slice_from (b : list byte) (lo : Z) : option (list byte) :=
  if (0 <=? lo) && (lo <=? len b) then Some (skipn (Z.to_nat lo) b) else None.

(** What one evaluation of the loop of [parseNlMsgs] does. *)
Inductive Step :=
| Next (b : list byte) (out : list nlmsg)
| Return (out : list nlmsg) (err : option string)
| Panic.

(** One turn of
[[
   for len(b) >= hdrLen {
     h := <the header read at &b[0]>
     if h.Len < uint32(hdrLen) || int(h.Len) > len(b) {
       return out, fmt.Errorf("invalid nlmsg len") }
     body := b[hdrLen:h.Len]
     out = append(out, nlmsg{Header: h, Body: body})
     adv := int((h.Len + 3) &^ 3)
     if adv > len(b) { break }
     b = b[adv:]
   }
   return out, nil
]]
    [w] is the width of Go's [int] on the target (32 or 64). [h.Len + 3] is
    a [uint32] sum, and [&^] is and-not. *)
Definition iter (w : Z) (b : list byte) (out : list nlmsg) : Step :=
  if len b <? hdrLen then Return out None
  else
    let h := read_hdr b in
    if (Len h <? hdrLen) || (wrap_signed w (Len h) >? len b)
    then Return out (Some "invalid nlmsg len"%string)
    else
      match slice b hdrLen (Len h) with
      | None => Panic
      | Some body =>
          let out' := out ++ [{| Header := h; Body := body |}] in
          let adv := wrap_signed w (Z.ldiff (wrap_unsigned 32 (Len h + 3)) 3) in
          if adv >? len b then Return out' None
          else
            match slice_from b adv with
            | None => Panic
            | Some b' => Next b' out'
            end
      end.

(** How a call ends, when it ends. *)
Inductive Result :=
| Returned (out : list nlmsg) (err : option string)
| Panicked.

(** The loop, run for at most [fuel] turns: [None] when the loop is still
    running after them. *)
Fixpoint loop (w : Z) (fuel : nat) (b : list byte) (out : list nlmsg) : option Result :=
  match fuel with
  | O => None
  | S fuel' =>
      match iter w b out with
      | Next b' out' => loop w fuel' b' out'
      | Return o e => Some (Returned o e)
      | Panic => Some Panicked
      end
  end.

(** [parseNlMsgs(b)], with one turn of fuel more than [b] has bytes. *)
Definition parseNlMsgs (w : Z) (b : list byte) : option Result :=
  loop w (S (length b)) b [].

(** A message body is a piece of the input. *)
Definition within (input body : list byte) : Prop :=
  exists off : nat,
    (off + length body <= length input)%nat /\
    body = firstn (length body) (skipn off input).

(** The datagrams used below. [hdr_80000000] is a bare header whose length
    field is [0x80000000]. [giant] is a header whose length field is
    [0xFFFFFFFD], followed by zeros up to [2^32] bytes. *)
Definition hdr_80000000 : list byte :=
  [x00; x00; x00; x80; x10; x00; x00; x00; x00; x00; x00; x00; x00; x00; x00; x00].

Definition hdr_fffffffd : list byte :=
  [xfd; xff; xff; xff; x18; x00; x00; x00; x00; x00; x00; x00; x00; x00; x00; x00].

Definition giant : list byte :=
  hdr_fffffffd ++ repeat x00 (Z.to_nat (2 ^ 32 - 16)).

(** A well-formed datagram: one RTM_NEWROUTE message of 20 bytes. *)
Definition one_route_msg : list byte :=
  [x14; x00; x00; x00; x18; x00; x00; x00; x01; x00; x00; x00; x00; x00; x00; x00;
   x02; x00; x00; x00].

End Netlink.

(** * Errors *)

(** Go [error] values, as far as the package builds and inspects them. *)
Inductive error :=
| Errno (n : Z)
| ErrorString (msg : string)
| Wrapped (prefix : string) (e : error).

(** [unix.EINTR] *)
Definition EINTR : Z := 4.

(** [errors.Is(err, target)] for a [syscall.Errno] target: the chain of
    wrapped errors is searched for it. *)
Fixpoint errors_Is (e : error) (target : Z) : bool :=
  match e with
  | Errno n => n =? target
  | ErrorString _ => false
  | Wrapped _ e' => errors_Is e' target
  end.

(** * The part of Go's library the evaluator calls *)

Module Go.

(** [net.IP]: a byte slice, [None] for the nil slice. *)
Definition IP := option (list byte).

(** The library functions whose text is not part of the package. The
    evaluator is defined over any implementation of them; [Ref.lib] below
    is one that runs. *)
Class Lib := {
  (** [strings.Fields(s)] *)
  strings_Fields : string -> list string;
  (** [strings.TrimSpace(s)] *)
  strings_TrimSpace : string -> string;
  (** The tokens [bufio.Scanner.Scan] yields, in order, over a file of the
      given content, until it returns false. *)
  bufio_ScanLines : string -> list string;
  (** [strconv.ParseInt(s, base, bitSize)]: the value returned. Every call
      of the package drops the error. *)
  strconv_ParseInt : string -> Z -> Z -> Z;
  (** [strconv.ParseUint(s, base, bitSize)]: [None] when it returns an
      error. *)
  strconv_ParseUint : string -> Z -> Z -> option Z;
  (** [net.ParseIP(s)] *)
  net_ParseIP : string -> IP;
  (** [filepath.Join(elem...)] *)
  filepath_Join : list string -> string
}.

(** [strings.Split(s, "\n")]: the pieces between line feeds, one more than
    there are line feeds. *)
Fixpoint split_nl (s cur : string) : list string :=
  match s with
  | EmptyString => [cur]
  | String c s' =>
      if Ascii.eqb c "010"%char then cur :: split_nl s' EmptyString
      else split_nl s' (cur ++ String c EmptyString)%string
  end.

Definition strings_Split_nl (s : string) : list string := split_nl s EmptyString.

(** [fields[i]] under a length check made before: the default is never
    read. *)
Definition at_ (fields : list string) (i : nat) : string := nth i fields EmptyString.

(** [fmt.Sprintf("%d", v)] of a byte. *)
Definition sprint_d (v : Z) : string := NilZero.string_of_uint (N.to_uint (Z.to_N v)).

(** ** [net.IP] methods *)

Definition v4InV6Prefix : list byte :=
  [x00; x00; x00; x00; x00; x00; x00; x00; x00; x00; xff; xff].
Definition IPv4zero : list byte := v4InV6Prefix ++ [x00; x00; x00; x00].
Definition IPv6unspecified : list byte := repeat x00 16.
Definition IPv6loopback : list byte := repeat x00 15 ++ [x01].

Definition bytes_eqb (a b : list byte) : bool :=
  if list_eq_dec Byte.byte_eq_dec a b then true else false.

Definition at_byte (ip : list byte) (i : nat) : Z := Z.of_N (Byte.to_N (nth i ip x00)).

(** [ip.Equal(x)] *)
Definition Equal (ip x : list byte) : bool :=
  if (length ip =? length x)%nat then bytes_eqb ip x
  else if ((length ip =? 4) && (length x =? 16))%nat
  then bytes_eqb (firstn 12 x) v4InV6Prefix && bytes_eqb ip (skipn 12 x)
  else if ((length ip =? 16) && (length x =? 4))%nat
  then bytes_eqb (firstn 12 ip) v4InV6Prefix && bytes_eqb (skipn 12 ip) x
  else false.

(** [ip.To4()]: [None] for nil. *)
Definition To4 (ip : list byte) : option (list byte) :=
  if (length ip =? 4)%nat then Some ip
  else if (length ip =? 16)%nat && bytes_eqb (firstn 12 ip) v4InV6Prefix
  then Some (skipn 12 ip)
  else None.

(** [ip.IsLoopback()] *)
Definition IsLoopback (ip : list byte) : bool :=
  match To4 ip with
  | Some ip4 => at_byte ip4 0 =? 127
  | None => Equal ip IPv6loopback
  end.

(** [ip.IsUnspecified()] *)
Definition IsUnspecified (ip : list byte) : bool :=
  Equal ip IPv4zero || Equal ip IPv6unspecified.

(** [ip.IsLinkLocalUnicast()] *)
Definition IsLinkLocalUnicast (ip : list byte) : bool :=
  match To4 ip with
  | Some ip4 => (at_byte ip4 0 =? 169) && (at_byte ip4 1 =? 254)
  | None =>
      (length ip =? 16)%nat && (at_byte ip 0 =? 254) &&
      (Z.land (at_byte ip 1) 192 =? 128)
  end.

End Go.

(** * The Linux online evaluator *)

Module Evaluator.
Import Go.

(** An address of an interface, as [ifi.Addrs()] returns them: a
    [*net.IPNet], a [*net.IPAddr], or a value of another type. *)
Inductive Addr :=
| IPNet (ip : IP)
| IPAddr (ip : IP)
| OtherAddr.

(** [net.Interface], with what [ifi.Addrs()] answers ([None]: an error). *)
Record Interface := {
  Index : Z;
  Name : string;
  Flags : Z;
  Addrs : option (list Addr)
}.

(** [net.FlagUp], [net.FlagLoopback] *)
Definition FlagUp : Z := 1.
Definition FlagLoopback : Z := 4.

(** The kernel state one evaluation reads. [ReadFile path] is the content
    [os.Open] / [os.ReadFile] give for [path] ([None]: an error);
    [Interfaces] is what [net.Interfaces()] lists. [hasDNSResolver] is the
    answer of the package's Linux [hasDNSResolver()] on the host;
    [Resolver.linuxHost] below builds the host whose answer is computed
    from its files. *)
Record Host := {
  ReadFile : string -> option string;
  Interfaces : list Interface;
  hasDNSResolver : bool
}.

(** [net.InterfaceByName(name)]: [None] for an error. The empty name is an
    error. *)
Definition InterfaceByName (h : Host) (name : string) : option Interface :=
  if String.eqb name "" then None
  else find (fun it => String.eqb (Name it) name) (Interfaces h).

Section WithLib.
Context {L : Lib}.

(** [[
   func hexToIPv4(hexs string) string {
     if len(hexs) != 8 { return "" }
     b0 := hexs[0:2]; b1 := hexs[2:4]; b2 := hexs[4:6]; b3 := hexs[6:8]
     bs := []string{b3, b2, b1, b0}
     ... v, err := strconv.ParseUint(h, 16, 8); if err != nil { return "" } ...
     return fmt.Sprintf("%d.%d.%d.%d", octets[0], octets[1], octets[2], octets[3])
   }
]] *)
Definition hexToIPv4 (hexs : string) : string :=
  if negb (String.length hexs =? 8)%nat then ""%string
  else
    let b0 := substring 0 2 hexs in
    let b1 := substring 2 2 hexs in
    let b2 := substring 4 2 hexs in
    let b3 := substring 6 2 hexs in
    match strconv_ParseUint b3 16 8, strconv_ParseUint b2 16 8,
          strconv_ParseUint b1 16 8, strconv_ParseUint b0 16 8 with
    | Some o0, Some o1, Some o2, Some o3 =>
        (sprint_d o0 ++ "." ++ sprint_d o1 ++ "." ++ sprint_d o2 ++ "." ++ sprint_d o3)%string
    | _, _, _, _ => ""%string
    end.

(** [[
   func ifIndexToName(idx int) string {
     ifaces, _ := net.Interfaces()
     for _, it := range ifaces { if it.Index == idx { return it.Name } }
     return ""
   }
]] *)
Definition ifIndexToName (h : Host) (idx : Z) : string :=
  match find (fun it => Index it =? idx) (Interfaces h) with
  | Some it => Name it
  | None => ""%string
  end.

(** The loop of [linuxDefaultRoute] over the lines of [/proc/net/route]
    after the first:
[[
   fields := strings.Fields(sc.Text())
   if len(fields) < 11 { continue }
   iface := fields[0]; destHex := fields[1]; flagsStr := fields[3]; gwHex := fields[2]
   if destHex == "00000000" {
     flags, _ := strconv.ParseInt(flagsStr, 16, 64)
     if flags&0x1 != 0 { gw := hexToIPv4(gwHex); return true, iface, gw, nil }
   }
]] *)
Fixpoint scanRoute4 (lines : list string) : option (string * string) :=
  match lines with
  | [] => None
  | ln :: rest =>
      let fields := strings_Fields ln in
      if len fields <? 11 then scanRoute4 rest
      else if String.eqb (at_ fields 1) "00000000" then
        let flags := strconv_ParseInt (at_ fields 3) 16 64 in
        if negb (Z.land flags 1 =? 0)
        then Some (at_ fields 0, hexToIPv4 (at_ fields 2))
        else scanRoute4 rest
      else scanRoute4 rest
  end.

(** The loop of [linuxDefaultRoute] over the lines of
    [/proc/net/ipv6_route]:
[[
   ln = strings.TrimSpace(ln); if ln == "" { continue }
   fields := strings.Fields(ln); if len(fields) < 10 { continue }
   pfxLenHex := fields[1]
   if pfxLenHex == "000" {
     ifIdxHex := fields[9]
     ifidx, _ := strconv.ParseInt(ifIdxHex, 16, 32)
     ifname := ifIndexToName(int(ifidx))
     return true, ifname, "", nil
   }
]] *)
Fixpoint scanRoute6 (h : Host) (lines : list string) : option string :=
  match lines with
  | [] => None
  | ln :: rest =>
      let ln := strings_TrimSpace ln in
      if String.eqb ln "" then scanRoute6 h rest
      else
        let fields := strings_Fields ln in
        if len fields <? 10 then scanRoute6 h rest
        else if String.eqb (at_ fields 1) "000" then
          let ifidx := strconv_ParseInt (at_ fields 9) 16 32 in
          Some (ifIndexToName h ifidx)
        else scanRoute6 h rest
  end.

(** The IPv6 half of [linuxDefaultRoute], reached when the IPv4 half did
    not return. *)
Definition linuxDefaultRoute6 (h : Host) : bool * string * string * option error :=
  match ReadFile h "/proc/net/ipv6_route" with
  | Some data =>
      match scanRoute6 h (strings_Split_nl data) with
      | Some ifname => (true, ifname, ""%string, None)
      | None => (false, ""%string, ""%string, None)
      end
  | None => (false, ""%string, ""%string, None)
  end.

(** [func linuxDefaultRoute() (bool, string, string, error)]. The first
    [sc.Scan()] skips the header line of [/proc/net/route]. *)
Definition linuxDefaultRoute (h : Host) : bool * string * string * option error :=
  match ReadFile h "/proc/net/route" with
  | Some content =>
      match scanRoute4 (tl (bufio_ScanLines content)) with
      | Some (iface, gw) => (true, iface, gw, None)
      | None => linuxDefaultRoute6 h
      end
  | None => linuxDefaultRoute6 h
  end.

(** The loop of [arpIsReady] over the lines of [/proc/net/arp] after the
    first:
[[
   f := strings.Fields(strings.TrimSpace(ln)); if len(f) < 6 { continue }
   ipf, flags, mac, dev := f[0], f[2], f[3], f[5]
   if dev != ifname || ipf != gw { continue }
   val, _ := strconv.ParseInt(flags, 0, 64)
   if (val & 0x2) == 0 { return false }
   if mac == "00:00:00:00:00:00" { return false }
   return true
]]
    and [return false] after the loop. *)
Fixpoint scanArp (gw ifname : string) (lines : list string) : bool :=
  match lines with
  | [] => false
  | ln :: rest =>
      let f := strings_Fields (strings_TrimSpace ln) in
      if len f <? 6 then scanArp gw ifname rest
      else if negb (String.eqb (at_ f 5) ifname) || negb (String.eqb (at_ f 0) gw)
      then scanArp gw ifname rest
      else
        let val := strconv_ParseInt (at_ f 2) 0 64 in
        if Z.land val 2 =? 0 then false
        else if String.eqb (at_ f 3) "00:00:00:00:00:00" then false
        else true
  end.

(** [ip := net.ParseIP(gw)] is non-nil and [ip.To4()] is non-nil. *)
Definition isIPv4 (gw : string) : bool :=
  match net_ParseIP gw with
  | Some ip => match To4 ip with Some _ => true | None => false end
  | None => false
  end.

(** [[
   func arpIsReady(gw string, ifname string) bool {
     ip := net.ParseIP(gw)
     if ip == nil || ip.To4() == nil { return true }
     b, err := os.ReadFile("/proc/net/arp"); if err != nil { return true }
     lines := strings.Split(string(b), "\n")
     for i, ln := range lines { if i == 0 { continue } ... }
     return false
   }
]] *)
Definition arpIsReady (h : Host) (gw ifname : string) : bool :=
  if negb (isIPv4 gw) then true
  else
    match ReadFile h "/proc/net/arp" with
    | None => true
    | Some b => scanArp gw ifname (tl (strings_Split_nl b))
    end.

(** [[
   func linuxIfaceUp(name string) (bool, error) {
     if name == "" { return false, nil }
     ifi, err := net.InterfaceByName(name)
     if err == nil {
       if (ifi.Flags&net.FlagUp) == 0 || (ifi.Flags&net.FlagLoopback) != 0 { return false, nil }
     }
     oper := filepath.Join("/sys/class/net", name, "operstate")
     if b, err := os.ReadFile(oper); err == nil {
       s := strings.TrimSpace(string(b)); if s != "up" && s != "unknown" { return false, nil }
     }
     carrier := filepath.Join("/sys/class/net", name, "carrier")
     if b, err := os.ReadFile(carrier); err == nil {
       if strings.TrimSpace(string(b)) != "1" { return false, nil }
     }
     return true, nil
   }
]] *)
Definition linuxIfaceUp (h : Host) (name : string) : bool * option error :=
  if String.eqb name "" then (false, None)
  else
    let flagsBad :=
      match InterfaceByName h name with
      | Some ifi =>
          (Z.land (Flags ifi) FlagUp =? 0) || negb (Z.land (Flags ifi) FlagLoopback =? 0)
      | None => false
      end in
    if flagsBad then (false, None)
    else
      let operBad :=
        match ReadFile h (filepath_Join ["/sys/class/net"; name; "operstate"]%string) with
        | Some b =>
            let s := strings_TrimSpace b in
            negb (String.eqb s "up") && negb (String.eqb s "unknown")
        | None => false
        end in
      if operBad then (false, None)
      else
        let carrierBad :=
          match ReadFile h (filepath_Join ["/sys/class/net"; name; "carrier"]%string) with
          | Some b => negb (String.eqb (strings_TrimSpace b) "1")
          | None => false
          end in
        if carrierBad then (false, None) else (true, None).

(** The loop of [ifaceHasUsableAddr]:
[[
   var ip net.IP
   switch v := a.(type) { case *net.IPNet: ip = v.IP; case *net.IPAddr: ip = v.IP }
   if ip == nil || ip.IsLoopback() { continue }
   if v4 := ip.To4(); v4 != nil { if !v4.IsUnspecified() { return true }; continue }
   if ip.IsLinkLocalUnicast() || ip.IsUnspecified() { continue }
   return true
]] *)
Fixpoint scanAddrs (addrs : list Addr) : bool :=
  match addrs with
  | [] => false
  | a :: rest =>
      let ip := match a with IPNet ip => ip | IPAddr ip => ip | OtherAddr => None end in
      match ip with
      | None => scanAddrs rest
      | Some ip =>
          if IsLoopback ip then scanAddrs rest
          else
            match To4 ip with
            | Some v4 => if negb (IsUnspecified v4) then true else scanAddrs rest
            | None =>
                if IsLinkLocalUnicast ip || IsUnspecified ip then scanAddrs rest
                else true
            end
      end
  end.

(** [func ifaceHasUsableAddr(ifname string) bool] *)
Definition ifaceHasUsableAddr (h : Host) (ifname : string) : bool :=
  match InterfaceByName h ifname with
  | None => false
  | Some ifi =>
      match Addrs ifi with
      | None => false
      | Some addrs => scanAddrs addrs
      end
  end.

(** [[
   func recomputeOnline() (bool, string, error) {
     hasDef, ifname, gw, err := linuxDefaultRoute()
     if err != nil { return false, "default route check failed", err }
     if !hasDef { return false, "no default route", nil }
     if ifname == "" { return false, "default route no iface", nil }
     up, err := linuxIfaceUp(ifname); if err != nil { return false, "iface state check failed", err }
     if !up { return false, "default iface down", nil }
     if !ifaceHasUsableAddr(ifname) { return false, "default iface has no usable IP", nil }
     if gw != "" && !arpIsReady(gw, ifname) { return false, "gateway neighbor not ready", nil }
     if !hasDNSResolver() { return false, "no DNS resolver", nil }
     return true, "default via " + ifname, nil
   }
]] *)
Definition recomputeOnline (h : Host) : bool * string * option error :=
  let '(hasDef, ifname, gw, err) := linuxDefaultRoute h in
  match err with
  | Some e => (false, "default route check failed"%string, Some e)
  | None =>
      if negb hasDef then (false, "no default route"%string, None)
      else if String.eqb ifname "" then (false, "default route no iface"%string, None)
      else
        let '(up, err) := linuxIfaceUp h ifname in
        match err with
        | Some e => (false, "iface state check failed"%string, Some e)
        | None =>
            if negb up then (false, "default iface down"%string, None)
            else if negb (ifaceHasUsableAddr h ifname)
            then (false, "default iface has no usable IP"%string, None)
            else if negb (String.eqb gw "") && negb (arpIsReady h gw ifname)
            then (false, "gateway neighbor not ready"%string, None)
            else if negb (hasDNSResolver h) then (false, "no DNS resolver"%string, None)
            else (true, ("default via " ++ ifname)%string, None)
        end
  end.

(** ** The tables, read as the specification speaks of them *)

(** A data line of [/proc/net/route] that is a default route with RTF_UP:
    eleven columns, destination [00000000], bit [0x1] of the flags set. *)
Definition isDefaultUp4 (ln : string) : bool :=
  let fields := strings_Fields ln in
  (11 <=? len fields) && String.eqb (at_ fields 1) "00000000" &&
  negb (Z.land (strconv_ParseInt (at_ fields 3) 16 64) 1 =? 0).

(** The IPv4 routing table holds a default route that is up. *)
Definition hasDefaultRoute4 (content : string) : bool :=
  existsb isDefaultUp4 (tl (bufio_ScanLines content)).

(** A line of [/proc/net/ipv6_route] that is a default route: the kernel
    prints the destination as 32 hexadecimal digits and its prefix length as
    two, so the all-zero destination is [::/0], thirty-two zeros and [00]. *)
Definition isDefault6 (ln : string) : bool :=
  let fields := strings_Fields (strings_TrimSpace ln) in
  (10 <=? len fields) &&
  String.eqb (at_ fields 0) "00000000000000000000000000000000" &&
  String.eqb (at_ fields 1) "00".

(** The IPv6 routing table holds a default route. *)
Definition hasDefaultRoute6 (data : string) : bool :=
  existsb isDefault6 (strings_Split_nl data).

(** The rows of the neighbor table [/proc/net/arp]: the field lists of the
    lines after the header that have the six columns. *)
Definition arpRows (table : string) : list (list string) :=
  filter (fun f => 6 <=? len f)
    (map (fun ln => strings_Fields (strings_TrimSpace ln)) (tl (strings_Split_nl table))).

(** The neighbor-table entry for [gw] on [ifname]: the first row with that
    address and device. *)
Definition arpEntry (table gw ifname : string) : option (list string) :=
  find (fun f => String.eqb (at_ f 5) ifname && String.eqb (at_ f 0) gw) (arpRows table).

(** The entry has flag bit [0x2] set and a MAC other than all-zeros. *)
Definition entryReady (f : list string) : bool :=
  negb (Z.land (strconv_ParseInt (at_ f 2) 0 64) 2 =? 0) &&
  negb (String.eqb (at_ f 3) "00:00:00:00:00:00").

(** What [recomputeOnline] answers once the gateway check is passed or
    skipped: the DNS layer decides. *)
Definition dnsLayer (h : Host) (ifname : string) : bool * string * option error :=
  if negb (hasDNSResolver h) then (false, "no DNS resolver"%string, None)
  else (true, ("default via " ++ ifname)%string, None).

End WithLib.

End Evaluator.

(** * A library implementation that runs *)

(** An implementation of [Go.Lib] for ASCII text, used to run the evaluator
    on concrete tables. On ASCII text without underscores it follows Go's
    functions; [net_ParseIP] reads dotted-quad IPv4 text only, and
    [filepath_Join] joins path elements that need no cleaning. *)
Module Ref.
Import Go.

Definition code (c : ascii) : Z := Z.of_nat (nat_of_ascii c).

(** ASCII white space: tab, line feed, vertical tab, form feed, carriage
    return, space. *)
Definition is_space (c : ascii) : bool :=
  let n := code c in ((9 <=? n) && (n <=? 13)) || (n =? 32).

Definition is_empty (s : string) : bool :=
  match s with EmptyString => true | _ => false end.

Fixpoint fields_from (s cur : string) : list string :=
  match s with
  | EmptyString => if is_empty cur then [] else [cur]
  | String c s' =>
      if is_space c
      then if is_empty cur then fields_from s' EmptyString
           else cur :: fields_from s' EmptyString
      else fields_from s' (cur ++ String c EmptyString)%string
  end.

Definition Fields (s : string) : list string := fields_from s EmptyString.

Fixpoint trim_left (s : string) : string :=
  match s with
  | EmptyString => EmptyString
  | String c s' => if is_space c then trim_left s' else s
  end.

Fixpoint trim_right (s : string) : string :=
  match s with
  | EmptyString => EmptyString
  | String c s' =>
      let r := trim_right s' in
      if is_space c && is_empty r then EmptyString else String c r
  end.

Definition TrimSpace (s : string) : string := trim_right (trim_left s).

(** [bufio.ScanLines]: a trailing carriage return is dropped. *)
Fixpoint dropCR (s : string) : string :=
  match s with
  | EmptyString => EmptyString
  | String c EmptyString => if code c =? 13 then EmptyString else s
  | String c s' => String c (dropCR s')
  end.

Fixpoint drop_last_empty (ls : list string) : list string :=
  match ls with
  | [] => []
  | [l] => if is_empty l then [] else [l]
  | l :: rest => l :: drop_last_empty rest
  end.

(** Scanning stops at a line that does not fit the scanner's 64 KiB
    buffer. *)
Fixpoint until_too_long (ls : list string) : list string :=
  match ls with
  | [] => []
  | l :: rest =>
      if 65536 <=? Z.of_nat (String.length l) then [] else l :: until_too_long rest
  end.

Definition ScanLines (content : string) : list string :=
  map dropCR (until_too_long (drop_last_empty (strings_Split_nl content))).

Definition digit_val (c : ascii) : option Z :=
  let n := code c in
  if (48 <=? n) && (n <=? 57) then Some (n - 48)
  else if (97 <=? n) && (n <=? 122) then Some (n - 97 + 10)
  else if (65 <=? n) && (n <=? 90) then Some (n - 65 + 10)
  else None.

Inductive Parsed :=
| Value (n : Z)
| RangeErr
| SyntaxErr.

Fixpoint digits (base maxVal : Z) (s : string) (n : Z) : Parsed :=
  match s with
  | EmptyString => Value n
  | String c s' =>
      match digit_val c with
      | None => SyntaxErr
      | Some d =>
          if base <=? d then SyntaxErr
          else
            let n1 := n * base + d in
            if maxVal <? n1 then RangeErr else digits base maxVal s' n1
      end
  end.

(** The base prefix read when [base] is [0]. *)
Definition lower (c : ascii) : Z := let n := code c in if (65 <=? n) && (n <=? 90) then n + 32 else n.

Definition split_base (s : string) : Z * string :=
  match s with
  | String c0 (String c1 rest) =>
      if code c0 =? 48 then
        if (3 <=? Z.of_nat (String.length s)) && (lower c1 =? 98) then (2, rest)
        else if (3 <=? Z.of_nat (String.length s)) && (lower c1 =? 111) then (8, rest)
        else if (3 <=? Z.of_nat (String.length s)) && (lower c1 =? 120) then (16, rest)
        else (8, String c1 rest)
      else (10, s)
  | String c0 EmptyString => if code c0 =? 48 then (8, EmptyString) else (10, s)
  | EmptyString => (10, s)
  end.

Definition parseUint (s : string) (base bitSize : Z) : Parsed :=
  if is_empty s then SyntaxErr
  else
    let '(base', body) := if base =? 0 then split_base s else (base, s) in
    digits base' (2 ^ bitSize - 1) body 0.

Definition ParseUint (s : string) (base bitSize : Z) : option Z :=
  match parseUint s base bitSize with
  | Value n => Some n
  | _ => None
  end.

Definition ParseInt (s : string) (base bitSize : Z) : Z :=
  match s with
  | EmptyString => 0
  | String c rest =>
      let '(neg, body) :=
        if code c =? 43 then (false, rest)
        else if code c =? 45 then (true, rest)
        else (false, s) in
      let cutoff := 2 ^ (bitSize - 1) in
      match parseUint body base bitSize with
      | SyntaxErr => 0
      | RangeErr => if neg then - cutoff else cutoff - 1
      | Value un =>
          if negb neg && (cutoff <=? un) then cutoff - 1
          else if neg && (cutoff <? un) then - cutoff
          else if neg then - un else un
      end
  end.

Fixpoint split_dot (s cur : string) : list string :=
  match s with
  | EmptyString => [cur]
  | String c s' =>
      if code c =? 46 then cur :: split_dot s' EmptyString
      else split_dot s' (cur ++ String c EmptyString)%string
  end.

(** A decimal octet without leading zeros. *)
Definition octet (s : string) : option byte :=
  match s with
  | EmptyString => None
  | String c rest =>
      if (code c =? 48) && negb (is_empty rest) then None
      else
        match digits 10 255 s 0 with
        | Value n => Byte.of_N (Z.to_N n)
        | _ => None
        end
  end.

Definition ParseIP (s : string) : IP :=
  match map octet (split_dot s EmptyString) with
  | [Some a; Some b; Some c; Some d] => Some (v4InV6Prefix ++ [a; b; c; d])
  | _ => None
  end.

Fixpoint Join (elems : list string) : string :=
  match elems with
  | [] => EmptyString
  | e :: rest =>
      let r := Join rest in
      if is_empty e then r
      else if is_empty r then e
      else (e ++ "/" ++ r)%string
  end.

Definition lib : Lib :=
  {| strings_Fields := Fields;
     strings_TrimSpace := TrimSpace;
     bufio_ScanLines := ScanLines;
     strconv_ParseInt := ParseInt;
     strconv_ParseUint := ParseUint;
     net_ParseIP := ParseIP;
     filepath_Join := Join |}.

End Ref.

(** * Hosts *)

Module Hosts.
Import Go Evaluator.

Definition nl : string := String "010"%char EmptyString.

(** A text file of the given lines. *)
Fixpoint text (lines : list string) : string :=
  match lines with
  | [] => EmptyString
  | l :: rest => (l ++ nl ++ text rest)%string
  end.

(** A file system given by the files it holds; every other path is an
    error. *)
Fixpoint files (fs : list (string * string)) (path : string) : option string :=
  match fs with
  | [] => None
  | (p, content) :: rest => if String.eqb p path then Some content else files rest path
  end.

Definition route_header : string :=
  "Iface Destination Gateway Flags RefCnt Use Metric Mask MTU Window IRTT".

Definition arp_header : string :=
  "IP address       HW type     Flags       HW address            Mask     Device".

(** [eth0]: up, broadcast, multicast, running; it holds 192.168.1.42. *)
Definition eth0 : Interface :=
  {| Index := 2; Name := "eth0"; Flags := 51;
     Addrs := Some [IPNet (Some [xc0; xa8; x01; x2a])] |}.

(** [eth0] holding 2001:db8::42 and fe80::1. *)
Definition eth0_v6 : Interface :=
  {| Index := 2; Name := "eth0"; Flags := 51;
     Addrs := Some [IPNet (Some ([x20; x01; x0d; xb8] ++ repeat x00 11 ++ [x42]));
                    IPNet (Some ([xfe; x80] ++ repeat x00 13 ++ [x01]))] |}.

(** The first end-to-end scenario of the design: default route via [eth0]
    (destination [00000000], flags [0003], gateway [0101010A], that is
    10.1.1.1), [operstate=up], [carrier=1], ARP for 10.1.1.1 with flags
    [0x2] and MAC [aa:bb:cc:dd:ee:ff], a DNS resolver configured. *)
Definition scenario1 : Host :=
  {| ReadFile := files
       [("/proc/net/route",
         text [route_header; "eth0 00000000 0101010A 0003 0 0 100 00000000 0 0 0"]);
        ("/proc/net/arp",
         text [arp_header;
               "10.1.1.1         0x1         0x2         aa:bb:cc:dd:ee:ff     *        eth0"]);
        ("/sys/class/net/eth0/operstate", text ["up"]);
        ("/sys/class/net/eth0/carrier", text ["1"])]%string;
     Interfaces := [eth0];
     hasDNSResolver := true |}.

(** The fifth scenario: as the first, with the gateway not yet resolved
    (ARP flags [0x0]). *)
Definition scenario5 : Host :=
  {| ReadFile := files
       [("/proc/net/route",
         text [route_header; "eth0 00000000 0101010A 0003 0 0 100 00000000 0 0 0"]);
        ("/proc/net/arp",
         text [arp_header;
               "10.1.1.1         0x1         0x0         00:00:00:00:00:00     *        eth0"]);
        ("/sys/class/net/eth0/operstate", text ["up"]);
        ("/sys/class/net/eth0/carrier", text ["1"])]%string;
     Interfaces := [eth0];
     hasDNSResolver := true |}.

(** The content of [/proc/net/ipv6_route] of a host whose only default
    route is [::/0 via fe80::1 dev eth0], as the kernel prints it. *)
Definition ipv6_route_table : string :=
  text ["00000000000000000000000000000000 00 00000000000000000000000000000000 00 fe800000000000000000000000000001 00000400 00000001 00000000 00000003     eth0";
        "fe800000000000000000000000000000 40 00000000000000000000000000000000 00 00000000000000000000000000000000 00000100 00000001 00000000 00000001     eth0"]%string.

(** An IPv6-only host: no IPv4 route, the IPv6 table above, [eth0] up with
    a global address, a DNS resolver configured. *)
Definition v6only : Host :=
  {| ReadFile := files
       [("/proc/net/route", text [route_header]);
        ("/proc/net/ipv6_route", ipv6_route_table);
        ("/sys/class/net/eth0/operstate", text ["up"]);
        ("/sys/class/net/eth0/carrier", text ["1"])]%string;
     Interfaces := [eth0_v6];
     hasDNSResolver := true |}.

(** [ppp0]: up, point-to-point, multicast, running; it holds 10.64.0.2. *)
Definition ppp0 : Interface :=
  {| Index := 3; Name := "ppp0"; Flags := 57;
     Addrs := Some [IPNet (Some [x0a; x40; x00; x02])] |}.

(** A host whose default route has no gateway: [default dev ppp0], as a
    PPP or VPN link installs it. The kernel prints the route with the
    gateway column [00000000] and the flags [0001] (RTF_UP without
    RTF_GATEWAY). The link is up, holds an address, and a DNS resolver is
    configured; the neighbor table holds the router of the local network
    on [eth0], and no row for 0.0.0.0. *)
Definition onlink : Host :=
  {| ReadFile := files
       [("/proc/net/route",
         text [route_header; "ppp0 00000000 00000000 0001 0 0 0 00000000 0 0 0"]);
        ("/proc/net/arp",
         text [arp_header;
               "192.168.1.1      0x1         0x2         aa:bb:cc:dd:ee:ff     *        eth0"]);
        ("/sys/class/net/ppp0/operstate", text ["unknown"]);
        ("/sys/class/net/ppp0/carrier", text ["1"])]%string;
     Interfaces := [eth0; ppp0];
     hasDNSResolver := true |}.

(** A host on which no file can be read: neither routing table of [/proc]
    opens. *)
Definition unreadable : Host :=
  {| ReadFile := files [];
     Interfaces := [eth0];
     hasDNSResolver := true |}.

End Hosts.

(** * Buffered channels *)

Module Chan.

(** A channel made by [make(chan A, cap)]: the values sent and not yet
    received, oldest first. *)
Record chan (A : Type) := {
  cap : nat;
  buf : list A;
  closed : bool
}.
Arguments cap {A} _.
Arguments buf {A} _.
Arguments closed {A} _.

Definition make (A : Type) (n : nat) : chan A :=
  {| cap := n; buf := []; closed := false |}.

Definition full {A : Type} (c : chan A) : bool := (cap c <=? length (buf c))%nat.

Definition push {A : Type} (c : chan A) (v : A) : chan A :=
  {| cap := cap c; buf := buf c ++ [v]; closed := closed c |}.

(** [close(c)] *)
Definition close {A : Type} (c : chan A) : chan A :=
  {| cap := cap c; buf := buf c; closed := true |}.

(** The statement [c <- v] on an open channel: it completes when the buffer
    has room, and otherwise the sending goroutine blocks until a receive
    makes room. *)
Inductive Send (A : Type) :=
| Sent (c : chan A)
| Blocks.
Arguments Sent {A} _.
Arguments Blocks {A}.

Definition send {A : Type} (c : chan A) (v : A) : Send A :=
  if full c then Blocks else Sent (push c v).

(** [select { case c <- v: default: }]: the value is dropped when the
    buffer is full. The boolean tells whether it was sent. *)
Definition try_send {A : Type} (c : chan A) (v : A) : chan A * bool :=
  if full c then (c, false) else (push c v, true).

(** A receive by the consumer. *)
Definition receive {A : Type} (c : chan A) : chan A :=
  {| cap := cap c; buf := tl (buf c); closed := closed c |}.

End Chan.

(** * The OS event source *)

(** [type osEvent struct{ reason string }] *)
Record osEvent := { reason : string }.

Module EventSource.
Import Chan.

(** The two channels [startOSEventStream] returns:
    [out := make(chan osEvent, 8)], [errc := make(chan error, 1)]. *)
Record Streams := {
  out : chan osEvent;
  errc : chan error
}.

Definition fresh : Streams :=
  {| out := make osEvent 8; errc := make error 1 |}.

(** [defer close(out); defer close(errc)], run when the goroutine returns. *)
Definition closeAll (s : Streams) : Streams :=
  {| out := close (out s); errc := close (errc s) |}.

(** What a read of the kernel socket gives: the bytes of a datagram, or an
    errno. *)
Inductive Read :=
| ReadOk (data : list byte)
| ReadErr (errno : Z).

(** Where a turn of the reader loop leaves the goroutine. *)
Inductive Turn :=
| Continue (s : Streams)
| Exit (s : Streams)
| ParkedOnEvent (s : Streams) (e : osEvent)
| ParkedOnError (s : Streams) (e : error)
| Stuck.

(** [errc <- err] followed by what [k] says. *)
Definition sendError (s : Streams) (e : error) (k : Streams -> Turn) : Turn :=
  match send (errc s) e with
  | Sent c => k {| out := out s; errc := c |}
  | Blocks => ParkedOnError s e
  end.

(** ** Linux *)

Definition RTM_NEWLINK : Z := 16.
Definition RTM_DELLINK : Z := 17.
Definition RTM_NEWADDR : Z := 20.
Definition RTM_DELADDR : Z := 21.
Definition RTM_NEWROUTE : Z := 24.
Definition RTM_DELROUTE : Z := 25.

(** The [switch m.Header.Type] of the Linux reader: the event a message
    stands for, if any. *)
Definition classify (m : Netlink.nlmsg) : option osEvent :=
  let t := Netlink.Type_ (Netlink.Header m) in
  if (t =? RTM_NEWROUTE) || (t =? RTM_DELROUTE) then Some {| reason := "route change" |}
  else if (t =? RTM_NEWADDR) || (t =? RTM_DELADDR) then Some {| reason := "addr change" |}
  else if (t =? RTM_NEWLINK) || (t =? RTM_DELLINK) then Some {| reason := "link change" |}
  else None.

(** [for _, m := range msgs { switch ... { case ...: out <- osEvent{...} } }] *)
Fixpoint linuxEmit (msgs : list Netlink.nlmsg) (s : Streams) : Turn :=
  match msgs with
  | [] => Continue s
  | m :: rest =>
      match classify m with
      | None => linuxEmit rest s
      | Some e =>
          match send (out s) e with
          | Sent c => linuxEmit rest {| out := c; errc := errc s |}
          | Blocks => ParkedOnEvent s e
          end
      end
  end.

(** One turn of the Linux reader loop:
[[
   select { case <-ctx.Done(): return; default: }
   n, _, err := unix.Recvfrom(fd, buf, 0)
   if err != nil {
     if errors.Is(err, unix.EINTR) { continue }
     errc <- fmt.Errorf("netlink recv: %w", err); return
   }
   msgs, err := parseNlMsgs(buf[:n]); if err != nil { errc <- err; continue }
   for _, m := range msgs { ... }
]] *)
Definition linuxTurn (ctxDone : bool) (r : Read) (s : Streams) : Turn :=
  if ctxDone then Exit (closeAll s)
  else
    match r with
    | ReadErr errno =>
        if errors_Is (Errno errno) EINTR then Continue s
        else sendError s (Wrapped "netlink recv" (Errno errno)) (fun s' => Exit (closeAll s'))
    | ReadOk data =>
        match Netlink.parseNlMsgs 64 data with
        | Some (Netlink.Returned msgs (Some msg)) => sendError s (ErrorString msg) Continue
        | Some (Netlink.Returned msgs None) => linuxEmit msgs s
        | Some Netlink.Panicked => Stuck
        | None => Stuck
        end
    end.

(** ** FreeBSD and macOS *)

(** One turn of the BSD reader loop:
[[
   select { case <-ctx.Done(): return; default: }
   n, err := unix.Read(fd, buf)
   if err != nil { errc <- fmt.Errorf("route recv: %w", err); return }
   if _, err := route.ParseRIB(route.RIBTypeKernel, buf[:n]); err != nil {
     out <- osEvent{reason: "net change"}; continue
   }
   out <- osEvent{reason: "net change"}
]] *)
Definition bsdTurn (ctxDone : bool) (r : Read) (s : Streams) : Turn :=
  if ctxDone then Exit (closeAll s)
  else
    match r with
    | ReadErr errno =>
        sendError s (Wrapped "route recv" (Errno errno)) (fun s' => Exit (closeAll s'))
    | ReadOk _ =>
        match send (out s) {| reason := "net change" |} with
        | Sent c => Continue {| out := c; errc := errc s |}
        | Blocks => ParkedOnEvent s {| reason := "net change" |}
        end
    end.

(** ** Windows *)

(** The closure [send] the two notification callbacks call:
[[
   send := func(reason string) {
     if atomic.LoadUint32(&stopped) == 1 { return }
     select { case out <- osEvent{reason: reason}: default: }
   }
]] *)
Definition windowsSend (stopped : bool) (why : string) (s : Streams) : Streams :=
  if stopped then s
  else {| out := fst (try_send (out s) {| reason := why |}); errc := errc s |}.

(** The event channel with eight events waiting. *)
Definition eightWaiting : Streams :=
  {| out := {| cap := 8; buf := repeat {| reason := "link change" |} 8; closed := false |};
     errc := make error 1 |}.

End EventSource.

(** * The edge detector *)

Module Watch.

(** [type Event struct { Online bool; ChangedAt time.Time; Cause string }] *)
Record Event := {
  Online : bool;
  ChangedAt : Z;
  Cause : string
}.

(** [750*time.Millisecond], in nanoseconds. *)
Definition debounce : Z := 750 * 1000000.

(** What the detector does that the outside sees, in the order it does it:
    a call of [recomputeOnline] at a time, a send on the error channel, a
    send on the event channel, the closing of a channel. *)
Inductive Action :=
| Evaluate (t : Z)
| SendErr (e : error)
| SendEvent (e : Event)
| CloseErr
| CloseOut.

(** The variables the goroutine of [Watch] and its closure [trigger] share.
    [debounceTimer] is the time at which the armed timer fires, [None] when
    no timer is pending. [running] is false once the goroutine returned. *)
Record State := {
  last : bool;
  lastReason : string;
  debounceTimer : option Z;
  running : bool
}.

(** What the [select] of the loop receives, and when; [Idle t] is time
    passing until [t] with nothing to receive. *)
Inductive Input :=
| OSEvent (t : Z) (e : osEvent)
| SourceError (t : Z) (err : option error)
| Done (t : Z)
| Idle (t : Z).

Definition time_of (i : Input) : Z :=
  match i with
  | OSEvent t _ => t
  | SourceError t _ => t
  | Done t => t
  | Idle t => t
  end.

Section WithEvaluator.

(** [recomputeOnline t]: what a call of [recomputeOnline()] made at time
    [t] returns. *)
Variable recomputeOnline : Z -> bool * string * option error.

(** The start of [Watch], up to the [go] statement:
[[
   online, why, err := recomputeOnline()
   if err != nil { errc <- err }
   last := online
   out <- Event{Online: online, ChangedAt: time.Now(), Cause: "initial: " + why}
]]
    Both channels are fresh and of capacity 1, so neither send blocks. *)
Definition start (t0 : Z) : State * list Action :=
  let '(online, why, err) := recomputeOnline t0 in
  ({| last := online; lastReason := ""; debounceTimer := None; running := true |},
   [Evaluate t0] ++
   match err with Some e => [SendErr e] | None => [] end ++
   [SendEvent {| Online := online; ChangedAt := t0; Cause := "initial: " ++ why |}]).

(** [[
   trigger := func() {
     online, why, err := recomputeOnline()
     if err != nil { errc <- err; return }
     if online != last {
       last = online
       cause := why
       if lastReason != "" { cause = lastReason + "; " + why }
       out <- Event{Online: online, ChangedAt: time.Now(), Cause: cause}
     }
   }
]] *)
Definition trigger (t : Z) (s : State) : State * list Action :=
  let '(online, why, err) := recomputeOnline t in
  match err with
  | Some e => (s, [Evaluate t; SendErr e])
  | None =>
      if negb (Bool.eqb online (last s)) then
        let cause :=
          if negb (String.eqb (lastReason s) "")
          then (lastReason s ++ "; " ++ why)%string
          else why in
        ({| last := online; lastReason := lastReason s;
            debounceTimer := debounceTimer s; running := running s |},
         [Evaluate t; SendEvent {| Online := online; ChangedAt := t; Cause := cause |}])
      else (s, [Evaluate t])
  end.

(** The timer armed by [time.AfterFunc(750*time.Millisecond, trigger)]
    fires once its time has come: [trigger] runs at that time, and no timer
    is pending afterwards. *)
Definition fireDue (t : Z) (s : State) : State * list Action :=
  match debounceTimer s with
  | Some d =>
      if d <=? t then
        let '(s', acts) := trigger d s in
        ({| last := last s'; lastReason := lastReason s';
            debounceTimer := None; running := running s' |}, acts)
      else (s, [])
  | None => (s, [])
  end.

(** One case of the [select]:
[[
   case <-ctx.Done():
     if debounceTimer != nil { debounceTimer.Stop() }
     return
   case e := <-events:
     lastReason = e.reason
     if debounceTimer != nil { debounceTimer.Stop() }
     debounceTimer = time.AfterFunc(750*time.Millisecond, trigger)
   case err := <-errs:
     if err != nil { errc <- err }
]]
    On [return] the deferred [close(errc)] and [close(out)] run, in that
    order. *)
Definition selectCase (i : Input) (s : State) : State * list Action :=
  match i with
  | Done _ =>
      ({| last := last s; lastReason := lastReason s;
          debounceTimer := None; running := false |}, [CloseErr; CloseOut])
  | OSEvent t e =>
      ({| last := last s; lastReason := reason e;
          debounceTimer := Some (t + debounce); running := running s |}, [])
  | SourceError _ (Some err) => (s, [SendErr err])
  | SourceError _ None => (s, [])
  | Idle _ => (s, [])
  end.

(** The detector up to and including the input [i]: a timer that is due
    fires first. Runs of [trigger] are taken one at a time, in the order
    their timers fire, and their sends reach the channels in that order.
    Each run is taken to have ended, its sends received, before the loop
    takes its next input: a [trigger] still running in the goroutine of
    its timer when the loop returns and closes the channels is not
    covered. *)
Definition step (s : State) (i : Input) : State * list Action :=
  if running s then
    let '(s1, a1) := fireDue (time_of i) s in
    let '(s2, a2) := selectCase i s1 in
    (s2, a1 ++ a2)
  else (s, []).

Fixpoint run (s : State) (inputs : list Input) : State * list Action :=
  match inputs with
  | [] => (s, [])
  | i :: rest =>
      let '(s1, a1) := step s i in
      let '(s2, a2) := run s1 rest in
      (s2, a1 ++ a2)
  end.

(** [Watch], started at time [t0] and fed [inputs]. *)
Definition Watch (t0 : Z) (inputs : list Input) : State * list Action :=
  let '(s0, a0) := start t0 in
  let '(s, a) := run s0 inputs in
  (s, a0 ++ a).

End WithEvaluator.

(** The change events sent, in order. *)
Fixpoint events (acts : list Action) : list Event :=
  match acts with
  | [] => []
  | SendEvent e :: rest => e :: events rest
  | _ :: rest => events rest
  end.

(** The errors sent, in order. *)
Fixpoint errors (acts : list Action) : list error :=
  match acts with
  | [] => []
  | SendErr e :: rest => e :: errors rest
  | _ :: rest => errors rest
  end.

(** The times of the calls of [recomputeOnline], in order. *)
Fixpoint evaluations (acts : list Action) : list Z :=
  match acts with
  | [] => []
  | Evaluate t :: rest => t :: evaluations rest
  | _ :: rest => evaluations rest
  end.

(** Any two neighbours differ. *)
Fixpoint alternates (l : list bool) : Prop :=
  match l with
  | a :: (b :: _) as rest => a <> b /\ alternates rest
  | _ => True
  end.

(** The arrival times are in order and less than the debounce period
    apart. *)
Fixpoint spaced (ts : list Z) : Prop :=
  match ts with
  | t1 :: (t2 :: _) as rest => 0 <= t2 - t1 < debounce /\ spaced rest
  | _ => True
  end.

Definition arrival (a : Z * string) : Input := OSEvent (fst a) {| reason := snd a |}.

(** An evaluator for the examples: offline before [5 s], online from then
    on. *)
Definition onlineFrom5s (t : Z) : bool * string * option error :=
  if t <? 5000000000 then (false, "no default route"%string, None)
  else (true, "default via eth0"%string, None).

End Watch.

(** * The wake-gap watcher *)

Module WakeGap.
Import Chan.

(** [time.Second], [time.Millisecond]: a [time.Duration] counts
    nanoseconds in an [int64]. *)
Definition Second : Z := 1000000000.
Definition Millisecond : Z := 1000000.

(** The sum of two [time.Duration]s. *)
Definition add64 (a b : Z) : Z := wrap_signed 64 (a + b).

(** [now.Sub(last)] of two times that carry monotonic clock readings [t]
    and [u]: the difference, saturated at the ends of [int64]. *)
Definition Sub (t u : Z) : Z :=
  let d := wrap_signed 64 (t - u) in
  if (d <? 0) && (t >? u) then max_int64
  else if (d >? 0) && (t <? u) then min_int64
  else d.

(** The variables of the goroutine of [StartWakeGapWatcher]. *)
Record Watcher := {
  sample : Z;
  gapThreshold : Z;
  last : Z;
  out : chan unit
}.

(** [[
   if sample <= 0 { sample = time.Second }
   if gapThreshold <= 0 { gapThreshold = 1500 * time.Millisecond }
   out := make(chan struct{}, 1)
   t := time.NewTicker(sample)
   last := time.Now()
]] *)
Definition StartWakeGapWatcher (sample0 gapThreshold0 now0 : Z) : Watcher :=
  {| sample := if sample0 <=? 0 then Second else sample0;
     gapThreshold := if gapThreshold0 <=? 0 then 1500 * Millisecond else gapThreshold0;
     last := now0;
     out := make unit 1 |}.

(** [[
   case now := <-t.C:
     d := now.Sub(last); last = now
     if d >= sample + gapThreshold {
       select { case out <- struct{}{}: default: }
     }
]]
    The boolean tells whether the send was attempted. *)
Definition tick (w : Watcher) (now : Z) : Watcher * bool :=
  let d := Sub now (last w) in
  let fire := d >=? add64 (sample w) (gapThreshold w) in
  ({| sample := sample w;
      gapThreshold := gapThreshold w;
      last := now;
      out := if fire then fst (try_send (out w) tt) else out w |},
   fire).

(** What happens to the watcher: a tick of its ticker, or a receive by the
    consumer. *)
Inductive Input :=
| Tick (now : Z)
| Receive.

Definition step (w : Watcher) (i : Input) : Watcher :=
  match i with
  | Tick now => fst (tick w now)
  | Receive =>
      {| sample := sample w; gapThreshold := gapThreshold w; last := last w;
         out := receive (out w) |}
  end.

Definition run (w : Watcher) (inputs : list Input) : Watcher := fold_left step inputs w.

(** [case <-ctx.Done(): return], with the deferred [close(out)]. *)
Definition stop (w : Watcher) : Watcher :=
  {| sample := sample w; gapThreshold := gapThreshold w; last := last w;
     out := close (out w) |}.

Definition tickTime (i : Input) : Prop :=
  match i with
  | Tick now => is_int64 now
  | Receive => True
  end.

(** The time of the tick before: that of the last [Tick] among the
    inputs, and the time [now0] at which the watcher started when no tick
    came yet. *)
Fixpoint previousTick (now0 : Z) (inputs : list Input) : Z :=
  match inputs with
  | [] => now0
  | Tick now :: rest => previousTick now rest
  | Receive :: rest => previousTick now0 rest
  end.

End WakeGap.

(** * The netlink wire format, written *)

Module NetlinkWire.
Import Netlink.

(** The byte of value [v mod 256]. *)
Definition byte_of (v : Z) : byte :=
  match Byte.of_N (Z.to_N (v mod 256)) with
  | Some b => b
  | None => x00
  end.

(** [n] bytes of [v], least significant first. *)
Fixpoint le_bytes (n : nat) (v : Z) : list byte :=
  match n with
  | O => []
  | S n' => byte_of v :: le_bytes n' (v / 256)
  end.

(** NLMSG_ALIGN: the next multiple of four. *)
Definition align4 (n : Z) : Z := 4 * ((n + 3) / 4).

(** The sixteen bytes of a header. *)
Definition hdr_bytes (h : nlmsghdr) : list byte :=
  le_bytes 4 (Len h) ++ le_bytes 2 (Type_ h) ++ le_bytes 2 (Flags h) ++
  le_bytes 4 (Seq h) ++ le_bytes 4 (Pid h).

(** A message as the kernel lays it out in a datagram: the sixteen-byte
    header, the body, and zero padding up to a multiple of four. *)
Definition encode (m : nlmsg) : list byte :=
  le_bytes 4 (Len (Header m)) ++ le_bytes 2 (Type_ (Header m)) ++
  le_bytes 2 (Flags (Header m)) ++ le_bytes 4 (Seq (Header m)) ++
  le_bytes 4 (Pid (Header m)) ++
  Body m ++ repeat x00 (Z.to_nat (align4 (Len (Header m)) - Len (Header m))).

(** A message whose header fields fit their types and whose length field
    counts the header and the body. *)
Definition wellFormed (m : nlmsg) : Prop :=
  Len (Header m) = 16 + len (Body m) /\
  Len (Header m) < 2 ^ 32 /\
  0 <= Type_ (Header m) < 2 ^ 16 /\
  0 <= Flags (Header m) < 2 ^ 16 /\
  0 <= Seq (Header m) < 2 ^ 32 /\
  0 <= Pid (Header m) < 2 ^ 32.

(** A datagram: messages one after the other. *)
Definition datagram (ms : list nlmsg) : list byte := concat (map encode ms).

(** An RTM_NEWADDR message with a five-byte body, and a datagram of it and
    of a route message. *)
Definition addr_msg : nlmsg :=
  {| Header := {| Len := 21; Type_ := 20; Flags := 0; Seq := 7; Pid := 0 |};
     Body := [x02; x18; x00; x00; x02] |}.

Definition route_msg : nlmsg :=
  {| Header := {| Len := 20; Type_ := 24; Flags := 0; Seq := 8; Pid := 0 |};
     Body := [x02; x00; x00; x00] |}.

End NetlinkWire.

(** * The events of a datagram *)

Module LinuxReader.
Import EventSource.




End LinuxReader.

(** * The text of the routing table *)

Module RouteText.

Definition bv (b : byte) : Z := Z.of_N (Byte.to_N b).

(** A hexadecimal digit, upper case, as the kernel prints them with
    [%08X]. *)
Definition hexDigit (n : Z) : ascii :=
  ascii_of_nat (Z.to_nat (if n <? 10 then 48 + n else 55 + n)).

(** The two hexadecimal digits of a byte. *)
Definition hex2 (b : byte) : string :=
  String (hexDigit (bv b / 16)) (String (hexDigit (bv b mod 16)) EmptyString).

(** The gateway column of [/proc/net/route] for the address
    [b0.b1.b2.b3]: the kernel prints the address, held in network byte
    order, as one 32-bit number of a little-endian host, so the last octet
    comes first. *)
Definition gatewayColumn (b0 b1 b2 b3 : byte) : string :=
  (hex2 b3 ++ hex2 b2 ++ hex2 b1 ++ hex2 b0)%string.

(** A host with two default routes in [/proc/net/route]: the first listed
    through [wlan0] with metric 600, the second through [eth0] with metric
    100. *)
Definition two_defaults : Evaluator.Host :=
  {| Evaluator.ReadFile := Hosts.files
       [("/proc/net/route",
         Hosts.text [Hosts.route_header;
                     "wlan0 0000A8C0 00000000 0001 0 0 600 00FFFFFF 0 0 0";
                     "wlan0 00000000 0100A8C0 0003 0 0 600 00000000 0 0 0";
                     "eth0 00000000 0101010A 0003 0 0 100 00000000 0 0 0"])]%string;
     Evaluator.Interfaces := [Hosts.eth0];
     Evaluator.hasDNSResolver := true |}.

End RouteText.

(** * The DNS resolver checks *)

Module Resolver.
Import Go.

(** [strings.HasPrefix(s, prefix)] *)
Definition HasPrefix (s pre : string) : bool := String.prefix pre s.

Section WithLib.
Context {L : Lib}.

(** The loop of the Linux [hasDNSResolver] over the lines of one file:
[[
   line := strings.TrimSpace(sc.Text())
   if !strings.HasPrefix(line, "nameserver") { continue }
   parts := strings.Fields(line)
   if len(parts) < 2 { continue }
   addr := net.ParseIP(parts[1])
   if addr == nil || addr.IsLoopback() { continue }
   found = true; break
]] *)
Fixpoint scanResolv (lines : list string) : bool :=
  match lines with
  | [] => false
  | ln :: rest =>
      let line := strings_TrimSpace ln in
      if negb (HasPrefix line "nameserver") then scanResolv rest
      else
        let parts := strings_Fields line in
        if len parts <? 2 then scanResolv rest
        else
          match net_ParseIP (at_ parts 1) with
          | None => scanResolv rest
          | Some addr => if IsLoopback addr then scanResolv rest else true
          end
  end.

(** [[
   for _, p := range paths {
     f, err := os.Open(p)
     if err != nil { continue }
     ... found := false; for sc.Scan() { ... } ...
     if found { return true }
   }
   return false
]] *)
Fixpoint scanPaths (readFile : string -> option string) (paths : list string) : bool :=
  match paths with
  | [] => false
  | p :: rest =>
      match readFile p with
      | None => scanPaths readFile rest
      | Some content =>
          if scanResolv (bufio_ScanLines content) then true
          else scanPaths readFile rest
      end
  end.

(** The Linux [func hasDNSResolver() bool], over what the files hold. *)
Definition linuxHasDNSResolver (readFile : string -> option string) : bool :=
  scanPaths readFile ["/run/systemd/resolve/resolv.conf"; "/etc/resolv.conf"]%string.

(** The loop of the FreeBSD and macOS [hasDNSResolver]:
[[
   line := strings.TrimSpace(sc.Text())
   if strings.HasPrefix(line, "nameserver") {
     parts := strings.Fields(line)
     if len(parts) >= 2 && parts[1] != "" { return true }
   }
]] *)
Fixpoint scanResolvBSD (lines : list string) : bool :=
  match lines with
  | [] => false
  | ln :: rest =>
      let line := strings_TrimSpace ln in
      if HasPrefix line "nameserver" then
        let parts := strings_Fields line in
        if (2 <=? len parts) && negb (String.eqb (at_ parts 1) "") then true
        else scanResolvBSD rest
      else scanResolvBSD rest
  end.

(** The FreeBSD and macOS [func hasDNSResolver() bool]. *)
Definition bsdHasDNSResolver (readFile : string -> option string) : bool :=
  match readFile "/etc/resolv.conf"%string with
  | None => false
  | Some content => scanResolvBSD (bufio_ScanLines content)
  end.

(** A line that the Linux loop accepts. *)
Definition namesResolver (ln : string) : bool :=
  let line := strings_TrimSpace ln in
  HasPrefix line "nameserver" && (2 <=? len (strings_Fields line)) &&
  match net_ParseIP (at_ (strings_Fields line) 1) with
  | None => false
  | Some addr => negb (IsLoopback addr)
  end.

(** A Linux host with the given files and interfaces, whose
    [hasDNSResolver()] answers from those files. *)
Definition linuxHost (readFile : string -> option string)
    (ifaces : list Evaluator.Interface) : Evaluator.Host :=
  {| Evaluator.ReadFile := readFile;
     Evaluator.Interfaces := ifaces;
     Evaluator.hasDNSResolver := linuxHasDNSResolver readFile |}.

(** [func Evaluate() (bool, string, error) { return recomputeOnline() }],
    on Linux. *)
Definition Evaluate (readFile : string -> option string)
    (ifaces : list Evaluator.Interface) : bool * string * option error :=
  Evaluator.recomputeOnline (linuxHost readFile ifaces).

End WithLib.

(** The files of the first scenario of the design, [/etc/resolv.conf]
    included. *)
Definition scenario1_files : string -> option string :=
  Hosts.files
    [("/proc/net/route",
      Hosts.text [Hosts.route_header; "eth0 00000000 0101010A 0003 0 0 100 00000000 0 0 0"]);
     ("/proc/net/arp",
      Hosts.text [Hosts.arp_header;
                  "10.1.1.1         0x1         0x2         aa:bb:cc:dd:ee:ff     *        eth0"]);
     ("/sys/class/net/eth0/operstate", Hosts.text ["up"]);
     ("/sys/class/net/eth0/carrier", Hosts.text ["1"]);
     ("/etc/resolv.conf", Hosts.text ["# resolver"; "nameserver 10.1.1.1"])]%string.

End Resolver.

(** * Kinds of interface addresses *)

Module AddrKinds.
Import Go.

(** The address [b0.b1.b2.b3] as [net.IPv4] makes it: the sixteen-byte
    form. *)
Definition IPv4 (b0 b1 b2 b3 : byte) : list byte := v4InV6Prefix ++ [b0; b1; b2; b3].

(** An IPv6 link-local unicast address, [fe80::/10]: sixteen bytes, the
    first [0xfe], the two high bits of the second [10]. *)
Definition linkLocal6 (ip : list byte) : Prop :=
  exists b1 rest,
    ip = xfe :: b1 :: rest /\ length rest = 14%nat /\
    Z.land (Z.of_N (Byte.to_N b1)) 192 = 128.

(** An address [scanAddrs] can make nothing of: of another type, nil, or
    link-local IPv6. *)
Definition unusable (a : Evaluator.Addr) : Prop :=
  match a with
  | Evaluator.OtherAddr => True
  | Evaluator.IPNet None | Evaluator.IPAddr None => True
  | Evaluator.IPNet (Some ip) | Evaluator.IPAddr (Some ip) => linkLocal6 ip
  end.

End AddrKinds.

(** * The Windows address test *)

Module Windows.
Import Go Evaluator.

(** The loop of [ifHasGlobalUnicast]:
[[
   var ip net.IP
   switch v := a.(type) { case *net.IPNet: ip = v.IP; case *net.IPAddr: ip = v.IP }
   if ip == nil || ip.IsLoopback() || ip.IsUnspecified() { continue }
   if v4 := ip.To4(); v4 != nil { return true }
   if !ip.IsLinkLocalUnicast() { return true }
]] *)
Fixpoint scanGlobal (addrs : list Addr) : bool :=
  match addrs with
  | [] => false
  | a :: rest =>
      let ip := match a with IPNet ip => ip | IPAddr ip => ip | OtherAddr => None end in
      match ip with
      | None => scanGlobal rest
      | Some ip =>
          if IsLoopback ip || IsUnspecified ip then scanGlobal rest
          else
            match To4 ip with
            | Some _ => true
            | None => if negb (IsLinkLocalUnicast ip) then true else scanGlobal rest
            end
      end
  end.

(** [func ifHasGlobalUnicast(ifi *net.Interface) bool] *)
Definition ifHasGlobalUnicast (ifi : Interface) : bool :=
  match Addrs ifi with
  | None => false
  | Some addrs => scanGlobal addrs
  end.

End Windows.

(** * The FreeBSD and macOS evaluator *)

Module Bsd.
Import Go.

(** A [route.Addr] of a routing message: a [*route.Inet4Addr] (four bytes),
    a [*route.Inet6Addr] (sixteen bytes), a value of another type, or
    nil. *)
Inductive RouteAddr :=
| Inet4Addr (b0 b1 b2 b3 : byte)
| Inet6Addr (ip : list byte)
| OtherRouteAddr
| NilAddr.

(** A [route.Message]: a [*route.RouteMessage] with its interface index and
    addresses, or a message of another type. *)
Inductive Message :=
| RouteMessage (Index : Z) (Addrs : list RouteAddr)
| OtherMessage.

Definition bv (b : byte) : Z := Z.of_N (Byte.to_N b).

(** [[
   func isZeroAddr(a route.Addr) bool {
     switch t := a.(type) {
     case *route.Inet4Addr:
       return t.IP[0]|t.IP[1]|t.IP[2]|t.IP[3] == 0
     case *route.Inet6Addr:
       var s byte; for _, b := range t.IP { s |= b }; return s == 0
     default:
       return false
     }
   }
]] *)
Definition isZeroAddr (a : RouteAddr) : bool :=
  match a with
  | Inet4Addr b0 b1 b2 b3 => Z.lor (Z.lor (Z.lor (bv b0) (bv b1)) (bv b2)) (bv b3) =? 0
  | Inet6Addr ip => fold_left (fun s b => Z.lor s (bv b)) ip 0 =? 0
  | _ => false
  end.

(** The kernel state one evaluation reads. [RIB4] is the messages
    [route.ParseRIB] makes of what [route.FetchRIB(unix.AF_INET, ...)]
    fetched ([None] when either returns an error), [RIB6] the same for
    [unix.AF_INET6]; [Interfaces] is what the [net] package lists;
    [ReadFile] as on Linux. *)
Record Host := {
  RIB4 : option (list Message);
  RIB6 : option (list Message);
  Interfaces : list Evaluator.Interface;
  ReadFile : string -> option string
}.

Section WithLib.
Context {L : Lib}.

(** The index of the destination among the addresses of a routing message:
    the constant [route.RTAB_DST] of the source, declared outside it. *)
Variable RTAB_DST : nat.

(** [[
   func ifNameFromIndex(idx int) string {
     ifi, err := net.InterfaceByIndex(idx); if err != nil { return "" }
     return ifi.Name
   }
]]
    [net.InterfaceByIndex] is an error for an index that is not positive. *)
Definition ifNameFromIndex (h : Host) (idx : Z) : string :=
  if idx <=? 0 then ""%string
  else
    match find (fun it => Evaluator.Index it =? idx) (Interfaces h) with
    | Some it => Evaluator.Name it
    | None => ""%string
    end.

(** The loop of [pickDefaultFromRIB] over the parsed messages:
[[
   rm, ok := m.( *route.RouteMessage); if !ok { continue }
   var dst route.Addr
   for i, a := range rm.Addrs { if i == route.RTAB_DST { dst = a; break } }
   if isZeroAddr(dst) { return true, ifNameFromIndex(rm.Index) }
]] *)
Fixpoint pickDefault (h : Host) (ms : list Message) : bool * string :=
  match ms with
  | [] => (false, ""%string)
  | OtherMessage :: rest => pickDefault h rest
  | RouteMessage idx addrs :: rest =>
      if isZeroAddr (nth RTAB_DST addrs NilAddr) then (true, ifNameFromIndex h idx)
      else pickDefault h rest
  end.

(** [[
   func bsdDefaultRoute() (bool, string, error) {
     msgs, err := route.FetchRIB(unix.AF_INET, route.RIBTypeRoute, 0)
     if err == nil { if ok, ifn := pickDefaultFromRIB(msgs); ok { return true, ifn, nil } }
     msgs6, err := route.FetchRIB(unix.AF_INET6, route.RIBTypeRoute, 0)
     if err == nil { if ok, ifn := pickDefaultFromRIB(msgs6); ok { return true, ifn, nil } }
     return false, "", nil
   }
]] *)
Definition bsdDefaultRoute (h : Host) : bool * string * option error :=
  let try rib :=
    match rib with
    | Some ms => pickDefault h ms
    | None => (false, ""%string)
    end in
  if fst (try (RIB4 h)) then (true, snd (try (RIB4 h)), None)
  else if fst (try (RIB6 h)) then (true, snd (try (RIB6 h)), None)
  else (false, ""%string, None).

(** The Linux-shaped view of the host, for the helpers the two evaluators
    share. *)
Definition asEvaluatorHost (h : Host) : Evaluator.Host :=
  {| Evaluator.ReadFile := ReadFile h;
     Evaluator.Interfaces := Interfaces h;
     Evaluator.hasDNSResolver := Resolver.bsdHasDNSResolver (ReadFile h) |}.

(** [[
   func recomputeOnline() (bool, string, error) {
     hasDef, ifname, err := bsdDefaultRoute()
     if err != nil { return false, "default route check failed", err }
     if !hasDef { return false, "no default route", nil }
     if ifname == "" { return false, "default route no iface", nil }
     ifi, err := net.InterfaceByName(ifname)
     if err != nil || (ifi.Flags&net.FlagUp) == 0 || (ifi.Flags&net.FlagLoopback) != 0 {
       return false, "default iface down/loopback", nil }
     if !ifaceHasUsableAddr(ifname) { return false, "default iface has no usable IP", nil }
     if !hasDNSResolver() { return false, "no DNS resolver", nil }
     return true, "default via " + ifname, nil
   }
]] *)
Definition recomputeOnline (h : Host) : bool * string * option error :=
  let '(hasDef, ifname, err) := bsdDefaultRoute h in
  match err with
  | Some e => (false, "default route check failed"%string, Some e)
  | None =>
      if negb hasDef then (false, "no default route"%string, None)
      else if String.eqb ifname "" then (false, "default route no iface"%string, None)
      else
        let down :=
          match Evaluator.InterfaceByName (asEvaluatorHost h) ifname with
          | None => true
          | Some ifi =>
              (Z.land (Evaluator.Flags ifi) Evaluator.FlagUp =? 0) ||
              negb (Z.land (Evaluator.Flags ifi) Evaluator.FlagLoopback =? 0)
          end in
        if down then (false, "default iface down/loopback"%string, None)
        else if negb (Evaluator.ifaceHasUsableAddr (asEvaluatorHost h) ifname)
        then (false, "default iface has no usable IP"%string, None)
        else if negb (Resolver.bsdHasDNSResolver (ReadFile h))
        then (false, "no DNS resolver"%string, None)
        else (true, ("default via " ++ ifname)%string, None)
  end.

End WithLib.

End Bsd.

(** * The active probe quorum of the demo *)

Module Probe.

(** What a [select] of [connectivityCheck] receives: the result of a probe
    on [res], or the end of the context. *)
Inductive Pick :=
| Result (err : option error)
| CtxDone.

(** [len(probes)] *)
Definition nProbes : nat := 6.

(** The loop of [connectivityCheck] with [n] turns left, and the lines after
    it:
[[
   for i := 0; i < len(probes); i++ {
     select {
     case <-ctx.Done():
       if ok >= require { return true, "ok (timeout after quorum)" }
       return false, "timeout"
     case err := <-res:
       if err == nil { ok++; if ok >= require { return true, "ok" } }
     }
   }
   if ok >= require { return true, "ok" }
   return false, "insufficient successes"
]]
    The context carries a timeout, so when no further result arrives the
    select receives the end of the context: the empty list of picks reads
    as [CtxDone]. *)
Fixpoint quorum (n : nat) (require ok : Z) (picks : list Pick) : bool * string :=
  match n with
  | O =>
      if ok >=? require then (true, "ok"%string)
      else (false, "insufficient successes"%string)
  | S n' =>
      match picks with
      | [] | CtxDone :: _ =>
          if ok >=? require then (true, "ok (timeout after quorum)"%string)
          else (false, "timeout"%string)
      | Result None :: rest =>
          if ok + 1 >=? require then (true, "ok"%string)
          else quorum n' require (ok + 1) rest
      | Result (Some _) :: rest => quorum n' require ok rest
      end
  end.

(** [[
   func connectivityCheck(parent context.Context, timeout time.Duration, require int) (bool, string) {
     if require <= 0 { require = 1 }
     ...
     ok := 0
     ...
   }
]] *)
Definition connectivityCheck (require : Z) (picks : list Pick) : bool * string :=
  let require := if require <=? 0 then 1 else require in
  quorum nProbes require 0 picks.

(** The results received before the context ends. *)
Fixpoint beforeDone (picks : list Pick) : list (option error) :=
  match picks with
  | Result e :: rest => e :: beforeDone rest
  | _ => []
  end.

(** A probe succeeded: its error is nil. *)
Definition succeeded (e : option error) : bool :=
  match e with None => true | Some _ => false end.

(** The probes that succeeded among the at most six results received before
    the context ends. *)
Definition successes (picks : list Pick) : Z :=
  len (filter succeeded (firstn nProbes (beforeDone picks))).

End Probe.

(** * Runs of the edge detector and of the wake-gap watcher *)

Module Runs.

(** The OS events among the inputs of the detector. *)
Definition isOSEvent (i : Watch.Input) : bool :=
  match i with
  | Watch.OSEvent _ _ => true
  | _ => false
  end.

(** An evaluator that never changes its answer. *)
Definition alwaysOnline (t : Z) : bool * string * option error :=
  (true, "default via eth0"%string, None).

(** Ticks that come less than [limit] after the one before, starting from
    [last]; receives by the consumer may come in between. *)
Fixpoint regular (limit last : Z) (inputs : list WakeGap.Input) : Prop :=
  match inputs with
  | [] => True
  | WakeGap.Tick now :: rest => is_int64 now /\ now - last < limit /\ regular limit now rest
  | WakeGap.Receive :: rest => regular limit last rest
  end.

End Runs.

(** * Facts on machine integers *)

Lemma wrap_signed_id (w x : Z) :
  0 < w -> - 2 ^ (w - 1) <= x < 2 ^ (w - 1) -> wrap_signed w x = x.
Proof.
  intros Hw Hx. unfold wrap_signed.
  assert (E : 2 ^ w = 2 * 2 ^ (w - 1)).
  { replace w with (Z.succ (w - 1)) at 1 by lia. apply Z.pow_succ_r. lia. }
  rewrite Z.mod_small; lia.
Qed.

Lemma wrap_signed_64_id (x : Z) : 0 <= x < 2 ^ 32 -> wrap_signed 64 x = x.
Proof.
  intros Hx. apply wrap_signed_id; [lia|].
  change (2 ^ (64 - 1)) with 9223372036854775808.
  change (2 ^ 32) with 4294967296 in Hx. lia.
Qed.

(** [x &^ 3] clears the two low bits. *)
Lemma ldiff_3 (x : Z) : Z.ldiff x 3 = 4 * (x / 4).
Proof.
  change 3 with (Z.ones 2).
  rewrite Z.ldiff_ones_r by lia.
  rewrite Z.shiftr_div_pow2, Z.shiftl_mul_pow2 by lia.
  change (2 ^ 2) with 4. lia.
Qed.

(** * Facts on the rtnetlink parser *)

Module NetlinkFacts.
Import Netlink.

Lemma byte_val_range (b : byte) : 0 <= byte_val b < 256.
Proof. destruct b; vm_compute; split; congruence. Qed.

Lemma le_val_range (bs : list byte) : 0 <= le_val bs < 256 ^ len bs.
Proof.
  unfold len. induction bs as [|b bs IH].
  - simpl. lia.
  - cbn [le_val length]. rewrite Nat2Z.inj_succ, Z.pow_succ_r by lia.
    pose proof (byte_val_range b). lia.
Qed.

Lemma field_range (b : list byte) (off n : nat) :
  0 <= field b off n < 256 ^ Z.of_nat n.
Proof.
  unfold field.
  pose proof (le_val_range (firstn n (skipn off b))) as H.
  assert (len (firstn n (skipn off b)) <= Z.of_nat n).
  { unfold len. rewrite length_firstn. lia. }
  split; [lia|].
  eapply Z.lt_le_trans; [apply H|].
  apply Z.pow_le_mono_r; lia.
Qed.

(** The length field is a [uint32]. *)
Lemma Len_range (b : list byte) : 0 <= Len (read_hdr b) < 2 ^ 32.
Proof.
  cbn [read_hdr Len]. pose proof (field_range b 0 4) as H.
  change (256 ^ Z.of_nat 4) with (2 ^ 32) in H. exact H.
Qed.

(** Only the sixteen first bytes are read as the header. *)
Lemma read_hdr_app (pre rest : list byte) :
  length pre = 16%nat -> read_hdr (pre ++ rest) = read_hdr pre.
Proof.
  intros H.
  do 17 (destruct pre as [|? pre]; try discriminate H).
  reflexivity.
Qed.

Lemma slice_Some (b : list byte) (lo hi : Z) :
  0 <= lo <= hi -> hi <= len b ->
  slice b lo hi = Some (firstn (Z.to_nat (hi - lo)) (skipn (Z.to_nat lo) b)).
Proof.
  intros H1 H2. unfold slice.
  destruct (Z.leb_spec 0 lo); [|lia].
  destruct (Z.leb_spec lo hi); [|lia].
  destruct (Z.leb_spec hi (len b)); [|lia].
  reflexivity.
Qed.

Lemma slice_from_Some (b : list byte) (lo : Z) :
  0 <= lo <= len b -> slice_from b lo = Some (skipn (Z.to_nat lo) b).
Proof.
  intros H. unfold slice_from.
  destruct (Z.leb_spec 0 lo); [|lia].
  destruct (Z.leb_spec lo (len b)); [|lia].
  reflexivity.
Qed.

(** ** 64-bit [int], inputs below [2^32 - 3] bytes *)

(** What a turn of the loop does on such an input: it returns, or it goes on
    with a suffix of the slice that is at least sixteen bytes shorter, having
    appended one message whose body is a piece of the slice. It never
    panics. *)
Lemma iter_64_small (b : list byte) (out : list nlmsg) :
  len b < 2 ^ 32 - 3 ->
  match iter 64 b out with
  | Next b' out' =>
      exists adv : nat,
        (16 <= adv <= length b)%nat /\ b' = skipn adv b /\
        exists n : nat,
          (16 + n <= length b)%nat /\
          out' = out ++ [{| Header := read_hdr b; Body := firstn n (skipn 16 b) |}]
  | Return out' err =>
      out' = out \/
      exists n : nat,
        (16 + n <= length b)%nat /\
        out' = out ++ [{| Header := read_hdr b; Body := firstn n (skipn 16 b) |}]
  | Panic => False
  end.
Proof.
  intros Hb. unfold iter, hdrLen.
  change (2 ^ 32) with 4294967296 in Hb.
  destruct (Z.ltb_spec (len b) 16) as [Hl|Hl]; [now left|].
  pose proof (Len_range b) as HL. set (L := Len (read_hdr b)) in *.
  change (2 ^ 32) with 4294967296 in HL.
  rewrite (wrap_signed_64_id L) by (change (2 ^ 32) with 4294967296; lia).
  destruct (Z.ltb_spec L 16) as [H16|H16]; cbn [orb]; [now left|].
  destruct (Z.gtb_spec L (len b)) as [Hgt|Hle]; [now left|].
  rewrite slice_Some by lia.
  assert (Hw : wrap_unsigned 32 (L + 3) = L + 3).
  { unfold wrap_unsigned. change (2 ^ 32) with 4294967296. apply Z.mod_small. lia. }
  rewrite Hw, ldiff_3.
  set (adv := 4 * ((L + 3) / 4)).
  assert (Hadv : L <= adv <= L + 3).
  { subst adv. pose proof (Z.div_mod (L + 3) 4 ltac:(lia)).
    pose proof (Z.mod_pos_bound (L + 3) 4 ltac:(lia)). lia. }
  rewrite (wrap_signed_64_id adv) by (change (2 ^ 32) with 4294967296; lia).
  assert (Hbody : exists n : nat,
    (16 + n <= length b)%nat /\
    out ++ [{| Header := read_hdr b;
               Body := firstn (Z.to_nat (L - 16)) (skipn (Z.to_nat 16) b) |}] =
    out ++ [{| Header := read_hdr b; Body := firstn n (skipn 16 b) |}]).
  { exists (Z.to_nat (L - 16)). split; [unfold len in *; lia|].
    change (Z.to_nat 16) with 16%nat. reflexivity. }
  destruct (Z.gtb_spec adv (len b)) as [Hbig|Hfit].
  - right. exact Hbody.
  - rewrite slice_from_Some by lia.
    exists (Z.to_nat adv). split; [unfold len in *; lia|].
    split; [reflexivity|]. exact Hbody.
Qed.

Lemma within_piece (input b : list byte) (off n : nat) :
  b = skipn off input -> (16 + n <= length b)%nat ->
  within input (firstn n (skipn 16 b)).
Proof.
  intros -> Hn. rewrite length_skipn in Hn.
  rewrite skipn_skipn.
  assert (Hlen : length (firstn n (skipn (16 + off) input)) = n).
  { rewrite length_firstn, length_skipn. lia. }
  exists (16 + off)%nat. rewrite Hlen. split; [lia|reflexivity].
Qed.

(** With enough fuel the loop returns, and every body it returns is a piece
    of the input. *)
Lemma loop_64_small (input : list byte) :
  len input < 2 ^ 32 - 3 ->
  forall (fuel : nat) (b : list byte) (out : list nlmsg) (off : nat),
    b = skipn off input ->
    (length b < fuel)%nat ->
    Forall (fun m => within input (Body m)) out ->
    exists out' err,
      loop 64 fuel b out = Some (Returned out' err) /\
      Forall (fun m => within input (Body m)) out'.
Proof.
  intros Hin. induction fuel as [|fuel IH]; intros b out off Hb Hfuel Hout; [lia|].
  assert (Hlen : len b < 2 ^ 32 - 3).
  { subst b. unfold len in *. rewrite length_skipn. lia. }
  pose proof (iter_64_small b out Hlen) as Hit.
  cbn [loop]. destruct (iter 64 b out) as [b' out'|out' err|]; [| |contradiction].
  - destruct Hit as (adv & Hadv & Hb' & n & Hn & Hout').
    apply (IH b' out' (adv + off)%nat).
    + subst b' b. apply skipn_skipn.
    + subst b'. rewrite length_skipn. lia.
    + subst out'. apply Forall_app. split; [exact Hout|].
      constructor; [|constructor]. cbn [Body]. eapply within_piece; eassumption.
  - exists out', err. split; [reflexivity|].
    destruct Hit as [->|(n & Hn & ->)]; [exact Hout|].
    apply Forall_app. split; [exact Hout|].
    constructor; [|constructor]. cbn [Body]. eapply within_piece; eassumption.
Qed.

(** On a 64-bit target and an input of fewer than [2^32 - 3] bytes (every
    datagram read into the 64 KiB receive buffer is one), [parseNlMsgs]
    returns, without a panic, and every message body is a piece of the
    input. *)
Lemma parseNlMsgs_64_small (input : list byte) :
  len input < 2 ^ 32 - 3 ->
  exists out err,
    parseNlMsgs 64 input = Some (Returned out err) /\
    Forall (fun m => within input (Body m)) out.
Proof.
  intros Hin. unfold parseNlMsgs.
  apply (loop_64_small input Hin (S (length input)) input [] 0%nat).
  - reflexivity.
  - lia.
  - constructor.
Qed.

Lemma parseNlMsgs_64_small_example :
  len one_route_msg < 2 ^ 32 - 3 /\
  exists out err,
    parseNlMsgs 64 one_route_msg = Some (Returned out err) /\
    Forall (fun m => within one_route_msg (Body m)) out.
Proof.
  split; [vm_compute; reflexivity|].
  apply (parseNlMsgs_64_small one_route_msg). vm_compute. reflexivity.
Defined.

(** ** Where the arithmetic wraps *)

(** A turn of the loop on a slice whose header announces [0xFFFFFFFD] bytes
    and that holds as many: the [uint32] sum [h.Len + 3] wraps to [0], so
    [adv] is [0] and the slice is left as it was. *)
Lemma iter_64_no_progress (b : list byte) (out : list nlmsg) :
  Len (read_hdr b) = 4294967293 -> 4294967293 <= len b ->
  exists m, iter 64 b out = Next b (out ++ [m]).
Proof.
  intros HL Hb. unfold iter, hdrLen. rewrite HL.
  destruct (Z.ltb_spec (len b) 16) as [Hl|Hl]; [lia|].
  change (4294967293 <? 16) with false. cbn [orb].
  change (wrap_signed 64 4294967293) with 4294967293.
  destruct (Z.gtb_spec 4294967293 (len b)) as [Hgt|Hle]; [lia|].
  rewrite slice_Some by lia.
  change (wrap_signed 64 (Z.ldiff (wrap_unsigned 32 (4294967293 + 3)) 3)) with 0.
  destruct (Z.gtb_spec 0 (len b)) as [Hbig|Hfit]; [lia|].
  rewrite slice_from_Some by lia.
  change (Z.to_nat 0) with 0%nat. cbn [skipn].
  eexists. reflexivity.
Qed.

Lemma len_giant : len giant = 2 ^ 32.
Proof.
  unfold len, giant. rewrite length_app, repeat_length, Nat2Z.inj_add.
  rewrite Z2Nat.id by (change (2 ^ 32) with 4294967296; lia).
  change (Z.of_nat (length hdr_fffffffd)) with 16. lia.
Qed.

Lemma Len_giant : Len (read_hdr giant) = 4294967293.
Proof.
  unfold giant. rewrite read_hdr_app by reflexivity. reflexivity.
Qed.

Lemma loop_64_giant (fuel : nat) (out : list nlmsg) : loop 64 fuel giant out = None.
Proof.
  revert out. induction fuel as [|fuel IH]; intros out; [reflexivity|].
  cbn [loop].
  destruct (iter_64_no_progress giant out Len_giant) as [m Hm].
  { rewrite len_giant. change (2 ^ 32) with 4294967296. lia. }
  rewrite Hm. apply IH.
Qed.

(** C10, as the code has it. On a target whose [int] has 32 bits, the
    sixteen-byte slice [hdr_80000000] passes the length check (the
    conversion [int(h.Len)] of [0x80000000] is negative) and the body slice
    [b[16:h.Len]] panics. On a target whose [int] has 64 bits, a turn of the
    loop on [giant] appends a message and leaves the slice as it was, so no
    amount of fuel lets the loop return. *)
Theorem parseNlMsgs_wraps :
  iter 32 hdr_80000000 [] = Panic /\
  parseNlMsgs 32 hdr_80000000 = Some Panicked /\
  (exists m, iter 64 giant [] = Next giant [m]) /\
  (forall fuel out, loop 64 fuel giant out = None).
Proof.
  split; [vm_compute; reflexivity|].
  split; [vm_compute; reflexivity|].
  split.
  - apply (iter_64_no_progress giant []); [exact Len_giant|].
    rewrite len_giant. change (2 ^ 32) with 4294967296. lia.
  - exact loop_64_giant.
Qed.

End NetlinkFacts.

(** * Facts on the Linux evaluator *)

Module EvaluatorFacts.
Import Go Evaluator Hosts.

Section WithLib.
Context {L : Lib}.

(** ** Layer 1, IPv4 half *)

(** The loop over [/proc/net/route] returns at the first default route that
    is up, and only there. *)
Lemma scanRoute4_Some_iff (lines : list string) :
  existsb isDefaultUp4 lines = true <->
  exists iface gw, scanRoute4 lines = Some (iface, gw).
Proof.
  induction lines as [|ln rest IH]; cbn [existsb scanRoute4].
  - split; [discriminate|]. intros (i & g & H). discriminate H.
  - unfold isDefaultUp4 at 1.
    destruct (Z.ltb_spec (len (strings_Fields ln)) 11) as [Hlt|Hge].
    + destruct (Z.leb_spec 11 (len (strings_Fields ln))); [lia|]. cbn [andb orb]. exact IH.
    + destruct (Z.leb_spec 11 (len (strings_Fields ln))); [|lia]. cbn [andb].
      destruct (String.eqb (at_ (strings_Fields ln) 1) "00000000"); cbn [andb orb]; [|exact IH].
      destruct (Z.land (strconv_ParseInt (at_ (strings_Fields ln) 3) 16 64) 1 =? 0);
        cbn [negb orb]; [exact IH|].
      split; [|reflexivity]. intros _. eauto.
Qed.

(** When [/proc/net/route] can be read and holds a default route that is
    up, [linuxDefaultRoute] reports one, with no error. *)
Lemma linuxDefaultRoute_v4 (h : Host) (content : string) :
  ReadFile h "/proc/net/route" = Some content ->
  hasDefaultRoute4 content = true ->
  exists iface gw, linuxDefaultRoute h = (true, iface, gw, None).
Proof.
  intros Hr Hd. unfold hasDefaultRoute4 in Hd.
  apply scanRoute4_Some_iff in Hd. destruct Hd as (iface & gw & Hs).
  unfold linuxDefaultRoute. rewrite Hr, Hs. eauto.
Qed.

(** ** Layer 1, IPv6 half *)

(** The loop over [/proc/net/ipv6_route] returns only at a line whose second
    column is the three characters [000]. *)
Lemma scanRoute6_Some (h : Host) (lines : list string) (ifname : string) :
  scanRoute6 h lines = Some ifname ->
  exists ln, In ln lines /\
    at_ (strings_Fields (strings_TrimSpace ln)) 1 = "000"%string.
Proof.
  induction lines as [|ln rest IH]; cbn [scanRoute6]; [discriminate|].
  intros H.
  destruct (String.eqb (strings_TrimSpace ln) "").
  { destruct (IH H) as (l & Hl & E). exists l. split; [now right|exact E]. }
  destruct (len (strings_Fields (strings_TrimSpace ln)) <? 10).
  { destruct (IH H) as (l & Hl & E). exists l. split; [now right|exact E]. }
  destruct (String.eqb_spec (at_ (strings_Fields (strings_TrimSpace ln)) 1) "000") as [E|_].
  - exists ln. split; [now left|exact E].
  - destruct (IH H) as (l & Hl & E). exists l. split; [now right|exact E].
Qed.

(** ** No error ever *)

Lemma linuxDefaultRoute6_no_error (h : Host) : snd (linuxDefaultRoute6 h) = None.
Proof.
  unfold linuxDefaultRoute6.
  destruct (ReadFile h "/proc/net/ipv6_route"); [|reflexivity].
  destruct (scanRoute6 h _); reflexivity.
Qed.

Lemma linuxDefaultRoute_no_error (h : Host) : snd (linuxDefaultRoute h) = None.
Proof.
  unfold linuxDefaultRoute.
  destruct (ReadFile h "/proc/net/route"); [|apply linuxDefaultRoute6_no_error].
  destruct (scanRoute4 _) as [[iface gw]|]; [reflexivity|apply linuxDefaultRoute6_no_error].
Qed.

Lemma linuxIfaceUp_no_error (h : Host) (name : string) : snd (linuxIfaceUp h name) = None.
Proof.
  unfold linuxIfaceUp.
  repeat match goal with
         | |- context [if ?c then _ else _] => destruct c
         end; reflexivity.
Qed.

Lemma recomputeOnline_no_error (h : Host) : snd (recomputeOnline h) = None.
Proof.
  unfold recomputeOnline.
  pose proof (linuxDefaultRoute_no_error h) as H1.
  destruct (linuxDefaultRoute h) as [[[hasDef ifname] gw] err]. cbn [snd] in H1. subst err.
  destruct (negb hasDef); [reflexivity|].
  destruct (String.eqb ifname ""); [reflexivity|].
  pose proof (linuxIfaceUp_no_error h ifname) as H2.
  destruct (linuxIfaceUp h ifname) as [up err]. cbn [snd] in H2. subst err.
  repeat match goal with
         | |- context [if ?c then _ else _] => destruct c
         end; reflexivity.
Qed.

(** ** Layer 5 *)

(** The loop over the neighbor table decides on the first row for the
    gateway and the interface. *)
Lemma scanArp_find (gw ifname : string) (lines : list string) :
  scanArp gw ifname lines =
  match find (fun f => String.eqb (at_ f 5) ifname && String.eqb (at_ f 0) gw)
             (filter (fun f => 6 <=? len f)
                (map (fun ln => strings_Fields (strings_TrimSpace ln)) lines)) with
  | Some f => entryReady f
  | None => false
  end.
Proof.
  induction lines as [|ln rest IH]; [reflexivity|].
  cbn [scanArp map filter].
  set (f := strings_Fields (strings_TrimSpace ln)).
  destruct (Z.ltb_spec (len f) 6) as [Hlt|Hge].
  - destruct (Z.leb_spec 6 (len f)); [lia|]. exact IH.
  - destruct (Z.leb_spec 6 (len f)); [|lia]. cbn [find].
    destruct (String.eqb (at_ f 5) ifname); cbn [negb orb andb]; [|exact IH].
    destruct (String.eqb (at_ f 0) gw); cbn [negb]; [|exact IH].
    unfold entryReady.
    destruct (Z.land (strconv_ParseInt (at_ f 2) 0 64) 2 =? 0); cbn [negb andb]; [reflexivity|].
    destruct (String.eqb (at_ f 3) "00:00:00:00:00:00"); reflexivity.
Qed.

Lemma arpIsReady_entry (h : Host) (gw ifname table : string) :
  isIPv4 gw = true -> ReadFile h "/proc/net/arp" = Some table ->
  arpIsReady h gw ifname =
  match arpEntry table gw ifname with
  | Some f => entryReady f
  | None => false
  end.
Proof.
  intros H4 Hr. unfold arpIsReady, arpEntry, arpRows. rewrite H4, Hr. cbn [negb].
  apply scanArp_find.
Qed.

(** [recomputeOnline] once the four first layers have passed. *)
Lemma recomputeOnline_after_layer4 (h : Host) (ifname gw : string) :
  linuxDefaultRoute h = (true, ifname, gw, None) ->
  ifname <> ""%string ->
  linuxIfaceUp h ifname = (true, None) ->
  ifaceHasUsableAddr h ifname = true ->
  recomputeOnline h =
  if negb (String.eqb gw "") && negb (arpIsReady h gw ifname)
  then (false, "gateway neighbor not ready"%string, None)
  else dnsLayer h ifname.
Proof.
  intros H1 H2 H3 H4. unfold recomputeOnline, dnsLayer. rewrite H1. cbn [negb].
  destruct (String.eqb_spec ifname ""); [contradiction|].
  rewrite H3, H4. reflexivity.
Qed.

(** The gateway layer on a gateway the code holds as a string. When the
    four first layers pass with default interface [ifname] and gateway
    string [gw]:
    - if [gw] parses as an IPv4 address and the neighbor table can be read,
      the evaluation goes on to the DNS layer when the neighbor-table entry
      for that gateway on that interface has flag bit [0x2] set and a MAC
      other than all-zeros, and it returns
      [(false, "gateway neighbor not ready")] otherwise;
    - if [gw] is the empty string or is not an IPv4 address, the check is
      skipped;
    - if the neighbor table cannot be read, the check passes. *)
Lemma gateway_arp_layer (h : Host) (ifname gw : string) :
  linuxDefaultRoute h = (true, ifname, gw, None) ->
  ifname <> ""%string ->
  linuxIfaceUp h ifname = (true, None) ->
  ifaceHasUsableAddr h ifname = true ->
  (forall table,
      gw <> ""%string -> isIPv4 gw = true ->
      ReadFile h "/proc/net/arp" = Some table ->
      recomputeOnline h =
        (match arpEntry table gw ifname with
         | Some f =>
             if entryReady f then dnsLayer h ifname
             else (false, "gateway neighbor not ready"%string, None)
         | None => (false, "gateway neighbor not ready"%string, None)
         end) /\
      (fst (fst (recomputeOnline h)) = true ->
       exists f, arpEntry table gw ifname = Some f /\ entryReady f = true)) /\
  (gw = ""%string \/ isIPv4 gw = false -> recomputeOnline h = dnsLayer h ifname) /\
  (ReadFile h "/proc/net/arp" = None -> recomputeOnline h = dnsLayer h ifname).
Proof.
  intros H1 H2 H3 H4.
  pose proof (recomputeOnline_after_layer4 h ifname gw H1 H2 H3 H4) as E.
  split; [|split].
  - intros table Hgw Hv4 Hr.
    rewrite (arpIsReady_entry h gw ifname table Hv4 Hr) in E.
    destruct (String.eqb_spec gw ""); [contradiction|]. cbn [negb andb] in E.
    assert (Eq : recomputeOnline h =
      match arpEntry table gw ifname with
      | Some f =>
          if entryReady f then dnsLayer h ifname
          else (false, "gateway neighbor not ready"%string, None)
      | None => (false, "gateway neighbor not ready"%string, None)
      end).
    { rewrite E. destruct (arpEntry table gw ifname) as [f|]; [|reflexivity].
      destruct (entryReady f); reflexivity. }
    split; [exact Eq|].
    rewrite Eq. destruct (arpEntry table gw ifname) as [f|]; [|discriminate].
    destruct (entryReady f) eqn:Hf; [|discriminate].
    intros _. exists f. split; [reflexivity|exact Hf].
  - intros [->|Hn6].
    + rewrite E. reflexivity.
    + rewrite E. unfold arpIsReady. rewrite Hn6. cbn [negb].
      rewrite andb_false_r. reflexivity.
  - intros Hr. rewrite E. unfold arpIsReady. rewrite Hr.
    destruct (negb (isIPv4 gw)); cbn [negb]; rewrite andb_false_r; reflexivity.
Qed.

(** A default route without a gateway. The kernel prints its gateway
    column as [00000000], which [hexToIPv4] turns into ["0.0.0.0"]: not the
    empty string, so the guard [gw != ""] of [recomputeOnline] does not
    skip the neighbor check, and an IPv4 address, so [arpIsReady] looks
    it up. With no row for 0.0.0.0 on the interface the evaluation ends
    with [(false, "gateway neighbor not ready")]. *)
Lemma gatewayless_route_checked (h : Host) (ifname table : string) :
  linuxDefaultRoute h = (true, ifname, "0.0.0.0"%string, None) ->
  isIPv4 "0.0.0.0" = true ->
  ifname <> ""%string ->
  linuxIfaceUp h ifname = (true, None) ->
  ifaceHasUsableAddr h ifname = true ->
  ReadFile h "/proc/net/arp" = Some table ->
  arpEntry table "0.0.0.0" ifname = None ->
  recomputeOnline h = (false, "gateway neighbor not ready"%string, None).
Proof.
  intros H1 H4 H2 H3 Ha Hr He.
  rewrite (recomputeOnline_after_layer4 h ifname "0.0.0.0" H1 H2 H3 Ha).
  rewrite (arpIsReady_entry h "0.0.0.0" ifname table H4 Hr), He. reflexivity.
Qed.

End WithLib.

(** The first and the fifth scenario of the design, evaluated. *)
Lemma scenario1_online :
  @recomputeOnline Ref.lib scenario1 = (true, "default via eth0"%string, None).
Proof. vm_compute. reflexivity. Qed.

Lemma scenario5_gateway_not_ready :
  @recomputeOnline Ref.lib scenario5 = (false, "gateway neighbor not ready"%string, None).
Proof. vm_compute. reflexivity. Qed.

(** On [scenario1] the gateway is taken for an IPv4 address and its
    neighbor-table entry is found ready. *)
Lemma scenario1_gateway_ready :
  @isIPv4 Ref.lib "10.1.1.1" = true /\
  exists table f,
    ReadFile scenario1 "/proc/net/arp" = Some table /\
    @arpEntry Ref.lib table "10.1.1.1" "eth0" = Some f /\
    @entryReady Ref.lib f = true.
Proof.
  split; [vm_compute; reflexivity|].
  eexists _, _. repeat split; vm_compute; reflexivity.
Qed.

(** C5, as the code has it. On the host [onlink] the default route
    [default dev ppp0] has no gateway: the kernel prints the gateway
    column [00000000]. Every other layer passes: the route is found, [ppp0]
    is up and holds a usable address, a DNS resolver is configured, so
    that with the gateway check skipped the answer would be
    [(true, "default via ppp0")]. But [linuxDefaultRoute] hands the
    gateway on as the string ["0.0.0.0"], which the guard [gw != ""] lets
    through; [arpIsReady] takes it for an IPv4 gateway, finds no row for it
    in the neighbor table and answers false, and the evaluation ends with
    [(false, "gateway neighbor not ready")]: the check is not skipped for
    an absent gateway. *)
Theorem absent_gateway_not_skipped :
  @linuxDefaultRoute Ref.lib onlink = (true, "ppp0"%string, "0.0.0.0"%string, None) /\
  @linuxIfaceUp Ref.lib onlink "ppp0" = (true, None) /\
  ifaceHasUsableAddr onlink "ppp0" = true /\
  dnsLayer onlink "ppp0" = (true, "default via ppp0"%string, None) /\
  @isIPv4 Ref.lib "0.0.0.0" = true /\
  (exists table,
     ReadFile onlink "/proc/net/arp" = Some table /\
     @arpEntry Ref.lib table "0.0.0.0" "ppp0" = None) /\
  @arpIsReady Ref.lib onlink "0.0.0.0" "ppp0" = false /\
  @recomputeOnline Ref.lib onlink =
    (false, "gateway neighbor not ready"%string, None).
Proof.
  repeat split; try (vm_compute; reflexivity).
  eexists. split; vm_compute; reflexivity.
Qed.

(** C4, as the code has it. The IPv6 routing table of the host [v6only]
    holds the default route [::/0] and its IPv4 table holds no route, yet
    [linuxDefaultRoute] reports no default route and the evaluation ends
    with [(false, "no default route")]: the loop over
    [/proc/net/ipv6_route] compares the two-digit prefix-length column with
    the three characters [000]. *)
Theorem ipv6_default_route_missed :
  ReadFile v6only "/proc/net/ipv6_route" = Some ipv6_route_table /\
  @hasDefaultRoute6 Ref.lib ipv6_route_table = true /\
  @linuxDefaultRoute Ref.lib v6only = (false, ""%string, ""%string, None) /\
  @recomputeOnline Ref.lib v6only = (false, "no default route"%string, None).
Proof. repeat split; vm_compute; reflexivity. Qed.

(** C8, as the code has it. The Linux evaluator never returns an error,
    whatever the library and the host; on a host where neither routing
    table of [/proc] can be read it returns [(false, "no default route")]
    with a nil error. *)
Theorem evaluator_io_error_not_surfaced :
  (forall (L : Lib) (h : Host), snd (@recomputeOnline L h) = None) /\
  (forall L : Lib,
      @recomputeOnline L unreadable = (false, "no default route"%string, None)).
Proof.
  split.
  - intros L h. apply recomputeOnline_no_error.
  - intros L. reflexivity.
Qed.

End EvaluatorFacts.

(** * Facts on the OS event source *)

Module EventSourceFacts.
Import Chan EventSource.

(** The Windows callback never blocks and never grows the buffer past its
    capacity. *)
Lemma windowsSend_bounded (stopped : bool) (why : string) (s : Streams) :
  (length (buf (out s)) <= cap (out s))%nat ->
  (length (buf (out (windowsSend stopped why s))) <= cap (out (windowsSend stopped why s)))%nat.
Proof.
  intros H. unfold windowsSend, try_send, full.
  destruct stopped; [exact H|]. cbn [out].
  destruct (Nat.leb_spec (cap (out s)) (length (buf (out s)))); cbn [fst]; [exact H|].
  cbn [push buf cap]. rewrite length_app. cbn [length]. lia.
Qed.

(** On Linux a read interrupted by a signal is retried: the turn changes
    nothing. *)
Lemma linuxTurn_EINTR (s : Streams) : linuxTurn false (ReadErr EINTR) s = Continue s.
Proof. reflexivity. Qed.

(** On Linux any other read error is sent on the error channel, and the
    goroutine returns, closing both channels. *)
Lemma linuxTurn_fatal (s : Streams) (errno : Z) :
  errno <> EINTR -> full (errc s) = false ->
  linuxTurn false (ReadErr errno) s =
  Exit (closeAll {| out := out s;
                    errc := push (errc s) (Wrapped "netlink recv" (Errno errno)) |}).
Proof.
  intros Hn Hroom. unfold linuxTurn. cbn [errors_Is].
  destruct (Z.eqb_spec errno EINTR); [contradiction|].
  unfold sendError, send. rewrite Hroom. reflexivity.
Qed.

(** On FreeBSD and macOS every read error is sent on the error channel, and
    the goroutine returns, closing both channels. *)
Lemma bsdTurn_fatal (s : Streams) (errno : Z) :
  full (errc s) = false ->
  bsdTurn false (ReadErr errno) s =
  Exit (closeAll {| out := out s;
                    errc := push (errc s) (Wrapped "route recv" (Errno errno)) |}).
Proof.
  intros Hroom. unfold bsdTurn, sendError, send. rewrite Hroom. reflexivity.
Qed.

(** C6, as the code has it. With eight events waiting in the event channel
    (capacity 8), the Linux reader that parsed one route message blocks in
    its send, and so does the BSD reader after a read; neither drops the
    event. The Windows callback drops it and leaves the channel as it was. *)
Theorem full_buffer_blocks_reader :
  full (out eightWaiting) = true /\
  linuxTurn false (ReadOk Netlink.one_route_msg) eightWaiting =
    ParkedOnEvent eightWaiting {| reason := "route change" |} /\
  (forall data, bsdTurn false (ReadOk data) eightWaiting =
    ParkedOnEvent eightWaiting {| reason := "net change" |}) /\
  windowsSend false "route change" eightWaiting = eightWaiting.
Proof.
  split; [reflexivity|].
  split; [vm_compute; reflexivity|].
  split; [intros data; reflexivity|].
  reflexivity.
Qed.

(** C7, as the code has it. On FreeBSD and macOS a read that fails with
    EINTR is not retried: the error is sent on the error channel and the
    goroutine returns, closing both channels. On Linux the same read is
    retried. *)
Theorem bsd_read_EINTR_is_fatal :
  bsdTurn false (ReadErr EINTR) fresh =
    Exit {| out := close (make osEvent 8);
            errc := close (push (make error 1) (Wrapped "route recv" (Errno EINTR))) |} /\
  (forall s, linuxTurn false (ReadErr EINTR) s = Continue s).
Proof.
  split; [reflexivity|]. exact linuxTurn_EINTR.
Qed.

End EventSourceFacts.

(** * Facts on the edge detector *)

Module WatchFacts.
Import Watch.

Lemma last_nonempty {A : Type} (c : A) (l : list A) (a b : A) :
  List.last (c :: l) a = List.last (c :: l) b.
Proof.
  revert c. induction l as [|x l IH]; intros c; [reflexivity|].
  change (List.last (x :: l) a = List.last (x :: l) b). apply IH.
Qed.

Lemma last_cons_same {A : Type} (a : A) (l : list A) :
  List.last (a :: l) a = List.last l a.
Proof. destruct l; reflexivity. Qed.

Lemma alternates_app (b : bool) (l1 l2 : list bool) :
  alternates (b :: l1) -> alternates (List.last l1 b :: l2) -> alternates (b :: l1 ++ l2).
Proof.
  revert b. induction l1 as [|a l1 IH]; intros b H1 H2.
  - exact H2.
  - destruct H1 as [Hab H1]. cbn [app]. split; [exact Hab|].
    apply IH; [exact H1|].
    destruct l1 as [|c l1]; [exact H2|].
    rewrite (last_nonempty c l1 a b).
    change (List.last (a :: c :: l1) b) with (List.last (c :: l1) b) in H2. exact H2.
Qed.

Lemma last_app_default (b : bool) (l1 l2 : list bool) :
  List.last (l1 ++ l2) b = List.last l2 (List.last l1 b).
Proof.
  revert b. induction l1 as [|a l1 IH]; intros b; [reflexivity|].
  destruct l1 as [|c l1].
  - destruct l2 as [|x l2]; [reflexivity|].
    change (List.last (x :: l2) b = List.last (x :: l2) a). apply last_nonempty.
  - change (List.last ((c :: l1) ++ l2) b = List.last l2 (List.last (c :: l1) b)).
    apply IH.
Qed.

Lemma events_app (a b : list Action) : events (a ++ b) = events a ++ events b.
Proof.
  induction a as [|x a IH]; [reflexivity|].
  destruct x; cbn [app events]; rewrite IH; reflexivity.
Qed.

Lemma evaluations_app (a b : list Action) :
  evaluations (a ++ b) = evaluations a ++ evaluations b.
Proof.
  induction a as [|x a IH]; [reflexivity|].
  destruct x; cbn [app evaluations]; rewrite IH; reflexivity.
Qed.

Lemma errors_app (a b : list Action) : errors (a ++ b) = errors a ++ errors b.
Proof.
  induction a as [|x a IH]; [reflexivity|].
  destruct x; cbn [app errors]; rewrite IH; reflexivity.
Qed.

(** The onlines of the events a run sends, and the [last] it ends with. *)
Definition onlines (acts : list Action) : list bool := map Online (events acts).

(** What a piece of the detector keeps true: started with [last = b], the
    events it sends alternate, the first differs from [b], and it ends with
    [last] equal to the online of the last event sent ([b] when it sent
    none). *)
Definition keeps (b : bool) (r : State * list Action) : Prop :=
  alternates (b :: onlines (snd r)) /\
  last (fst r) = List.last (onlines (snd r)) b.

Lemma keeps_quiet (s s' : State) (acts : list Action) :
  events acts = [] -> last s' = last s -> keeps (last s) (s', acts).
Proof.
  intros He Hl. unfold keeps, onlines. cbn [fst snd]. rewrite He. cbn. auto.
Qed.

Section WithEvaluator.
Variable recomputeOnline : Z -> bool * string * option error.

Lemma trigger_keeps (t : Z) (s : State) : keeps (last s) (trigger recomputeOnline t s).
Proof.
  unfold trigger.
  destruct (recomputeOnline t) as [[online why] [e|]]; [now apply keeps_quiet|].
  destruct (Bool.eqb online (last s)) eqn:E; cbn [negb]; [now apply keeps_quiet|].
  unfold keeps, onlines. cbn. split; [|reflexivity]. split; [|exact I].
  intros H. symmetry in H. apply Bool.eqb_true_iff in H. congruence.
Qed.

Lemma fireDue_keeps (t : Z) (s : State) : keeps (last s) (fireDue recomputeOnline t s).
Proof.
  unfold fireDue. destruct (debounceTimer s) as [d|]; [|now apply keeps_quiet].
  destruct (d <=? t); [|now apply keeps_quiet].
  pose proof (trigger_keeps d s) as H.
  destruct (trigger recomputeOnline d s) as [s' acts]. exact H.
Qed.

Lemma selectCase_keeps (i : Input) (s : State) : keeps (last s) (selectCase i s).
Proof.
  destruct i as [t e|t [err|]|t|t]; now apply keeps_quiet.
Qed.

Lemma keeps_seq (b : bool) (s1 s2 : State) (a1 a2 : list Action) :
  keeps b (s1, a1) -> keeps (last s1) (s2, a2) -> keeps b (s2, a1 ++ a2).
Proof.
  unfold keeps, onlines. cbn [fst snd]. intros [A1 L1] [A2 L2].
  rewrite events_app, map_app. split.
  - apply alternates_app; [exact A1|]. rewrite <- L1. exact A2.
  - rewrite last_app_default, <- L1. exact L2.
Qed.

Lemma step_keeps (s : State) (i : Input) : keeps (last s) (step recomputeOnline s i).
Proof.
  unfold step. destruct (running s); [|now apply keeps_quiet].
  pose proof (fireDue_keeps (time_of i) s) as H1.
  destruct (fireDue recomputeOnline (time_of i) s) as [s1 a1].
  pose proof (selectCase_keeps i s1) as H2.
  destruct (selectCase i s1) as [s2 a2].
  eapply keeps_seq; eassumption.
Qed.

Lemma run_keeps (inputs : list Input) (s : State) :
  keeps (last s) (run recomputeOnline s inputs).
Proof.
  revert s. induction inputs as [|i rest IH]; intros s; [now apply keeps_quiet|].
  cbn [run].
  pose proof (step_keeps s i) as H1.
  destruct (step recomputeOnline s i) as [s1 a1].
  pose proof (IH s1) as H2.
  destruct (run recomputeOnline s1 rest) as [s2 a2].
  eapply keeps_seq; eassumption.
Qed.

(** The events of [Watch]: the initial one, then those of the run. *)
Lemma Watch_events (t0 : Z) (inputs : list Input) :
  events (snd (Watch recomputeOnline t0 inputs)) =
  {| Online := fst (fst (recomputeOnline t0)); ChangedAt := t0;
     Cause := "initial: " ++ snd (fst (recomputeOnline t0)) |} ::
  events (snd (run recomputeOnline (fst (start recomputeOnline t0)) inputs)).
Proof.
  unfold Watch, start.
  destruct (recomputeOnline t0) as [[online why] err]. cbn [fst snd].
  destruct (run recomputeOnline _ inputs) as [s a]. cbn [snd].
  rewrite !events_app. destruct err; reflexivity.
Qed.

(** C1. On the stream of change events [Watch] sends, the initial event
    included, any two consecutive events differ in [Online]. The mechanism:
    when the debounce timer fires and [recomputeOnline] returns, without
    error, the online value stored in [last], [trigger] sends nothing and
    changes nothing; and every event [trigger] sends leaves [last] equal to
    the event's [Online]. *)
Theorem no_duplicate_edges (t0 : Z) (inputs : list Input) :
  alternates (map Online (events (snd (Watch recomputeOnline t0 inputs)))) /\
  (forall t s, fst (fst (recomputeOnline t)) = last s ->
     events (snd (trigger recomputeOnline t s)) = [] /\
     fst (trigger recomputeOnline t s) = s) /\
  (forall t s e, In (SendEvent e) (snd (trigger recomputeOnline t s)) ->
     last (fst (trigger recomputeOnline t s)) = Online e).
Proof.
  split; [|split].
  - rewrite Watch_events. cbn [map Online].
    pose proof (run_keeps inputs (fst (start recomputeOnline t0))) as [H _].
    unfold start in H |- *.
    destruct (recomputeOnline t0) as [[online why] err]. cbn [fst snd last] in H |- *.
    exact H.
  - intros t s H. unfold trigger.
    destruct (recomputeOnline t) as [[online why] [e|]]; cbn [fst] in H; [cbn; auto|].
    subst online. rewrite Bool.eqb_reflx. cbn. auto.
  - intros t s e H. unfold trigger in *.
    destruct (recomputeOnline t) as [[online why] [e'|]].
    + cbn in H. destruct H as [H|[H|[]]]; discriminate H.
    + destruct (negb (Bool.eqb online (last s))).
      * cbn in H |- *. destruct H as [H|[H|[]]]; [discriminate H|].
        injection H as <-. reflexivity.
      * cbn in H. destruct H as [H|[]]. discriminate H.
Qed.

(** C3. The actions of [Watch] begin with one call of [recomputeOnline],
    then the error it returned, if any, on the error channel, then the
    initial event [{online, now, "initial: " + cause}] on the event channel;
    [last] is then [online]. The initial event is the first event of the
    stream, error or not, and the error, if any, the first of the error
    stream. *)
Theorem initial_event (t0 : Z) (inputs : list Input) :
  let online := fst (fst (recomputeOnline t0)) in
  let why := snd (fst (recomputeOnline t0)) in
  let err := snd (recomputeOnline t0) in
  let initial := {| Online := online; ChangedAt := t0; Cause := "initial: " ++ why |} in
  let later := snd (run recomputeOnline (fst (start recomputeOnline t0)) inputs) in
  snd (Watch recomputeOnline t0 inputs) =
    Evaluate t0 ::
    match err with Some e => [SendErr e] | None => [] end ++
    SendEvent initial :: later /\
  last (fst (start recomputeOnline t0)) = online /\
  evaluations (snd (start recomputeOnline t0)) = [t0] /\
  events (snd (Watch recomputeOnline t0 inputs)) = initial :: events later /\
  errors (snd (Watch recomputeOnline t0 inputs)) =
    match err with Some e => [e] | None => [] end ++ errors later.
Proof.
  cbv zeta. unfold Watch, start.
  destruct (recomputeOnline t0) as [[online why] err]. cbn [fst snd].
  destruct (run recomputeOnline _ inputs) as [s later]. cbn [fst snd last].
  destruct err as [e|]; cbn; auto.
Qed.

(** ** Debouncing *)

(** An arrival met with no timer due: no timer fires, the reason is
    recorded and the timer is armed 750 ms later. *)
Lemma step_arrival (s : State) (t : Z) (why : string) :
  running s = true ->
  match debounceTimer s with Some d => t < d | None => True end ->
  step recomputeOnline s (arrival (t, why)) =
  ({| last := last s; lastReason := why;
      debounceTimer := Some (t + debounce); running := true |}, []).
Proof.
  intros Hrun Htimer. unfold step, fireDue. rewrite Hrun.
  cbn [arrival time_of fst snd].
  destruct (debounceTimer s) as [d|].
  - destruct (Z.leb_spec d t); [lia|]. cbn. rewrite Hrun. reflexivity.
  - cbn. rewrite Hrun. reflexivity.
Qed.

(** Arrivals less than the debounce period apart, met with no timer due
    before the first: no timer fires while they arrive, and the last one
    leaves its reason and a timer armed 750 ms after it. *)
Lemma arrivals_rearm (evs : list (Z * string)) :
  forall (s : State) (t : Z) (why : string),
    running s = true ->
    match debounceTimer s with Some d => t < d | None => True end ->
    spaced (t :: map fst evs) ->
    let r := run recomputeOnline s (map arrival ((t, why) :: evs)) in
    snd r = [] /\
    running (fst r) = true /\
    last (fst r) = last s /\
    lastReason (fst r) = snd (List.last evs (t, why)) /\
    debounceTimer (fst r) = Some (fst (List.last evs (t, why)) + debounce).
Proof.
  induction evs as [|[t2 why2] evs IH]; intros s t why Hrun Htimer Hsp.
  - cbn [map run]. rewrite (step_arrival s t why Hrun Htimer). cbn. auto.
  - cbn [map fst] in Hsp. destruct Hsp as [Hgap Hsp].
    change (map arrival ((t, why) :: (t2, why2) :: evs))
      with (arrival (t, why) :: map arrival ((t2, why2) :: evs)).
    cbn [run]. rewrite (step_arrival s t why Hrun Htimer).
    set (s1 := {| last := last s; lastReason := why;
                  debounceTimer := Some (t + debounce); running := true |}).
    assert (Ht2 : match debounceTimer s1 with Some d => t2 < d | None => True end).
    { subst s1. cbn [debounceTimer]. lia. }
    specialize (IH s1 t2 why2 eq_refl Ht2 Hsp). cbv zeta in IH.
    destruct (run recomputeOnline s1 (map arrival ((t2, why2) :: evs))) as [s2 a2].
    cbn [fst snd] in IH |- *. destruct IH as (Ha & Hr & Hl & Hlr & Hd).
    subst a2. cbn [app].
    rewrite (last_nonempty (t2, why2) evs (t, why) (t2, why2)).
    rewrite last_cons_same. auto.
Qed.

Lemma run_app (s : State) (inputs1 inputs2 : list Input) :
  run recomputeOnline s (inputs1 ++ inputs2) =
  (fst (run recomputeOnline (fst (run recomputeOnline s inputs1)) inputs2),
   snd (run recomputeOnline s inputs1) ++
   snd (run recomputeOnline (fst (run recomputeOnline s inputs1)) inputs2)).
Proof.
  revert s. induction inputs1 as [|i rest IH]; intros s.
  - cbn [app run fst snd]. destruct (run recomputeOnline s inputs2); reflexivity.
  - cbn [app run]. destruct (step recomputeOnline s i) as [s1 a1].
    rewrite IH. destruct (run recomputeOnline s1 rest) as [s2 a2]. cbn [fst snd].
    rewrite app_assoc. reflexivity.
Qed.

(** Time passing until the armed timer is due: [trigger] runs once, at the
    time the timer was armed for. *)
Lemma idle_fires (s : State) (d T : Z) :
  running s = true -> debounceTimer s = Some d -> d <= T ->
  evaluations (snd (run recomputeOnline s [Idle T])) = [d] /\
  lastReason (fst (run recomputeOnline s [Idle T])) = lastReason s /\
  debounceTimer (fst (run recomputeOnline s [Idle T])) = None.
Proof.
  intros Hrun Hd HT. cbn [run]. unfold step, fireDue, trigger.
  rewrite Hrun, Hd. cbn [time_of].
  destruct (Z.leb_spec d T); [|lia].
  destruct (recomputeOnline d) as [[online why] [e|]]; [cbn; auto|].
  destruct (negb (Bool.eqb online (last s))); cbn; auto.
Qed.

(** C2. OS events arriving less than 750 ms apart, the first at [t] and the
    last at [tn], with no timer pending before them, and then nothing until
    a time [T] at least 750 ms after the last: [recomputeOnline] is called
    exactly once after the start, 750 ms after the last event, with the
    reason of the last event recorded in [lastReason]. Each arriving event
    records its reason and re-arms the timer 750 ms later, whatever timer
    was armed. *)
Theorem debounce_one_evaluation (t0 t : Z) (why : string) (evs : list (Z * string)) (T : Z) :
  spaced (t :: map fst evs) ->
  fst (List.last evs (t, why)) + debounce <= T ->
  let tn := fst (List.last evs (t, why)) in
  let r := Watch recomputeOnline t0 (map arrival ((t, why) :: evs) ++ [Idle T]) in
  evaluations (snd r) = [t0; tn + debounce] /\
  lastReason (fst r) = snd (List.last evs (t, why)) /\
  debounceTimer (fst r) = None /\
  (forall s t' e,
     lastReason (fst (selectCase (OSEvent t' e) s)) = reason e /\
     debounceTimer (fst (selectCase (OSEvent t' e) s)) = Some (t' + debounce)).
Proof.
  intros Hsp HT. cbv zeta.
  assert (Hstart : exists s0 a0,
    start recomputeOnline t0 = (s0, a0) /\ evaluations a0 = [t0] /\
    running s0 = true /\ debounceTimer s0 = None).
  { unfold start. destruct (recomputeOnline t0) as [[online why0] err].
    eexists _, _. split; [reflexivity|]. destruct err; cbn; auto. }
  destruct Hstart as (s0 & a0 & Hs & He0 & Hr0 & Hd0).
  unfold Watch. rewrite Hs, run_app.
  assert (Ht : match debounceTimer s0 with Some d => t < d | None => True end).
  { rewrite Hd0. exact I. }
  pose proof (arrivals_rearm evs s0 t why Hr0 Ht Hsp) as H. cbv zeta in H.
  destruct (run recomputeOnline s0 (map arrival ((t, why) :: evs))) as [s1 a1].
  cbn [fst snd] in H |- *. destruct H as (Ha & Hr & Hl & Hlr & Hd). subst a1.
  destruct (idle_fires s1 _ T Hr Hd HT) as (E1 & E2 & E3).
  cbn [app]. rewrite evaluations_app, He0, E1, E2, E3.
  repeat split; auto.
Qed.

End WithEvaluator.

(** The theorem at three events 50 ms apart, the first one second after the
    start, followed by three idle seconds. *)
Lemma debounce_one_evaluation_burst :
  let evs := [(1050000000, "addr change"%string); (1100000000, "route change"%string)] in
  let r := Watch onlineFrom5s 0
             (map arrival ((1000000000, "link change"%string) :: evs) ++ [Idle 4000000000]) in
  evaluations (snd r) = [0; 1100000000 + debounce] /\
  lastReason (fst r) = "route change"%string /\
  debounceTimer (fst r) = None /\
  (forall s t' e,
     lastReason (fst (selectCase (OSEvent t' e) s)) = reason e /\
     debounceTimer (fst (selectCase (OSEvent t' e) s)) = Some (t' + debounce)).
Proof.
  apply (debounce_one_evaluation onlineFrom5s 0 1000000000 "link change"
           [(1050000000, "addr change"%string); (1100000000, "route change"%string)]
           4000000000).
  - cbn. unfold debounce. lia.
  - cbn. unfold debounce. lia.
Defined.

End WatchFacts.

(** * Facts on the wake-gap watcher *)

Module WakeGapFacts.
Import Chan WakeGap.

(** [Sub] is the difference, saturated at the ends of [int64]. *)
Lemma Sub_saturates (t u : Z) :
  is_int64 t -> is_int64 u ->
  Sub t u = Z.max min_int64 (Z.min max_int64 (t - u)).
Proof.
  unfold is_int64, Sub, wrap_signed, max_int64, min_int64.
  change (2 ^ (64 - 1)) with 9223372036854775808.
  change (2 ^ 63) with 9223372036854775808.
  change (2 ^ 64) with 18446744073709551616.
  intros Ht Hu.
  pose proof (Z.div_mod (t - u + 9223372036854775808) 18446744073709551616 ltac:(lia)) as E.
  pose proof (Z.mod_pos_bound (t - u + 9223372036854775808) 18446744073709551616 ltac:(lia)) as B.
  set (q := (t - u + 9223372036854775808) / 18446744073709551616) in *.
  set (r := (t - u + 9223372036854775808) mod 18446744073709551616) in *.
  destruct (Z.ltb_spec (r - 9223372036854775808) 0);
    destruct (Z.gtb_spec t u);
    destruct (Z.gtb_spec (r - 9223372036854775808) 0);
    destruct (Z.ltb_spec t u); cbn [andb]; lia.
Qed.

(** The sum of two durations that fits [int64] is the sum. *)
Lemma add64_exact (a b : Z) : is_int64 (a + b) -> add64 a b = a + b.
Proof.
  unfold is_int64, min_int64, max_int64, add64. intros H.
  apply wrap_signed_id; [lia|].
  change (2 ^ (64 - 1)) with (2 ^ 63). lia.
Qed.

(** The sample period and the gap threshold are set at the start and never
    change; the signal channel keeps capacity 1 and holds at most one
    signal. *)
Lemma run_invariant (inputs : list Input) (w : Watcher) :
  cap (out w) = 1%nat -> (length (buf (out w)) <= 1)%nat ->
  sample (run w inputs) = sample w /\
  gapThreshold (run w inputs) = gapThreshold w /\
  cap (out (run w inputs)) = 1%nat /\
  (length (buf (out (run w inputs))) <= 1)%nat.
Proof.
  unfold run. revert w. induction inputs as [|i rest IH]; intros w Hc Hl; [cbn; auto|].
  cbn [fold_left].
  assert (H : sample (step w i) = sample w /\ gapThreshold (step w i) = gapThreshold w /\
              cap (out (step w i)) = 1%nat /\ (length (buf (out (step w i))) <= 1)%nat).
  { destruct i as [now|]; cbn [step tick fst sample gapThreshold out].
    - destruct (Sub now (last w) >=? add64 (sample w) (gapThreshold w)); [|auto].
      unfold try_send, full. rewrite Hc.
      destruct (Nat.leb_spec 1 (length (buf (out w)))); cbn [fst]; [auto|].
      cbn [push cap buf]. rewrite length_app. cbn [length]. repeat split; auto; lia.
    - cbn [receive cap buf]. repeat split; auto.
      destruct (buf (out w)); cbn [tl length] in *; lia. }
  destruct H as (H1 & H2 & H3 & H4).
  destruct (IH (step w i) H3 H4) as (I1 & I2 & I3 & I4).
  rewrite I1, I2, H1, H2. auto.
Qed.

(** [last] is the start time or the time of a tick: an [int64]. *)
Lemma run_last_int64 (inputs : list Input) (w : Watcher) :
  is_int64 (last w) -> Forall tickTime inputs -> is_int64 (last (run w inputs)).
Proof.
  unfold run. revert w. induction inputs as [|i rest IH]; intros w Hw Hin; [exact Hw|].
  cbn [fold_left]. inversion Hin as [|? ? Hi Hrest]; subst.
  apply IH; [|exact Hrest].
  destruct i as [now|]; [exact Hi|exact Hw].
Qed.

(** [last] is the time of the tick before. *)
Lemma run_last_previousTick (inputs : list Input) (w : Watcher) :
  last (run w inputs) = previousTick (last w) inputs.
Proof.
  unfold run. revert w. induction inputs as [|i rest IH]; intros w; [reflexivity|].
  cbn [fold_left previousTick]. rewrite IH. destruct i; reflexivity.
Qed.

(** The times of the ticks are [int64] values, and so is the time of the
    tick before. *)
Lemma previousTick_int64 (inputs : list Input) (now0 : Z) :
  is_int64 now0 -> Forall tickTime inputs -> is_int64 (previousTick now0 inputs).
Proof.
  revert now0. induction inputs as [|i rest IH]; intros now0 H0 Hin; [exact H0|].
  inversion Hin as [|? ? Hi Hrest]; subst.
  destruct i as [now|]; cbn [previousTick]; apply IH; auto.
Qed.

(** C9, amended. A watcher started with [sample0] and [gapThreshold0]
    samples with 1 s and 1.5 s in place of arguments that are not
    positive. When the sum of the sample period and the gap threshold fits
    a [time.Duration] (an [int64] of nanoseconds), then after any ticks and
    receives, at a tick at time [now]: the watcher holds the time of the
    tick before (its start time when this is the first tick), and [last]
    becomes [now]; a signal is sent, without blocking, if and only if [now]
    is at least [sample + gapThreshold] after the tick before; the signal
    is queued when the channel (capacity 1) is empty and dropped
    otherwise, so at most one signal is queued per tick and the channel
    never holds more than one. *)
Theorem wake_gap_signal (sample0 gapThreshold0 now0 : Z) (inputs : list Input) (now : Z) :
  is_int64 now0 -> Forall tickTime inputs -> is_int64 now ->
  let w0 := StartWakeGapWatcher sample0 gapThreshold0 now0 in
  is_int64 (sample w0 + gapThreshold w0) ->
  let w := run w0 inputs in
  let w' := fst (tick w now) in
  let signal := snd (tick w now) in
  sample w = (if sample0 <=? 0 then 1000000000 else sample0) /\
  gapThreshold w = (if gapThreshold0 <=? 0 then 1500000000 else gapThreshold0) /\
  last w = previousTick now0 inputs /\
  last w' = now /\
  (signal = true <->
   now - previousTick now0 inputs >= sample w + gapThreshold w) /\
  buf (out w') =
    (if signal && negb (full (out w)) then buf (out w) ++ [tt] else buf (out w)) /\
  (length (buf (out w')) <= 1)%nat.
Proof.
  intros Hnow0 Hin Hnow. cbv zeta. intros Hfit.
  pose proof (previousTick_int64 inputs now0 Hnow0 Hin) as Hprev.
  pose proof (run_last_previousTick inputs (StartWakeGapWatcher sample0 gapThreshold0 now0))
    as Hlast.
  change (last (StartWakeGapWatcher sample0 gapThreshold0 now0)) with now0 in Hlast.
  destruct (run_invariant inputs (StartWakeGapWatcher sample0 gapThreshold0 now0)
              eq_refl ltac:(cbn; lia)) as (Hs & Hg & Hc & Hl).
  set (w0 := StartWakeGapWatcher sample0 gapThreshold0 now0) in *.
  set (w := run w0 inputs) in *.
  cbn [tick fst snd last out].
  split; [exact Hs|]. split; [exact Hg|]. split; [exact Hlast|]. split; [reflexivity|].
  split.
  - rewrite Hlast, Hs, Hg, (add64_exact _ _ Hfit), (Sub_saturates _ _ Hnow Hprev).
    assert (Hpos : 0 < sample w0 /\ 0 < gapThreshold w0).
    { subst w0. unfold StartWakeGapWatcher, Second, Millisecond.
      cbn [sample gapThreshold].
      destruct (Z.leb_spec sample0 0); destruct (Z.leb_spec gapThreshold0 0); lia. }
    rewrite Z.geb_le.
    unfold is_int64, min_int64, max_int64 in *.
    change (2 ^ 63) with 9223372036854775808 in *. lia.
  - destruct (Sub now (last w) >=? add64 (sample w) (gapThreshold w)); cbn [andb].
    + unfold try_send. destruct (full (out w)) eqn:Hf; cbn [negb fst push buf].
      * split; [reflexivity|exact Hl].
      * split; [reflexivity|]. unfold full in Hf. rewrite Hc in Hf.
        apply Nat.leb_gt in Hf. rewrite length_app. cbn [length]. lia.
    + split; [reflexivity|exact Hl].
Qed.

(** The sixth scenario of the design: sample 1 s, gap 1.5 s, the monotonic
    clock jumping 6 s between two ticks. *)
Lemma wake_gap_signal_scenario6 :
  let w := run (StartWakeGapWatcher 1000000000 1500000000 0)
               [Tick 1000000000; Tick 2000000000] in
  let w' := fst (tick w 8000000000) in
  let signal := snd (tick w 8000000000) in
  sample w = (if 1000000000 <=? 0 then 1000000000 else 1000000000) /\
  gapThreshold w = (if 1500000000 <=? 0 then 1500000000 else 1500000000) /\
  last w = previousTick 0 [Tick 1000000000; Tick 2000000000] /\
  last w' = 8000000000 /\
  (signal = true <->
   8000000000 - previousTick 0 [Tick 1000000000; Tick 2000000000] >=
   sample w + gapThreshold w) /\
  buf (out w') =
    (if signal && negb (full (out w)) then buf (out w) ++ [tt] else buf (out w)) /\
  (length (buf (out w')) <= 1)%nat.
Proof.
  apply (wake_gap_signal 1000000000 1500000000 0
           [Tick 1000000000; Tick 2000000000] 8000000000).
  - unfold is_int64, min_int64, max_int64. lia.
  - repeat constructor; unfold is_int64, min_int64, max_int64; cbn; lia.
  - unfold is_int64, min_int64, max_int64. lia.
  - unfold is_int64, min_int64, max_int64. cbn. lia.
Defined.

(** C9 as it was stated, on a threshold that overflows: sample 1 s and
    the largest duration as gap threshold. The sum the code compares with
    wraps around to a negative [int64], and the first tick, 1 s after the
    start, signals, although it is not [sample + gapThreshold] after the
    start. *)
Lemma wake_gap_signal_overflow :
  snd (tick (StartWakeGapWatcher 1000000000 9223372036854775807 0) 1000000000) = true /\
  1000000000 - last (StartWakeGapWatcher 1000000000 9223372036854775807 0) <
  sample (StartWakeGapWatcher 1000000000 9223372036854775807 0) +
  gapThreshold (StartWakeGapWatcher 1000000000 9223372036854775807 0).
Proof. split; vm_compute; reflexivity. Qed.

(** In that scenario the signal is sent and queued, once. *)
Lemma scenario6_signals :
  let w := run (StartWakeGapWatcher 1000000000 1500000000 0)
               [Tick 1000000000; Tick 2000000000] in
  buf (out w) = [] /\ snd (tick w 8000000000) = true /\
  buf (out (fst (tick w 8000000000))) = [tt].
Proof. vm_compute. auto. Qed.

End WakeGapFacts.

(** * Facts on the netlink wire format and the Linux reader *)

Module NetlinkWireFacts.
Import Netlink NetlinkWire NetlinkFacts.

Lemma byte_val_byte_of (v : Z) : byte_val (byte_of v) = v mod 256.
Proof.
  unfold byte_of, byte_val.
  pose proof (Z.mod_pos_bound v 256 ltac:(lia)) as B.
  destruct (Byte.of_N (Z.to_N (v mod 256))) as [b|] eqn:E.
  - apply Byte.to_of_N in E. rewrite E. apply Z2N.id. lia.
  - apply Byte.of_N_None_iff in E. lia.
Qed.

Lemma le_val_le_bytes (n : nat) :
  forall v, 0 <= v < 256 ^ Z.of_nat n -> le_val (le_bytes n v) = v.
Proof.
  induction n as [|n IH]; intros v Hv.
  - cbn in *. lia.
  - cbn [le_bytes le_val]. rewrite byte_val_byte_of.
    rewrite Nat2Z.inj_succ, Z.pow_succ_r in Hv by lia.
    rewrite IH.
    + pose proof (Z.div_mod v 256 ltac:(lia)). lia.
    + split; [apply Z.div_pos; lia|].
      apply Z.div_lt_upper_bound; lia.
Qed.

Lemma length_le_bytes (n : nat) (v : Z) : length (le_bytes n v) = n.
Proof. revert v. induction n as [|n IH]; intros v; cbn; [reflexivity|]. now rewrite IH. Qed.

Lemma encode_split (m : nlmsg) :
  encode m =
  hdr_bytes (Header m) ++ Body m ++
  repeat x00 (Z.to_nat (align4 (Len (Header m)) - Len (Header m))).
Proof. unfold encode, hdr_bytes. now rewrite <- !app_assoc. Qed.

Lemma length_hdr_bytes (h : nlmsghdr) : length (hdr_bytes h) = 16%nat.
Proof. unfold hdr_bytes. rewrite !length_app, !length_le_bytes. reflexivity. Qed.

Lemma align4_bounds (n : Z) : n <= align4 n <= n + 3.
Proof.
  unfold align4. pose proof (Z.div_mod (n + 3) 4 ltac:(lia)).
  pose proof (Z.mod_pos_bound (n + 3) 4 ltac:(lia)). lia.
Qed.

Lemma read_hdr_hdr_bytes (h : nlmsghdr) :
  0 <= Len h < 2 ^ 32 -> 0 <= Type_ h < 2 ^ 16 -> 0 <= Flags h < 2 ^ 16 ->
  0 <= Seq h < 2 ^ 32 -> 0 <= Pid h < 2 ^ 32 ->
  read_hdr (hdr_bytes h) = h.
Proof.
  intros H1 H2 H3 H4 H5. destruct h as [l t f s p]. cbn [Len Type_ Flags Seq Pid] in *.
  unfold read_hdr, field, hdr_bytes. cbn [Len Type_ Flags Seq Pid].
  cbn [le_bytes app skipn firstn].
  change (le_val [byte_of l; byte_of (l / 256); byte_of (l / 256 / 256);
                  byte_of (l / 256 / 256 / 256)]) with (le_val (le_bytes 4 l)).
  change (le_val [byte_of t; byte_of (t / 256)]) with (le_val (le_bytes 2 t)).
  change (le_val [byte_of f; byte_of (f / 256)]) with (le_val (le_bytes 2 f)).
  change (le_val [byte_of s; byte_of (s / 256); byte_of (s / 256 / 256);
                  byte_of (s / 256 / 256 / 256)]) with (le_val (le_bytes 4 s)).
  change (le_val [byte_of p; byte_of (p / 256); byte_of (p / 256 / 256);
                  byte_of (p / 256 / 256 / 256)]) with (le_val (le_bytes 4 p)).
  rewrite !le_val_le_bytes; [reflexivity|..]; assumption.
Qed.

Lemma len_encode (m : nlmsg) :
  wellFormed m -> len (encode m) = align4 (Len (Header m)).
Proof.
  intros (HL & _). rewrite encode_split. unfold len.
  rewrite !length_app, length_hdr_bytes, repeat_length.
  pose proof (align4_bounds (Len (Header m))). unfold len in HL. lia.
Qed.

(** A turn of the loop on a slice that starts with a well-formed message:
    the message is appended and the slice moves past it and its padding. *)
Lemma iter_encode (m : nlmsg) (rest : list byte) (out : list nlmsg) :
  wellFormed m -> len (encode m ++ rest) < 2 ^ 32 - 3 ->
  iter 64 (encode m ++ rest) out = Next rest (out ++ [m]).
Proof.
  intros Hwf Hlen.
  pose proof (len_encode m Hwf) as Henc.
  destruct Hwf as (HL & HL32 & HT & HF & HS & HP).
  pose proof (align4_bounds (Len (Header m))) as Hal.
  assert (Hb : len (encode m ++ rest) = align4 (Len (Header m)) + len rest).
  { unfold len in *. rewrite length_app. lia. }
  assert (Hbody : 0 <= len (Body m)) by (unfold len; lia).
  assert (Hrest : 0 <= len rest) by (unfold len; lia).
  change (2 ^ 32) with 4294967296 in *.
  assert (Hhdr : read_hdr (encode m ++ rest) = Header m).
  { rewrite encode_split, <- app_assoc.
    rewrite read_hdr_app by apply length_hdr_bytes.
    apply read_hdr_hdr_bytes; change (2 ^ 32) with 4294967296; lia. }
  unfold iter, hdrLen. rewrite Hhdr.
  destruct (Z.ltb_spec (len (encode m ++ rest)) 16); [lia|].
  destruct (Z.ltb_spec (Len (Header m)) 16); [lia|]. cbn [orb].
  rewrite (wrap_signed_64_id (Len (Header m))) by (change (2 ^ 32) with 4294967296; lia).
  destruct (Z.gtb_spec (Len (Header m)) (len (encode m ++ rest))); [lia|].
  rewrite slice_Some by lia.
  assert (Hw : wrap_unsigned 32 (Len (Header m) + 3) = Len (Header m) + 3).
  { unfold wrap_unsigned. change (2 ^ 32) with 4294967296. apply Z.mod_small. lia. }
  rewrite Hw, ldiff_3. fold (align4 (Len (Header m))).
  rewrite (wrap_signed_64_id (align4 (Len (Header m))))
    by (change (2 ^ 32) with 4294967296; lia).
  destruct (Z.gtb_spec (align4 (Len (Header m))) (len (encode m ++ rest))); [lia|].
  rewrite slice_from_Some by lia.
  assert (Hskip : skipn (Z.to_nat (align4 (Len (Header m)))) (encode m ++ rest) = rest).
  { rewrite skipn_app.
    assert (E : Z.to_nat (align4 (Len (Header m))) = length (encode m)).
    { unfold len in Henc. lia. }
    rewrite E, skipn_all, Nat.sub_diag. reflexivity. }
  assert (Hfirst : firstn (Z.to_nat (Len (Header m) - 16))
                     (skipn (Z.to_nat 16) (encode m ++ rest)) = Body m).
  { rewrite encode_split, <- !app_assoc.
    change (Z.to_nat 16) with 16%nat.
    rewrite skipn_app, length_hdr_bytes, Nat.sub_diag.
    rewrite skipn_all2 by (rewrite length_hdr_bytes; lia).
    cbn [app skipn].
    replace (Z.to_nat (Len (Header m) - 16)) with (length (Body m) + 0)%nat
      by (unfold len in HL; lia).
    rewrite firstn_app_2. cbn [firstn]. apply app_nil_r. }
  rewrite Hskip, Hfirst. destruct m as [h b]. reflexivity.
Qed.

Lemma Forall_wellFormed_len (ms : list nlmsg) :
  Forall wellFormed ms -> 16 * len ms <= len (datagram ms).
Proof.
  induction 1 as [|m ms Hm _ IH]; [cbn; lia|].
  unfold datagram in *. cbn [map concat].
  pose proof (len_encode m Hm) as E. pose proof (align4_bounds (Len (Header m))).
  destruct Hm as (HL & _).
  unfold len in *. rewrite length_app. cbn [length]. lia.
Qed.

(** The loop runs through the messages of a datagram, one turn each, and
    goes on with what follows them. *)
Lemma loop_datagram (ms : list nlmsg) :
  forall (fuel : nat) (tail : list byte) (out : list nlmsg),
    Forall wellFormed ms -> len (datagram ms ++ tail) < 2 ^ 32 - 3 ->
    loop 64 (length ms + fuel) (datagram ms ++ tail) out = loop 64 fuel tail (out ++ ms).
Proof.
  induction ms as [|m ms IH]; intros fuel tail out Hwf Hlen.
  - cbn [datagram map concat app length Nat.add]. now rewrite app_nil_r.
  - inversion Hwf as [|? ? Hm Hms]; subst.
    unfold datagram in *. cbn [map concat length Nat.add loop] in *.
    rewrite <- app_assoc in *.
    rewrite (iter_encode m _ out Hm Hlen).
    rewrite IH; [now rewrite <- app_assoc|exact Hms|].
    unfold len in *. rewrite !length_app in *. lia.
Qed.

Lemma loop_short (fuel : nat) (junk : list byte) (out : list nlmsg) :
  len junk < 16 -> loop 64 (S fuel) junk out = Some (Returned out None).
Proof.
  intros H. cbn [loop]. unfold iter, hdrLen.
  destruct (Z.ltb_spec (len junk) 16); [reflexivity|lia].
Qed.


Lemma fuel_split (ms : list nlmsg) (tail : list byte) :
  Forall wellFormed ms ->
  exists fuel, S (length (datagram ms ++ tail)) = (length ms + S fuel)%nat.
Proof.
  intros Hwf. pose proof (Forall_wellFormed_len ms Hwf) as H.
  exists (length (datagram ms ++ tail) - length ms)%nat.
  unfold len in H. rewrite length_app. lia.
Qed.

Lemma parseNlMsgs_datagram (ms : list nlmsg) (junk : list byte) :
  Forall wellFormed ms -> len junk < 16 ->
  len (datagram ms ++ junk) < 2 ^ 32 - 3 ->
  parseNlMsgs 64 (datagram ms ++ junk) = Some (Returned ms None).
Proof.
  intros Hwf Hjunk Hlen. unfold parseNlMsgs.
  destruct (fuel_split ms junk Hwf) as [fuel ->].
  rewrite loop_datagram by assumption.
  now apply loop_short.
Qed.


(** A datagram of well-formed messages, each padded to a multiple of four
    bytes, followed by fewer than sixteen stray bytes, parses to exactly
    those messages, with no error: the parser inverts the wire format, and
    a tail too short for a header is passed over in silence. *)
Theorem parse_datagram (ms : list nlmsg) (junk : list byte) :
  Forall wellFormed ms -> len junk < 16 ->
  len (datagram ms ++ junk) < 2 ^ 32 - 3 ->
  parseNlMsgs 64 (datagram ms ++ junk) = Some (Returned ms None).
Proof. exact (parseNlMsgs_datagram ms junk). Qed.

Lemma parse_datagram_example :
  parseNlMsgs 64 (datagram [addr_msg; route_msg] ++ [x00; x00]) =
  Some (Returned [addr_msg; route_msg] None).
Proof.
  apply (parse_datagram [addr_msg; route_msg] [x00; x00]).
  - repeat constructor; cbn; lia.
  - cbn. lia.
  - vm_compute. reflexivity.
Defined.



End NetlinkWireFacts.

Module LinuxReaderFacts.
Import Chan EventSource LinuxReader Netlink NetlinkWire.






End LinuxReaderFacts.

(** * More facts on the Linux evaluator *)

Module EvaluatorMoreFacts.
Import Go Evaluator Hosts RouteText EvaluatorFacts.

Section WithLib.
Context {L : Lib}.

(** Where the library reads two hexadecimal digits as the byte they write,
    [hexToIPv4] turns the gateway column of [/proc/net/route] into the
    dotted address: the column is read least significant byte first, so
    [0101010A] is [10.1.1.1]. *)
Theorem hexToIPv4_gateway (b0 b1 b2 b3 : byte) :
  (forall b, strconv_ParseUint (hex2 b) 16 8 = Some (bv b)) ->
  hexToIPv4 (gatewayColumn b0 b1 b2 b3) =
  (sprint_d (bv b0) ++ "." ++ sprint_d (bv b1) ++ "." ++
   sprint_d (bv b2) ++ "." ++ sprint_d (bv b3))%string.
Proof.
  intros H. unfold hexToIPv4, gatewayColumn, hex2. cbn [String.append String.length Nat.eqb negb].
  cbn [substring].
  change (String (hexDigit (bv b0 / 16)) (String (hexDigit (bv b0 mod 16)) ""))
    with (hex2 b0).
  change (String (hexDigit (bv b1 / 16)) (String (hexDigit (bv b1 mod 16)) ""))
    with (hex2 b1).
  change (String (hexDigit (bv b2 / 16)) (String (hexDigit (bv b2 mod 16)) ""))
    with (hex2 b2).
  change (String (hexDigit (bv b3 / 16)) (String (hexDigit (bv b3 mod 16)) ""))
    with (hex2 b3).
  rewrite !H. reflexivity.
Qed.

(** A gateway column that is not eight characters long gives the empty
    gateway, whatever it holds. *)
Lemma hexToIPv4_wrong_length (s : string) :
  String.length s <> 8%nat -> hexToIPv4 s = ""%string.
Proof.
  intros H. unfold hexToIPv4.
  destruct (Nat.eqb_spec (String.length s) 8); [contradiction|reflexivity].
Qed.

Lemma recomputeOnline_layers (h : Host) :
  (fst (fst (recomputeOnline h)) = true <->
   exists ifname gw,
     linuxDefaultRoute h = (true, ifname, gw, None) /\
     ifname <> ""%string /\
     linuxIfaceUp h ifname = (true, None) /\
     ifaceHasUsableAddr h ifname = true /\
     (gw = ""%string \/ arpIsReady h gw ifname = true) /\
     hasDNSResolver h = true /\
     recomputeOnline h = (true, ("default via " ++ ifname)%string, None)) /\
  (fst (fst (recomputeOnline h)) = false ->
   In (snd (fst (recomputeOnline h)))
      ["no default route"; "default route no iface"; "default iface down";
       "default iface has no usable IP"; "gateway neighbor not ready";
       "no DNS resolver"]%string).
Proof.
  unfold recomputeOnline.
  pose proof (linuxDefaultRoute_no_error h) as E1.
  destruct (linuxDefaultRoute h) as [[[hasDef ifname] gw] err]. cbn [snd] in E1. subst err.
  destruct hasDef; cbn [negb].
  2:{ split; [|cbn; auto]. split; [discriminate|].
      intros (i & g & H & _). discriminate H. }
  destruct (String.eqb_spec ifname "") as [->|Hne].
  { split; [|cbn; auto]. split; [discriminate|].
    intros (i & g & H & Hi & _). injection H as <- <-. contradiction. }
  pose proof (linuxIfaceUp_no_error h ifname) as E2.
  destruct (linuxIfaceUp h ifname) as [up err] eqn:Eup. cbn [snd] in E2. subst err.
  destruct up; cbn [negb].
  2:{ split; [|cbn; auto]. split; [discriminate|].
      intros (i & g & H & _ & Hu & _). injection H as <- <-.
      rewrite Eup in Hu. discriminate Hu. }
  destruct (ifaceHasUsableAddr h ifname) eqn:Eaddr; cbn [negb].
  2:{ split; [|cbn; auto 10]. split; [discriminate|].
      intros (i & g & H & _ & _ & Ha & _). injection H as <- <-.
      rewrite Eaddr in Ha. discriminate Ha. }
  destruct (String.eqb_spec gw "") as [->|Hgw]; cbn [negb andb].
  - destruct (hasDNSResolver h) eqn:Edns; cbn [negb].
    + split; [|discriminate]. split; [|reflexivity].
      intros _. exists ifname, ""%string. repeat split; auto.
    + split; [|cbn; auto 10]. split; [discriminate|].
      intros (i & g & _ & _ & _ & _ & _ & Hd & _). discriminate Hd.
  - destruct (arpIsReady h gw ifname) eqn:Earp; cbn [negb].
    + destruct (hasDNSResolver h) eqn:Edns; cbn [negb].
      * split; [|discriminate]. split; [|reflexivity].
        intros _. exists ifname, gw. repeat split; auto.
      * split; [|cbn; auto 10]. split; [discriminate|].
        intros (i & g & _ & _ & _ & _ & _ & Hd & _). discriminate Hd.
    + split; [|cbn; auto 10]. split; [discriminate|].
      intros (i & g & H & _ & _ & _ & [Hg|Hg] & _); injection H as <- <-.
      * contradiction.
      * rewrite Earp in Hg. discriminate Hg.
Qed.

(** When every layer passes, [recomputeOnline] answers online through the
    interface of the default route. *)
Lemma recomputeOnline_all_layers (h : Host) (ifname gw : string) :
  linuxDefaultRoute h = (true, ifname, gw, None) ->
  ifname <> ""%string ->
  linuxIfaceUp h ifname = (true, None) ->
  ifaceHasUsableAddr h ifname = true ->
  gw = ""%string \/ arpIsReady h gw ifname = true ->
  hasDNSResolver h = true ->
  recomputeOnline h = (true, ("default via " ++ ifname)%string, None).
Proof.
  intros H1 H2 H3 H4 H5 H6.
  rewrite (recomputeOnline_after_layer4 h ifname gw H1 H2 H3 H4).
  unfold dnsLayer. rewrite H6. cbn [negb].
  destruct H5 as [-> | ->]; [reflexivity|].
  cbn [negb]. rewrite andb_false_r. reflexivity.
Qed.

(** [recomputeOnline] answers online exactly when every layer passes: a
    default route with a named interface, the interface up, a usable
    address on it, the gateway string empty or the gateway resolved, and a
    DNS resolver. The cause is then ["default via <ifname>"] and the
    error nil. When it answers offline the cause is one of six fixed
    texts, and never one of the two ["... check failed"] texts. *)
Theorem recomputeOnline_online_iff (h : Host) :
  (fst (fst (recomputeOnline h)) = true <->
   exists ifname gw,
     linuxDefaultRoute h = (true, ifname, gw, None) /\
     ifname <> ""%string /\
     linuxIfaceUp h ifname = (true, None) /\
     ifaceHasUsableAddr h ifname = true /\
     (gw = ""%string \/ arpIsReady h gw ifname = true) /\
     hasDNSResolver h = true) /\
  (forall ifname gw,
     linuxDefaultRoute h = (true, ifname, gw, None) ->
     fst (fst (recomputeOnline h)) = true ->
     recomputeOnline h = (true, ("default via " ++ ifname)%string, None)) /\
  (fst (fst (recomputeOnline h)) = false ->
   In (snd (fst (recomputeOnline h)))
      ["no default route"; "default route no iface"; "default iface down";
       "default iface has no usable IP"; "gateway neighbor not ready";
       "no DNS resolver"]%string).
Proof.
  destruct (recomputeOnline_layers h) as [Hiff Hoff].
  split; [|split; [|exact Hoff]].
  - split.
    + intros H. apply Hiff in H.
      destruct H as (ifname & gw & H1 & H2 & H3 & H4 & H5 & H6 & _).
      exists ifname, gw. auto 10.
    + intros (ifname & gw & H1 & H2 & H3 & H4 & H5 & H6).
      rewrite (recomputeOnline_all_layers h ifname gw H1 H2 H3 H4 H5 H6). reflexivity.
  - intros ifname gw H1 H. apply Hiff in H.
    destruct H as (i & g & H1' & _ & _ & _ & _ & _ & E).
    rewrite H1 in H1'. injection H1' as <- <-. exact E.
Qed.

(** [linuxIfaceUp] reports an interface up exactly when its name is not
    empty and nothing that can be read says otherwise: the flags, when the
    interface is known, have [FlagUp] and not [FlagLoopback]; [operstate],
    when readable, is [up] or [unknown] once trimmed; [carrier], when
    readable, is [1] once trimmed. An interface the [net] package does not
    know and that has no entry under [/sys/class/net] is reported up. *)
Theorem linuxIfaceUp_iff (h : Host) (name : string) :
  fst (linuxIfaceUp h name) = true <->
  name <> ""%string /\
  (forall ifi, InterfaceByName h name = Some ifi ->
     Z.land (Flags ifi) FlagUp <> 0 /\ Z.land (Flags ifi) FlagLoopback = 0) /\
  (forall b,
     ReadFile h (filepath_Join ["/sys/class/net"; name; "operstate"]%string) = Some b ->
     strings_TrimSpace b = "up"%string \/ strings_TrimSpace b = "unknown"%string) /\
  (forall b,
     ReadFile h (filepath_Join ["/sys/class/net"; name; "carrier"]%string) = Some b ->
     strings_TrimSpace b = "1"%string).
Proof.
  unfold linuxIfaceUp.
  destruct (String.eqb_spec name "") as [->|Hne].
  { cbn. split; [discriminate|]. intros (H & _). contradiction. }
  destruct (InterfaceByName h name) as [ifi|].
  - destruct (Z.eqb_spec (Z.land (Flags ifi) FlagUp) 0) as [Hu|Hu]; cbn [orb].
    { cbn. split; [discriminate|]. intros (_ & H & _).
      destruct (H ifi eq_refl) as [H1 _]. contradiction. }
    destruct (Z.eqb_spec (Z.land (Flags ifi) FlagLoopback) 0) as [Hl|Hl]; cbn [negb].
    2:{ cbn. split; [discriminate|]. intros (_ & H & _).
        destruct (H ifi eq_refl) as [_ H2]. contradiction. }
    destruct (ReadFile h (filepath_Join ["/sys/class/net"; name; "operstate"]%string)) as [b|].
    + destruct (String.eqb_spec (strings_TrimSpace b) "up") as [Eu|Eu];
        destruct (String.eqb_spec (strings_TrimSpace b) "unknown") as [Ek|Ek]; cbn [negb andb].
      4:{ cbn. split; [discriminate|]. intros (_ & _ & H & _).
          destruct (H b eq_refl); contradiction. }
      all: destruct (ReadFile h (filepath_Join ["/sys/class/net"; name; "carrier"]%string)) as [c|].
      all: try (destruct (String.eqb_spec (strings_TrimSpace c) "1") as [Ec|Ec]; cbn [negb]).
      all: cbn [fst].
      all: try (split; [discriminate|]; intros (_ & _ & _ & H);
                specialize (H c eq_refl); contradiction).
      all: split; [intros _|reflexivity].
      all: split; [exact Hne|]; split; [intros i [= <-]; auto|].
      all: split; [intros b' [= <-]; auto|].
      all: try (intros c' [= <-]; exact Ec).
      all: intros c' Hc; discriminate Hc.
    + destruct (ReadFile h (filepath_Join ["/sys/class/net"; name; "carrier"]%string)) as [c|].
      * destruct (String.eqb_spec (strings_TrimSpace c) "1") as [Ec|Ec]; cbn [negb fst].
        -- split; [intros _|reflexivity].
           split; [exact Hne|]. split; [intros i [= <-]; auto|].
           split; [intros b' Hb; discriminate Hb|]. intros c' [= <-]. exact Ec.
        -- split; [discriminate|]. intros (_ & _ & _ & H).
           specialize (H c eq_refl). contradiction.
      * cbn [fst]. split; [intros _|reflexivity].
        split; [exact Hne|]. split; [intros i [= <-]; auto|].
        split; [intros b' Hb; discriminate Hb|]. intros c' Hc. discriminate Hc.
  - destruct (ReadFile h (filepath_Join ["/sys/class/net"; name; "operstate"]%string)) as [b|].
    + destruct (String.eqb_spec (strings_TrimSpace b) "up") as [Eu|Eu];
        destruct (String.eqb_spec (strings_TrimSpace b) "unknown") as [Ek|Ek]; cbn [negb andb].
      4:{ cbn. split; [discriminate|]. intros (_ & _ & H & _).
          destruct (H b eq_refl); contradiction. }
      all: destruct (ReadFile h (filepath_Join ["/sys/class/net"; name; "carrier"]%string)) as [c|].
      all: try (destruct (String.eqb_spec (strings_TrimSpace c) "1") as [Ec|Ec]; cbn [negb]).
      all: cbn [fst].
      all: try (split; [discriminate|]; intros (_ & _ & _ & H);
                specialize (H c eq_refl); contradiction).
      all: split; [intros _|reflexivity].
      all: split; [exact Hne|]; split; [intros i Hi; discriminate Hi|].
      all: split; [intros b' [= <-]; auto|].
      all: try (intros c' [= <-]; exact Ec).
      all: intros c' Hc; discriminate Hc.
    + destruct (ReadFile h (filepath_Join ["/sys/class/net"; name; "carrier"]%string)) as [c|].
      * destruct (String.eqb_spec (strings_TrimSpace c) "1") as [Ec|Ec]; cbn [negb fst].
        -- split; [intros _|reflexivity].
           split; [exact Hne|]. split; [intros i Hi; discriminate Hi|].
           split; [intros b' Hb; discriminate Hb|]. intros c' [= <-]. exact Ec.
        -- split; [discriminate|]. intros (_ & _ & _ & H).
           specialize (H c eq_refl). contradiction.
      * cbn [fst]. split; [intros _|reflexivity].
        split; [exact Hne|]. split; [intros i Hi; discriminate Hi|].
        split; [intros b' Hb; discriminate Hb|]. intros c' Hc. discriminate Hc.
Qed.

(** The loop over [/proc/net/route] returns at the first line that is a
    default route and up. *)
Lemma scanRoute4_first (pre : list string) (ln : string) (post : list string) :
  Forall (fun l => isDefaultUp4 l = false) pre -> isDefaultUp4 ln = true ->
  scanRoute4 (pre ++ ln :: post) =
  Some (at_ (strings_Fields ln) 0, hexToIPv4 (at_ (strings_Fields ln) 2)).
Proof.
  intros Hpre Hln. induction Hpre as [|l pre Hl _ IH]; cbn [app scanRoute4].
  - unfold isDefaultUp4 in Hln.
    destruct (Z.ltb_spec (len (strings_Fields ln)) 11) as [Hlt|Hge].
    { destruct (Z.leb_spec 11 (len (strings_Fields ln))); [lia|discriminate Hln]. }
    destruct (Z.leb_spec 11 (len (strings_Fields ln))); [|lia]. cbn [andb] in Hln.
    destruct (String.eqb (at_ (strings_Fields ln) 1) "00000000"); [|discriminate Hln].
    cbn [andb] in Hln. rewrite Hln. reflexivity.
  - unfold isDefaultUp4 in Hl.
    destruct (Z.ltb_spec (len (strings_Fields l)) 11) as [Hlt|Hge]; [exact IH|].
    destruct (Z.leb_spec 11 (len (strings_Fields l))); [|lia]. cbn [andb] in Hl.
    destruct (String.eqb (at_ (strings_Fields l) 1) "00000000"); [|exact IH].
    cbn [andb] in Hl. rewrite Hl. exact IH.
Qed.

(** When [/proc/net/route] can be read, [linuxDefaultRoute] answers with
    the interface and the gateway of the first line after the header that
    is a default route and up: later default routes are not looked at,
    whatever their metric, and neither is the IPv6 table. *)
Theorem linuxDefaultRoute_first_wins (h : Host) (content : string)
    (pre : list string) (ln : string) (post : list string) :
  ReadFile h "/proc/net/route" = Some content ->
  tl (bufio_ScanLines content) = pre ++ ln :: post ->
  Forall (fun l => isDefaultUp4 l = false) pre ->
  isDefaultUp4 ln = true ->
  linuxDefaultRoute h =
  (true, at_ (strings_Fields ln) 0, hexToIPv4 (at_ (strings_Fields ln) 2), None).
Proof.
  intros Hr Hlines Hpre Hln. unfold linuxDefaultRoute.
  rewrite Hr, Hlines, (scanRoute4_first pre ln post Hpre Hln). reflexivity.
Qed.

End WithLib.

Lemma linuxDefaultRoute_first_wins_example :
  @linuxDefaultRoute Ref.lib two_defaults =
  (true,
   at_ (@strings_Fields Ref.lib "wlan0 00000000 0100A8C0 0003 0 0 600 00000000 0 0 0") 0,
   @hexToIPv4 Ref.lib
     (at_ (@strings_Fields Ref.lib "wlan0 00000000 0100A8C0 0003 0 0 600 00000000 0 0 0") 2),
   None).
Proof.
  apply (@linuxDefaultRoute_first_wins Ref.lib two_defaults
           (text [route_header;
                  "wlan0 0000A8C0 00000000 0001 0 0 600 00FFFFFF 0 0 0";
                  "wlan0 00000000 0100A8C0 0003 0 0 600 00000000 0 0 0";
                  "eth0 00000000 0101010A 0003 0 0 100 00000000 0 0 0"]%string)
           ["wlan0 0000A8C0 00000000 0001 0 0 600 00FFFFFF 0 0 0"%string]
           "wlan0 00000000 0100A8C0 0003 0 0 600 00000000 0 0 0"
           ["eth0 00000000 0101010A 0003 0 0 100 00000000 0 0 0"%string]).
  - reflexivity.
  - vm_compute. reflexivity.
  - repeat constructor.
  - vm_compute. reflexivity.
Defined.

(** What that is: the route through [wlan0], gateway 192.168.0.1. *)
Lemma two_defaults_picks_wlan0 :
  @linuxDefaultRoute Ref.lib two_defaults =
  (true, "wlan0"%string, "192.168.0.1"%string, None).
Proof. vm_compute. reflexivity. Qed.

Lemma Ref_ParseUint_hex2 (b : byte) : Ref.ParseUint (hex2 b) 16 8 = Some (bv b).
Proof. destruct b; vm_compute; reflexivity. Qed.

(** The theorem at the gateway of the first scenario, [0101010A]. *)
Lemma hexToIPv4_gateway_example :
  @hexToIPv4 Ref.lib (gatewayColumn x0a x01 x01 x01) =
  (sprint_d (bv x0a) ++ "." ++ sprint_d (bv x01) ++ "." ++
   sprint_d (bv x01) ++ "." ++ sprint_d (bv x01))%string.
Proof.
  apply (@hexToIPv4_gateway Ref.lib x0a x01 x01 x01). exact Ref_ParseUint_hex2.
Defined.

(** ** Interface addresses *)

Import AddrKinds.

Lemma bytes_eqb_true_iff (a b : list byte) : bytes_eqb a b = true <-> a = b.
Proof.
  unfold bytes_eqb. destruct (list_eq_dec Byte.byte_eq_dec a b); split; auto; discriminate.
Qed.

Lemma bytes_eqb_refl (a : list byte) : bytes_eqb a a = true.
Proof. now apply bytes_eqb_true_iff. Qed.

Lemma bytes_eqb_false (a b : list byte) : a <> b -> bytes_eqb a b = false.
Proof.
  intros H. destruct (bytes_eqb a b) eqn:E; [|reflexivity].
  apply bytes_eqb_true_iff in E. contradiction.
Qed.

Lemma To4_4 (b0 b1 b2 b3 : byte) : To4 [b0; b1; b2; b3] = Some [b0; b1; b2; b3].
Proof. reflexivity. Qed.

Lemma To4_IPv4 (b0 b1 b2 b3 : byte) : To4 (IPv4 b0 b1 b2 b3) = Some [b0; b1; b2; b3].
Proof.
  unfold To4, IPv4, v4InV6Prefix. cbn [app length Nat.eqb firstn skipn andb].
  rewrite bytes_eqb_refl. reflexivity.
Qed.

Lemma IsUnspecified_4 (b0 b1 b2 b3 : byte) :
  IsUnspecified [b0; b1; b2; b3] = bytes_eqb [b0; b1; b2; b3] [x00; x00; x00; x00].
Proof.
  unfold IsUnspecified, Equal, IPv4zero, IPv6unspecified, v4InV6Prefix.
  cbn [app length Nat.eqb firstn skipn andb repeat].
  rewrite bytes_eqb_refl. cbn [andb].
  rewrite (bytes_eqb_false (repeat x00 12)) by discriminate.
  cbn [andb]. apply orb_false_r.
Qed.

(** The IPv4 form of an address is unspecified exactly when the address
    is. *)
Lemma IsUnspecified_To4 (ip v4 : list byte) :
  To4 ip = Some v4 -> IsUnspecified v4 = IsUnspecified ip.
Proof.
  unfold To4. destruct (Nat.eqb_spec (length ip) 4) as [E4|N4].
  - intros [= <-]. reflexivity.
  - destruct (Nat.eqb_spec (length ip) 16) as [E16|_]; [|discriminate].
    destruct (bytes_eqb (firstn 12 ip) v4InV6Prefix) eqn:Ep; [|discriminate].
    intros [= <-]. apply bytes_eqb_true_iff in Ep.
    do 17 (destruct ip as [|? ip]; try discriminate E16).
    cbn [firstn] in Ep. unfold v4InV6Prefix in Ep.
    injection Ep as -> -> -> -> -> -> -> -> -> -> -> ->.
    cbn [skipn]. rewrite IsUnspecified_4.
    unfold IsUnspecified, Equal, IPv4zero, IPv6unspecified, v4InV6Prefix.
    cbn [app length Nat.eqb repeat].
    rewrite (bytes_eqb_false _ (repeat x00 16)) by (cbn; discriminate).
    cbn [repeat]. rewrite orb_false_r.
    apply Bool.eq_iff_eq_true. rewrite !bytes_eqb_true_iff.
    split; intros H; injection H as -> -> -> ->; reflexivity.
Qed.

Section Addresses.

(** Every IPv4 address other than [0.0.0.0] and those of [127.0.0.0/8]
    counts as usable, in its four-byte and in its sixteen-byte form; the
    IPv4 link-local addresses [169.254.0.0/16] are among them. The scan
    returns at such an address, whatever follows it. *)
Theorem ipv4_address_usable (b0 b1 b2 b3 : byte) (rest : list Addr) :
  bv b0 <> 127 -> [b0; b1; b2; b3] <> [x00; x00; x00; x00] ->
  scanAddrs (IPNet (Some [b0; b1; b2; b3]) :: rest) = true /\
  scanAddrs (IPNet (Some (IPv4 b0 b1 b2 b3)) :: rest) = true /\
  scanAddrs (IPAddr (Some [b0; b1; b2; b3]) :: rest) = true /\
  scanAddrs (IPAddr (Some (IPv4 b0 b1 b2 b3)) :: rest) = true.
Proof.
  intros Hlo Hz.
  assert (L4 : IsLoopback [b0; b1; b2; b3] = false).
  { unfold IsLoopback. rewrite To4_4. apply Z.eqb_neq. exact Hlo. }
  assert (L16 : IsLoopback (IPv4 b0 b1 b2 b3) = false).
  { unfold IsLoopback. rewrite To4_IPv4. apply Z.eqb_neq. exact Hlo. }
  assert (U : IsUnspecified [b0; b1; b2; b3] = false).
  { rewrite IsUnspecified_4. now apply bytes_eqb_false. }
  cbn [scanAddrs]. rewrite L4, L16, To4_4, To4_IPv4, U. cbn [negb]. auto.
Qed.

Lemma linkLocal6_skipped (ip : list byte) :
  linkLocal6 ip ->
  IsLoopback ip = false /\ To4 ip = None /\ IsLinkLocalUnicast ip = true.
Proof.
  intros (b1 & rest & -> & Hlen & Hbits).
  assert (T : To4 (xfe :: b1 :: rest) = None).
  { unfold To4. cbn [length]. rewrite Hlen. cbn [Nat.eqb firstn andb].
    rewrite bytes_eqb_false; [reflexivity|]. unfold v4InV6Prefix. discriminate. }
  split; [|split; [exact T|]].
  - unfold IsLoopback. rewrite T. unfold Equal. cbn [length]. rewrite Hlen.
    cbn [Nat.eqb]. apply bytes_eqb_false. cbn. discriminate.
  - unfold IsLinkLocalUnicast. rewrite T. cbn [length]. rewrite Hlen.
    cbn [Nat.eqb andb]. unfold at_byte. cbn [nth].
    change (Z.of_N (Byte.to_N xfe) =? 254) with true. cbn [andb].
    apply Z.eqb_eq. exact Hbits.
Qed.

(** An interface that holds only link-local IPv6 addresses, nil addresses
    and addresses of other types has no usable address. *)
Theorem link_local_only_not_usable (addrs : list Addr) :
  Forall unusable addrs -> scanAddrs addrs = false.
Proof.
  induction 1 as [|a addrs Ha _ IH]; [reflexivity|].
  cbn [scanAddrs].
  destruct a as [[ip|]|[ip|]|]; cbn [unusable] in Ha; try exact IH.
  all: destruct (linkLocal6_skipped ip Ha) as (H1 & H2 & H3).
  all: rewrite H1, H2, H3; exact IH.
Qed.

Lemma scanGlobal_eq (addrs : list Addr) : Windows.scanGlobal addrs = scanAddrs addrs.
Proof.
  induction addrs as [|a addrs IH]; [reflexivity|].
  cbn [Windows.scanGlobal scanAddrs].
  destruct (match a with IPNet ip => ip | IPAddr ip => ip | OtherAddr => None end)
    as [ip|]; [|exact IH].
  destruct (IsLoopback ip); cbn [orb]; [exact IH|].
  destruct (To4 ip) as [v4|] eqn:E4.
  - rewrite (IsUnspecified_To4 ip v4 E4).
    destruct (IsUnspecified ip); cbn [negb]; [exact IH|reflexivity].
  - destruct (IsUnspecified ip); destruct (IsLinkLocalUnicast ip); cbn [negb orb];
      rewrite ?IH; reflexivity.
Qed.

(** The address test of the Windows fallback, [ifHasGlobalUnicast], and the
    usable-address test [ifaceHasUsableAddr] decide alike: their loops
    agree on every list of addresses, and so do the functions on every
    interface that its name finds. *)
Theorem ifHasGlobalUnicast_is_usable :
  (forall addrs, Windows.scanGlobal addrs = scanAddrs addrs) /\
  (forall h name ifi,
     InterfaceByName h name = Some ifi ->
     Windows.ifHasGlobalUnicast ifi = ifaceHasUsableAddr h name).
Proof.
  split; [exact scanGlobal_eq|].
  intros h name ifi Hi. unfold Windows.ifHasGlobalUnicast, ifaceHasUsableAddr.
  rewrite Hi. destruct (Addrs ifi); [apply scanGlobal_eq|reflexivity].
Qed.

End Addresses.

(** The theorems at 169.254.7.9 and at an interface holding [fe80::1]. *)
Lemma ipv4_address_usable_example :
  scanAddrs (IPNet (Some [xa9; xfe; x07; x09]) :: []) = true /\
  scanAddrs (IPNet (Some (IPv4 xa9 xfe x07 x09)) :: []) = true /\
  scanAddrs (IPAddr (Some [xa9; xfe; x07; x09]) :: []) = true /\
  scanAddrs (IPAddr (Some (IPv4 xa9 xfe x07 x09)) :: []) = true.
Proof.
  apply (ipv4_address_usable xa9 xfe x07 x09 []).
  - vm_compute. discriminate.
  - discriminate.
Defined.

Lemma link_local_only_not_usable_example :
  scanAddrs [IPNet (Some ([xfe; x80] ++ repeat x00 13 ++ [x01])); OtherAddr; IPAddr None] = false.
Proof.
  apply (link_local_only_not_usable
           [IPNet (Some ([xfe; x80] ++ repeat x00 13 ++ [x01])); OtherAddr; IPAddr None]).
  constructor.
  - exists x80, (repeat x00 13 ++ [x01]). repeat split.
  - constructor; [exact I|]. constructor; [exact I|]. constructor.
Defined.

End EvaluatorMoreFacts.

(** * Facts on the DNS resolver checks *)

Module ResolverFacts.
Import Go Resolver.

Section WithLib.
Context {L : Lib}.

Lemma scanResolv_existsb (lines : list string) :
  scanResolv lines = existsb namesResolver lines.
Proof.
  induction lines as [|ln rest IH]; [reflexivity|].
  cbn [scanResolv existsb]. unfold namesResolver at 1.
  destruct (HasPrefix (strings_TrimSpace ln) "nameserver"); cbn [negb andb orb]; [|exact IH].
  destruct (Z.ltb_spec (len (strings_Fields (strings_TrimSpace ln))) 2).
  - destruct (Z.leb_spec 2 (len (strings_Fields (strings_TrimSpace ln)))); [lia|].
    cbn [orb]. exact IH.
  - destruct (Z.leb_spec 2 (len (strings_Fields (strings_TrimSpace ln)))); [|lia].
    destruct (net_ParseIP (at_ (strings_Fields (strings_TrimSpace ln)) 1)) as [addr|];
      [|exact IH].
    destruct (IsLoopback addr); cbn [negb orb]; [exact IH|reflexivity].
Qed.

Lemma linuxHasDNSResolver_spec (readFile : string -> option string) :
  linuxHasDNSResolver readFile = true <->
  exists path content ln,
    In path ["/run/systemd/resolve/resolv.conf"; "/etc/resolv.conf"]%string /\
    readFile path = Some content /\
    In ln (bufio_ScanLines content) /\
    namesResolver ln = true.
Proof.
  unfold linuxHasDNSResolver.
  generalize ["/run/systemd/resolve/resolv.conf"; "/etc/resolv.conf"]%string as paths.
  induction paths as [|p paths IH]; cbn [scanPaths].
  - split; [discriminate|]. intros (path & _ & _ & [] & _).
  - destruct (readFile p) as [content|] eqn:Ep.
    + rewrite scanResolv_existsb.
      destruct (existsb namesResolver (bufio_ScanLines content)) eqn:Ex.
      * split; [intros _|reflexivity].
        apply existsb_exists in Ex. destruct Ex as (ln & Hin & Hn).
        exists p, content, ln. repeat split; auto. now left.
      * rewrite IH. split.
        -- intros (path & c & ln & Hp & Hr & Hin & Hn).
           exists path, c, ln. repeat split; auto. now right.
        -- intros (path & c & ln & [<-|Hp] & Hr & Hin & Hn).
           ++ rewrite Ep in Hr. injection Hr as <-.
              assert (existsb namesResolver (bufio_ScanLines content) = true)
                by (apply existsb_exists; eauto).
              congruence.
           ++ exists path, c, ln. auto.
    + rewrite IH. split.
      * intros (path & c & ln & Hp & Hr & Hin & Hn).
        exists path, c, ln. repeat split; auto. now right.
      * intros (path & c & ln & [<-|Hp] & Hr & Hin & Hn).
        -- rewrite Ep in Hr. discriminate Hr.
        -- exists path, c, ln. auto.
Qed.

(** The Linux [hasDNSResolver] answers true exactly when one of
    [/run/systemd/resolve/resolv.conf] and [/etc/resolv.conf] can be read
    and holds a line that, trimmed, starts with [nameserver], has a second
    field, and whose second field parses as an IP address that is not a
    loopback address. A file that cannot be read, or that names only
    loopback or unparsable servers, is passed over for the other. *)
Theorem linuxHasDNSResolver_iff (readFile : string -> option string) :
  linuxHasDNSResolver readFile = true <->
  exists path content ln,
    In path ["/run/systemd/resolve/resolv.conf"; "/etc/resolv.conf"]%string /\
    readFile path = Some content /\
    In ln (bufio_ScanLines content) /\
    namesResolver ln = true.
Proof. exact (linuxHasDNSResolver_spec readFile). Qed.

(** The Linux rule is the stricter one: where the library parses no
    address out of the empty string, lines in which the Linux loop finds a
    resolver are lines in which the FreeBSD and macOS loop finds one. *)
Theorem linux_resolver_accepted_by_bsd (lines : list string) :
  net_ParseIP ""%string = None ->
  scanResolv lines = true -> scanResolvBSD lines = true.
Proof.
  intros Hempty. induction lines as [|ln rest IH]; cbn [scanResolv scanResolvBSD];
    [discriminate|].
  destruct (HasPrefix (strings_TrimSpace ln) "nameserver"); cbn [negb]; [|exact IH].
  destruct (Z.ltb_spec (len (strings_Fields (strings_TrimSpace ln))) 2).
  - destruct (Z.leb_spec 2 (len (strings_Fields (strings_TrimSpace ln)))); [lia|].
    cbn [andb]. exact IH.
  - destruct (Z.leb_spec 2 (len (strings_Fields (strings_TrimSpace ln)))); [|lia].
    cbn [andb].
    destruct (String.eqb_spec (at_ (strings_Fields (strings_TrimSpace ln)) 1) "") as [E|E];
      cbn [negb]; [|reflexivity].
    rewrite E, Hempty. exact IH.
Qed.

(** [Evaluate] on Linux, with the resolver check computed from the files:
    when it answers online, a default route was found, the cause is
    ["default via <ifname>"] with a nil error, and one of the two
    [resolv.conf] files holds a line naming a resolver that is not a
    loopback address. *)
Theorem Evaluate_online (readFile : string -> option string)
    (ifaces : list Evaluator.Interface) :
  fst (fst (Evaluate readFile ifaces)) = true ->
  (exists ifname gw,
     Evaluator.linuxDefaultRoute (linuxHost readFile ifaces) = (true, ifname, gw, None) /\
     Evaluate readFile ifaces = (true, ("default via " ++ ifname)%string, None)) /\
  (exists path content ln,
     In path ["/run/systemd/resolve/resolv.conf"; "/etc/resolv.conf"]%string /\
     readFile path = Some content /\
     In ln (bufio_ScanLines content) /\
     namesResolver ln = true).
Proof.
  unfold Evaluate. intros H.
  apply (proj1 (EvaluatorMoreFacts.recomputeOnline_layers (linuxHost readFile ifaces))) in H.
  destruct H as (ifname & gw & Hr & _ & _ & _ & _ & Hdns & Heq).
  split; [eauto|].
  apply linuxHasDNSResolver_spec. exact Hdns.
Qed.

End WithLib.

(** The first scenario of the design with its [/etc/resolv.conf]. *)
Lemma Evaluate_online_scenario1 :
  (exists ifname gw,
     @Evaluator.linuxDefaultRoute Ref.lib (@linuxHost Ref.lib scenario1_files [Hosts.eth0]) =
       (true, ifname, gw, None) /\
     @Evaluate Ref.lib scenario1_files [Hosts.eth0] =
       (true, ("default via " ++ ifname)%string, None)) /\
  (exists path content ln,
     In path ["/run/systemd/resolve/resolv.conf"; "/etc/resolv.conf"]%string /\
     scenario1_files path = Some content /\
     In ln (@bufio_ScanLines Ref.lib content) /\
     @namesResolver Ref.lib ln = true).
Proof.
  apply (@Evaluate_online Ref.lib scenario1_files [Hosts.eth0]).
  vm_compute. reflexivity.
Defined.

Lemma Evaluate_scenario1 :
  @Evaluate Ref.lib scenario1_files [Hosts.eth0] =
  (true, "default via eth0"%string, None).
Proof. vm_compute. reflexivity. Qed.

(** The theorem at a [resolv.conf] naming 10.1.1.1; and the stub resolver
    127.0.0.53, which only the FreeBSD and macOS loop takes for one. *)
Lemma linux_resolver_accepted_by_bsd_example :
  @scanResolvBSD Ref.lib ["# resolv.conf"; "nameserver 10.1.1.1"]%string = true.
Proof.
  apply (@linux_resolver_accepted_by_bsd Ref.lib ["# resolv.conf"; "nameserver 10.1.1.1"]%string).
  - reflexivity.
  - vm_compute. reflexivity.
Defined.

Lemma stub_resolver_differs :
  @scanResolv Ref.lib ["nameserver 127.0.0.53"%string] = false /\
  @scanResolvBSD Ref.lib ["nameserver 127.0.0.53"%string] = true.
Proof. split; vm_compute; reflexivity. Qed.

End ResolverFacts.

(** * Facts on the FreeBSD and macOS evaluator *)

Module BsdFacts.
Import Go Bsd.

Lemma bv_range (b : byte) : 0 <= bv b < 256.
Proof. destruct b; vm_compute; split; congruence. Qed.

Lemma bv_zero (b : byte) : bv b = 0 <-> b = x00.
Proof.
  split; [|intros ->; reflexivity].
  destruct b; vm_compute; intros H; try discriminate H; reflexivity.
Qed.

Lemma fold_lor_zero (ip : list byte) :
  forall acc, 0 <= acc ->
    (fold_left (fun s b => Z.lor s (bv b)) ip acc = 0 <-> acc = 0 /\ Forall (fun b => b = x00) ip).
Proof.
  induction ip as [|b ip IH]; intros acc Hacc; cbn [fold_left].
  - split; [intros ->; auto|intros [-> _]; reflexivity].
  - pose proof (bv_range b) as Hb.
    rewrite IH by (apply Z.lor_nonneg; lia).
    rewrite Z.lor_eq_0_iff, bv_zero. split.
    + intros [[-> ->] H]. auto.
    + intros [-> H]. inversion H; subst. auto.
Qed.

(** [isZeroAddr] is true exactly for the IPv4 address [0.0.0.0] and for an
    IPv6 address all of whose bytes are zero; it is false for nil and for
    an address of any other type. *)
Theorem isZeroAddr_iff (a : RouteAddr) :
  isZeroAddr a = true <->
  a = Inet4Addr x00 x00 x00 x00 \/
  exists ip, a = Inet6Addr ip /\ Forall (fun b => b = x00) ip.
Proof.
  destruct a as [b0 b1 b2 b3|ip| |]; cbn [isZeroAddr].
  - rewrite Z.eqb_eq, !Z.lor_eq_0_iff, !bv_zero. split.
    + intros [[[-> ->] ->] ->]. now left.
    + intros [[= -> -> -> ->]|(ip & H & _)]; [auto|discriminate H].
  - rewrite Z.eqb_eq, fold_lor_zero by lia. split.
    + intros [_ H]. right. eauto.
    + intros [H|(ip' & [= <-] & H)]; [discriminate H|auto].
  - split; [discriminate|]. intros [H|(ip & H & _)]; discriminate H.
  - split; [discriminate|]. intros [H|(ip & H & _)]; discriminate H.
Qed.

Section WithLib.
Context {L : Lib}.
Variable RTAB_DST : nat.

Lemma bsdDefaultRoute_no_error (h : Host) : snd (bsdDefaultRoute RTAB_DST h) = None.
Proof.
  unfold bsdDefaultRoute.
  repeat match goal with |- context [if ?c then _ else _] => destruct c end; reflexivity.
Qed.


Lemma bsd_online_layers (h : Host) :
  (fst (fst (recomputeOnline RTAB_DST h)) = true <->
   exists ifname ifi,
     bsdDefaultRoute RTAB_DST h = (true, ifname, None) /\
     ifname <> ""%string /\
     Evaluator.InterfaceByName (asEvaluatorHost h) ifname = Some ifi /\
     Z.land (Evaluator.Flags ifi) Evaluator.FlagUp <> 0 /\
     Z.land (Evaluator.Flags ifi) Evaluator.FlagLoopback = 0 /\
     Evaluator.ifaceHasUsableAddr (asEvaluatorHost h) ifname = true /\
     Resolver.bsdHasDNSResolver (ReadFile h) = true /\
     recomputeOnline RTAB_DST h = (true, ("default via " ++ ifname)%string, None)) /\
  snd (recomputeOnline RTAB_DST h) = None.
Proof.
  unfold recomputeOnline.
  pose proof (bsdDefaultRoute_no_error h) as E1.
  destruct (bsdDefaultRoute RTAB_DST h) as [[hasDef ifname] err]. cbn [snd] in E1. subst err.
  destruct hasDef; cbn [negb].
  2:{ split; [|reflexivity]. split; [discriminate|].
      intros (i & f & H & _). discriminate H. }
  destruct (String.eqb_spec ifname "") as [->|Hne].
  { split; [|reflexivity]. split; [discriminate|].
    intros (i & f & H & Hi & _). injection H as <-. contradiction. }
  destruct (Evaluator.InterfaceByName (asEvaluatorHost h) ifname) as [ifi|] eqn:Eif.
  2:{ split; [|reflexivity]. split; [discriminate|].
      intros (i & f & H & _ & Hf & _). injection H as <-. rewrite Eif in Hf. discriminate Hf. }
  destruct (Z.eqb_spec (Z.land (Evaluator.Flags ifi) Evaluator.FlagUp) 0) as [Hu|Hu];
    cbn [orb].
  { split; [|reflexivity]. split; [discriminate|].
    intros (i & f & H & _ & Hf & Hup & _). injection H as <-.
    rewrite Eif in Hf. injection Hf as <-. contradiction. }
  destruct (Z.eqb_spec (Z.land (Evaluator.Flags ifi) Evaluator.FlagLoopback) 0) as [Hl|Hl];
    cbn [negb].
  2:{ split; [|reflexivity]. split; [discriminate|].
      intros (i & f & H & _ & Hf & _ & Hlo & _). injection H as <-.
      rewrite Eif in Hf. injection Hf as <-. contradiction. }
  destruct (Evaluator.ifaceHasUsableAddr (asEvaluatorHost h) ifname) eqn:Ea; cbn [negb].
  2:{ split; [|reflexivity]. split; [discriminate|].
      intros (i & f & H & _ & _ & _ & _ & Hua & _). injection H as <-.
      rewrite Ea in Hua. discriminate Hua. }
  destruct (Resolver.bsdHasDNSResolver (ReadFile h)) eqn:Ed; cbn [negb].
  - split; [|reflexivity]. split; [|reflexivity].
    intros _. exists ifname, ifi. repeat split; auto.
  - split; [|reflexivity]. split; [discriminate|].
    intros (i & f & _ & _ & _ & _ & _ & _ & Hd & _). discriminate Hd.
Qed.

(** When every layer passes, the FreeBSD and macOS [recomputeOnline]
    answers online through the interface of the default route. *)
Lemma bsd_all_layers (h : Host) (ifname : string) (ifi : Evaluator.Interface) :
  bsdDefaultRoute RTAB_DST h = (true, ifname, None) ->
  ifname <> ""%string ->
  Evaluator.InterfaceByName (asEvaluatorHost h) ifname = Some ifi ->
  Z.land (Evaluator.Flags ifi) Evaluator.FlagUp <> 0 ->
  Z.land (Evaluator.Flags ifi) Evaluator.FlagLoopback = 0 ->
  Evaluator.ifaceHasUsableAddr (asEvaluatorHost h) ifname = true ->
  Resolver.bsdHasDNSResolver (ReadFile h) = true ->
  recomputeOnline RTAB_DST h = (true, ("default via " ++ ifname)%string, None).
Proof.
  intros H1 H2 H3 H4 H5 H6 H7. unfold recomputeOnline. rewrite H1. cbn [negb].
  destruct (String.eqb_spec ifname ""); [contradiction|].
  rewrite H3.
  destruct (Z.eqb_spec (Z.land (Evaluator.Flags ifi) Evaluator.FlagUp) 0); [contradiction|].
  destruct (Z.eqb_spec (Z.land (Evaluator.Flags ifi) Evaluator.FlagLoopback) 0);
    [|contradiction].
  cbn [orb negb]. rewrite H6, H7. reflexivity.
Qed.

(** On FreeBSD and macOS [recomputeOnline] answers online exactly when a
    default route names an interface, the interface is known, up and not a
    loopback, it holds a usable address, and [/etc/resolv.conf] names a
    resolver; the cause is then ["default via <ifname>"]. It never returns
    an error. *)
Theorem bsd_online_iff (h : Host) :
  (fst (fst (recomputeOnline RTAB_DST h)) = true <->
   exists ifname ifi,
     bsdDefaultRoute RTAB_DST h = (true, ifname, None) /\
     ifname <> ""%string /\
     Evaluator.InterfaceByName (asEvaluatorHost h) ifname = Some ifi /\
     Z.land (Evaluator.Flags ifi) Evaluator.FlagUp <> 0 /\
     Z.land (Evaluator.Flags ifi) Evaluator.FlagLoopback = 0 /\
     Evaluator.ifaceHasUsableAddr (asEvaluatorHost h) ifname = true /\
     Resolver.bsdHasDNSResolver (ReadFile h) = true) /\
  (forall ifname,
     bsdDefaultRoute RTAB_DST h = (true, ifname, None) ->
     fst (fst (recomputeOnline RTAB_DST h)) = true ->
     recomputeOnline RTAB_DST h = (true, ("default via " ++ ifname)%string, None)) /\
  snd (recomputeOnline RTAB_DST h) = None.
Proof.
  destruct (bsd_online_layers h) as [Hiff Herr].
  split; [|split; [|exact Herr]].
  - split.
    + intros H. apply Hiff in H.
      destruct H as (ifname & ifi & H1 & H2 & H3 & H4 & H5 & H6 & H7 & _).
      exists ifname, ifi. auto 10.
    + intros (ifname & ifi & H1 & H2 & H3 & H4 & H5 & H6 & H7).
      rewrite (bsd_all_layers h ifname ifi H1 H2 H3 H4 H5 H6 H7). reflexivity.
  - intros ifname H1 H. apply Hiff in H.
    destruct H as (i & f & H1' & _ & _ & _ & _ & _ & _ & E).
    rewrite H1 in H1'. injection H1' as <-. exact E.
Qed.

End WithLib.


End BsdFacts.

(** * More facts on the edge detector *)

Module WatchMoreFacts.
Import Watch Runs WatchFacts.

Section WithEvaluator.
Variable recomputeOnline : Z -> bool * string * option error.

Lemma trigger_steady (t : Z) (s : State) :
  fst (fst (recomputeOnline t)) = last s ->
  events (snd (trigger recomputeOnline t s)) = [] /\
  fst (trigger recomputeOnline t s) = s.
Proof.
  intros H. unfold trigger.
  destruct (recomputeOnline t) as [[online why] [e|]]; cbn [fst] in H; [cbn; auto|].
  subst online. rewrite Bool.eqb_reflx. cbn. auto.
Qed.

Lemma run_steady (inputs : list Input) :
  forall s,
    (forall t, fst (fst (recomputeOnline t)) = last s) ->
    events (snd (run recomputeOnline s inputs)) = [].
Proof.
  induction inputs as [|i rest IH]; intros s Hs; [reflexivity|].
  cbn [run]. unfold step.
  destruct (running s).
  - unfold fireDue.
    assert (F : exists s1 a1,
      (match debounceTimer s with
       | Some d =>
           if d <=? time_of i
           then let '(s', acts) := trigger recomputeOnline d s in
                ({| last := last s'; lastReason := lastReason s';
                    debounceTimer := None; running := running s' |}, acts)
           else (s, [])
       | None => (s, [])
       end) = (s1, a1) /\ events a1 = [] /\ last s1 = last s).
    { destruct (debounceTimer s) as [d|]; [|eexists _, _; eauto].
      destruct (d <=? time_of i); [|eexists _, _; eauto].
      destruct (trigger_steady d s (Hs d)) as [He Hf].
      destruct (trigger recomputeOnline d s) as [s' acts]. cbn [fst snd] in He, Hf. subst s'.
      eexists _, _. eauto. }
    destruct F as (s1 & a1 & -> & He1 & Hl1).
    assert (G : exists s2 a2, selectCase i s1 = (s2, a2) /\ events a2 = [] /\ last s2 = last s1).
    { destruct i as [t e|t [err|]|t|t]; cbn [selectCase]; eexists _, _; eauto. }
    destruct G as (s2 & a2 & -> & He2 & Hl2).
    specialize (IH s2 ltac:(intros t; rewrite Hl2, Hl1; apply Hs)).
    destruct (run recomputeOnline s2 rest) as [s3 a3]. cbn [snd] in IH |- *.
    rewrite !events_app, He1, He2, IH. reflexivity.
  - specialize (IH s Hs). destruct (run recomputeOnline s rest) as [s3 a3].
    cbn [snd app] in IH |- *. exact IH.
Qed.

(** When every evaluation returns the online value of the first, with or
    without an error, [Watch] sends exactly one event, the initial one,
    whatever arrives. *)
Theorem steady_state_one_event (t0 : Z) (inputs : list Input) :
  (forall t, fst (fst (recomputeOnline t)) = fst (fst (recomputeOnline t0))) ->
  events (snd (Watch recomputeOnline t0 inputs)) =
  [{| Online := fst (fst (recomputeOnline t0)); ChangedAt := t0;
      Cause := "initial: " ++ snd (fst (recomputeOnline t0)) |}].
Proof.
  intros H. rewrite Watch_events. f_equal.
  apply run_steady. intros t. rewrite H. unfold start.
  destruct (recomputeOnline t0) as [[online why] err]. reflexivity.
Qed.

Lemma run_stopped (inputs : list Input) (s : State) :
  running s = false -> run recomputeOnline s inputs = (s, []).
Proof.
  intros H. induction inputs as [|i rest IH]; [reflexivity|].
  cbn [run]. unfold step. rewrite H, IH. reflexivity.
Qed.

(** Cancellation with a debounce pending. When the context ends while no
    timer is due (none is armed, or one is armed for a later instant), the
    loop stops the timer and returns: the two channels are closed, the
    error channel first, and that is all the detector does from then on.
    Whatever arrives later, [recomputeOnline] is not called again, so the
    edge the pending burst announced is never evaluated nor reported. *)
Theorem cancellation_is_final (s : State) (t : Z) (post : list Input) :
  running s = true ->
  match debounceTimer s with Some d => t < d | None => True end ->
  snd (run recomputeOnline s (Done t :: post)) = [CloseErr; CloseOut] /\
  evaluations (snd (run recomputeOnline s (Done t :: post))) = [] /\
  running (fst (run recomputeOnline s (Done t :: post))) = false /\
  debounceTimer (fst (run recomputeOnline s (Done t :: post))) = None /\
  last (fst (run recomputeOnline s (Done t :: post))) = last s.
Proof.
  intros Hrun Hdue.
  assert (F : fireDue recomputeOnline t s = (s, [])).
  { unfold fireDue. destruct (debounceTimer s) as [d|]; [|reflexivity].
    destruct (Z.leb_spec d t); [lia|reflexivity]. }
  cbn [run]. unfold step. rewrite Hrun. cbn [time_of]. rewrite F.
  cbn [selectCase]. rewrite run_stopped by reflexivity.
  cbn. auto.
Qed.

(** A debounced edge. OS events less than 750 ms apart, then quiet; the
    evaluation made 750 ms after the last of them returns, without error,
    an online value other than the initial one. [Watch] then sends exactly
    two events: the initial one, and the edge, stamped with the time of
    that evaluation and with the cause [<reason>; <cause>], where the
    reason is that of the last OS event (the cause alone when that reason
    is empty). *)
Theorem edge_after_burst (t0 t : Z) (why : string) (evs : list (Z * string)) (T : Z)
    (online' : bool) (why' : string) :
  spaced (t :: map fst evs) ->
  fst (List.last evs (t, why)) + debounce <= T ->
  recomputeOnline (fst (List.last evs (t, why)) + debounce) = (online', why', None) ->
  online' <> fst (fst (recomputeOnline t0)) ->
  let tn := fst (List.last evs (t, why)) in
  let rn := snd (List.last evs (t, why)) in
  events (snd (Watch recomputeOnline t0 (map arrival ((t, why) :: evs) ++ [Idle T]))) =
  [{| Online := fst (fst (recomputeOnline t0)); ChangedAt := t0;
      Cause := "initial: " ++ snd (fst (recomputeOnline t0)) |};
   {| Online := online'; ChangedAt := tn + debounce;
      Cause := if String.eqb rn "" then why' else (rn ++ "; " ++ why')%string |}].
Proof.
  intros Hsp HT Hev Hne. cbv zeta. rewrite Watch_events. f_equal.
  rewrite run_app.
  assert (Hs0 : running (fst (start recomputeOnline t0)) = true /\
                debounceTimer (fst (start recomputeOnline t0)) = None /\
                last (fst (start recomputeOnline t0)) = fst (fst (recomputeOnline t0))).
  { unfold start. destruct (recomputeOnline t0) as [[o w] e]. cbn. auto. }
  destruct Hs0 as (Hr0 & Hd0 & Hl0).
  set (s0 := fst (start recomputeOnline t0)) in *.
  assert (Ht : match debounceTimer s0 with Some d => t < d | None => True end)
    by (rewrite Hd0; exact I).
  pose proof (arrivals_rearm recomputeOnline evs s0 t why Hr0 Ht Hsp) as H. cbv zeta in H.
  destruct (run recomputeOnline s0 (map arrival ((t, why) :: evs))) as [s1 a1].
  cbn [fst snd] in H |- *. destruct H as (Ha & Hr & Hl & Hlr & Hd). subst a1.
  cbn [app run]. unfold step. rewrite Hr. cbn [time_of]. unfold fireDue. rewrite Hd.
  destruct (Z.leb_spec (fst (List.last evs (t, why)) + debounce) T); [|lia].
  unfold trigger. rewrite Hev.
  assert (Hb : Bool.eqb online' (last s1) = false).
  { apply Bool.eqb_false_iff. rewrite Hl, Hl0. exact Hne. }
  rewrite Hb. cbn [negb selectCase snd app events]. rewrite Hlr.
  destruct (String.eqb (snd (List.last evs (t, why))) ""); reflexivity.
Qed.

(** The detector evaluates only when a debounce period has run out: every
    call of [recomputeOnline] is the initial one or is made 750 ms after
    an OS event that arrived, and there is at most one such call per OS
    event. *)
Theorem evaluations_follow_events (t0 : Z) (inputs : list Input) :
  (forall t, In t (evaluations (snd (Watch recomputeOnline t0 inputs))) ->
     t = t0 \/ exists t' e, In (OSEvent t' e) inputs /\ t = t' + debounce) /\
  (length (evaluations (snd (Watch recomputeOnline t0 inputs))) <=
   1 + length (filter isOSEvent inputs))%nat.
Proof.
  assert (R : forall inputs s,
    (forall t, In t (evaluations (snd (run recomputeOnline s inputs))) ->
       debounceTimer s = Some t \/
       exists t' e, In (OSEvent t' e) inputs /\ t = t' + debounce) /\
    (length (evaluations (snd (run recomputeOnline s inputs))) <=
     match debounceTimer s with Some _ => 1 | None => 0 end +
     length (filter isOSEvent inputs))%nat).
  { clear inputs. induction inputs as [|i rest IH]; intros s.
    { cbn. split; [intros t []|lia]. }
    cbn [run]. unfold step.
    destruct (running s) eqn:Erun.
    2:{ cbv beta iota. rewrite (run_stopped rest s Erun).
        cbn. split; [intros t []|lia]. }
    assert (F : exists s1 a1,
      fireDue recomputeOnline (time_of i) s = (s1, a1) /\
      ((a1 = [] /\ debounceTimer s1 = debounceTimer s) \/
       (exists d, debounceTimer s = Some d /\ evaluations a1 = [d] /\
                  debounceTimer s1 = None))).
    { unfold fireDue. destruct (debounceTimer s) as [d|] eqn:Ed;
        [|eexists _, _; split; [reflexivity|left; auto]].
      destruct (d <=? time_of i); [|eexists _, _; split; [reflexivity|left; auto]].
      unfold trigger.
      destruct (recomputeOnline d) as [[online why] [e|]].
      - eexists _, _. split; [reflexivity|]. right. exists d. cbn. auto.
      - destruct (negb (Bool.eqb online (last s)));
          eexists _, _; (split; [reflexivity|]); right; exists d; cbn; auto. }
    destruct F as (s1 & a1 & -> & HF).
    assert (G : exists s2 a2,
      selectCase i s1 = (s2, a2) /\ evaluations a2 = [] /\
      ((isOSEvent i = false /\
        (debounceTimer s2 = debounceTimer s1 \/ debounceTimer s2 = None)) \/
       (exists t' e, i = OSEvent t' e /\ debounceTimer s2 = Some (t' + debounce)))).
    { destruct i as [t e|t [err|]|t|t]; cbn [selectCase]; eexists _, _;
        (split; [reflexivity|]); (split; [reflexivity|]).
      - right. eauto.
      - left. auto.
      - left. auto.
      - left. auto.
      - left. auto. }
    destruct G as (s2 & a2 & -> & He2 & HG).
    destruct (IH s2) as [IH1 IH2].
    destruct (run recomputeOnline s2 rest) as [s3 a3]. cbn [snd] in *.
    rewrite !evaluations_app, He2. cbn [app].
    split.
    - intros t Hin. apply in_app_or in Hin. destruct Hin as [Hin|Hin].
      + destruct HF as [[-> _]|(d & Hd & Hev & _)]; [destruct Hin|].
        rewrite Hev in Hin. destruct Hin as [<-|[]]. now left.
      + destruct (IH1 t Hin) as [Ht|(t' & e & Hi & ->)].
        * destruct HG as [[_ [Hsame|Hnone]]|(t' & e & -> & Hs2)].
          -- rewrite Hsame in Ht.
             destruct HF as [[_ Hs1]|(d & _ & _ & Hs1)]; [|congruence].
             left. congruence.
          -- congruence.
          -- right. exists t', e. split; [now left|]. congruence.
        * right. exists t', e. split; [now right|reflexivity].
    - rewrite length_app. cbn [filter].
      destruct HG as [[Hno Htim]|(t' & e & -> & Hs2)].
      + rewrite Hno.
        destruct HF as [[-> Hs1]|(d & Hd & Hev & Hs1)].
        * cbn [evaluations length app]. destruct Htim as [E|E]; rewrite E in IH2.
          -- rewrite Hs1 in IH2. lia.
          -- destruct (debounceTimer s); lia.
        * rewrite Hev, Hd. cbn [length app].
          assert (E : debounceTimer s2 = None) by (destruct Htim; congruence).
          rewrite E in IH2. lia.
      + cbn [isOSEvent length]. rewrite Hs2 in IH2.
        destruct HF as [[-> Hs1]|(d & Hd & Hev & Hs1)].
        * cbn [evaluations length app]. destruct (debounceTimer s); lia.
        * rewrite Hev, Hd. cbn [length app]. lia. }
  unfold Watch, start.
  destruct (recomputeOnline t0) as [[online why] err].
  set (s0 := {| last := online; lastReason := ""; debounceTimer := None; running := true |}).
  destruct (R inputs s0) as [R1 R2].
  destruct (run recomputeOnline s0 inputs) as [s a]. cbn [snd] in *.
  assert (E : evaluations ([Evaluate t0] ++
                match err with Some e => [SendErr e] | None => [] end ++
                [SendEvent {| Online := online; ChangedAt := t0;
                              Cause := "initial: " ++ why |}] ++ a) =
              t0 :: evaluations a).
  { destruct err; reflexivity. }
  rewrite <- !app_assoc, E. split.
  - intros t [<-|Hin]; [now left|].
    destruct (R1 t Hin) as [Ht|H]; [discriminate Ht|now right].
  - cbn [length]. cbn [debounceTimer s0] in R2. lia.
Qed.

End WithEvaluator.

(** The theorems at concrete runs. *)
Lemma steady_state_one_event_example :
  events (snd (Watch alwaysOnline 0
                 [OSEvent 1000000000 {| reason := "addr change" |}; Idle 3000000000])) =
  [{| Online := fst (fst (alwaysOnline 0)); ChangedAt := 0;
      Cause := "initial: " ++ snd (fst (alwaysOnline 0)) |}].
Proof.
  apply (steady_state_one_event alwaysOnline 0). intros t. reflexivity.
Defined.

Lemma cancellation_is_final_example :
  snd (run onlineFrom5s
         {| last := false; lastReason := "link change";
            debounceTimer := Some 5750000000; running := true |}
         (Done 5100000000 ::
          [OSEvent 5200000000 {| reason := "route change" |}; Idle 9000000000])) =
    [CloseErr; CloseOut] /\
  evaluations (snd (run onlineFrom5s
         {| last := false; lastReason := "link change";
            debounceTimer := Some 5750000000; running := true |}
         (Done 5100000000 ::
          [OSEvent 5200000000 {| reason := "route change" |}; Idle 9000000000]))) = [] /\
  running (fst (run onlineFrom5s
         {| last := false; lastReason := "link change";
            debounceTimer := Some 5750000000; running := true |}
         (Done 5100000000 ::
          [OSEvent 5200000000 {| reason := "route change" |}; Idle 9000000000]))) = false /\
  debounceTimer (fst (run onlineFrom5s
         {| last := false; lastReason := "link change";
            debounceTimer := Some 5750000000; running := true |}
         (Done 5100000000 ::
          [OSEvent 5200000000 {| reason := "route change" |}; Idle 9000000000]))) = None /\
  last (fst (run onlineFrom5s
         {| last := false; lastReason := "link change";
            debounceTimer := Some 5750000000; running := true |}
         (Done 5100000000 ::
          [OSEvent 5200000000 {| reason := "route change" |}; Idle 9000000000]))) = false.
Proof.
  apply (cancellation_is_final onlineFrom5s
           {| last := false; lastReason := "link change";
              debounceTimer := Some 5750000000; running := true |}
           5100000000
           [OSEvent 5200000000 {| reason := "route change" |}; Idle 9000000000]).
  - reflexivity.
  - cbn. lia.
Defined.

Lemma edge_after_burst_example :
  events (snd (Watch onlineFrom5s 0
                 (map arrival ((4400000000, "link change"%string) :: []) ++
                  [Idle 6000000000]))) =
  [{| Online := fst (fst (onlineFrom5s 0)); ChangedAt := 0;
      Cause := "initial: " ++ snd (fst (onlineFrom5s 0)) |};
   {| Online := true; ChangedAt := 4400000000 + debounce;
      Cause := if String.eqb "link change" "" then "default via eth0"%string
               else ("link change" ++ "; " ++ "default via eth0")%string |}].
Proof.
  apply (edge_after_burst onlineFrom5s 0 4400000000 "link change" [] 6000000000
           true "default via eth0").
  - cbn. exact I.
  - cbn. unfold debounce. lia.
  - reflexivity.
  - discriminate.
Defined.

End WatchMoreFacts.

(** * More facts on the wake-gap watcher *)

Module WakeGapMoreFacts.
Import Chan WakeGap Runs WakeGapFacts.

(** When the sum of the sample period and the gap threshold fits an
    [int64], ticks that keep coming less than [sample + gapThreshold]
    after the one before never signal: the channel stays empty, whatever
    the consumer does. *)
Theorem regular_ticks_never_signal (sample0 gapThreshold0 now0 : Z) (inputs : list Input) :
  is_int64 now0 ->
  let w := StartWakeGapWatcher sample0 gapThreshold0 now0 in
  is_int64 (sample w + gapThreshold w) ->
  regular (sample w + gapThreshold w) now0 inputs ->
  buf (out (run w inputs)) = [].
Proof.
  intros Hnow0. cbv zeta. intros Hfit.
  set (w0 := StartWakeGapWatcher sample0 gapThreshold0 now0) in *.
  assert (Hpos : 0 < sample w0 + gapThreshold w0).
  { subst w0. unfold StartWakeGapWatcher, Second, Millisecond. cbn [sample gapThreshold].
    destruct (Z.leb_spec sample0 0); destruct (Z.leb_spec gapThreshold0 0); lia. }
  assert (G : forall inputs w,
    sample w = sample w0 -> gapThreshold w = gapThreshold w0 ->
    is_int64 (last w) -> buf (out w) = [] ->
    regular (sample w0 + gapThreshold w0) (last w) inputs ->
    buf (out (run w inputs)) = []).
  { clear inputs. unfold run. induction inputs as [|i rest IH]; intros w Hs Hg Hl Hb Hreg.
    - exact Hb.
    - cbn [fold_left]. destruct i as [now|]; cbn [regular] in Hreg.
      + destruct Hreg as (Hnow & Hlt & Hreg).
        apply IH; cbn [step tick fst sample gapThreshold last out]; auto.
        rewrite Hs, Hg, (add64_exact _ _ Hfit), (Sub_saturates _ _ Hnow Hl).
        unfold is_int64, min_int64, max_int64 in *.
        change (2 ^ 63) with 9223372036854775808 in *.
        match goal with
        | |- context [?a >=? ?b] => destruct (Z.geb_spec a b); [lia|exact Hb]
        end.
      + apply IH; cbn [step sample gapThreshold last out receive buf]; auto.
        rewrite Hb. reflexivity. }
  intros Hreg. apply G; auto.
Qed.

Lemma regular_ticks_never_signal_example :
  buf (out (run (StartWakeGapWatcher 0 0 0)
                [Tick 1000000000; Tick 2100000000; Receive; Tick 4500000000])) = [].
Proof.
  apply (regular_ticks_never_signal 0 0 0
           [Tick 1000000000; Tick 2100000000; Receive; Tick 4500000000]).
  - unfold is_int64, min_int64, max_int64. lia.
  - split; vm_compute; discriminate.
  - cbn [regular]. unfold is_int64.
    repeat split; vm_compute; first [reflexivity | discriminate].
Defined.

(** When the sum of the sample period and the gap threshold does not fit an
    [int64], the sum the code compares with is negative, and every tick
    that does not come before the previous one signals: a gap threshold
    near the largest duration does not switch the watcher off. *)
Theorem overflowing_threshold_always_signals (sample0 gapThreshold0 now0 now : Z) :
  0 < sample0 <= max_int64 -> 0 < gapThreshold0 <= max_int64 ->
  max_int64 < sample0 + gapThreshold0 ->
  is_int64 now0 -> is_int64 now -> now0 <= now ->
  snd (tick (StartWakeGapWatcher sample0 gapThreshold0 now0) now) = true.
Proof.
  intros Hs Hg Hsum Hnow0 Hnow Hle.
  cbn [tick snd StartWakeGapWatcher sample gapThreshold last].
  destruct (Z.leb_spec sample0 0); [lia|].
  destruct (Z.leb_spec gapThreshold0 0); [lia|].
  rewrite (Sub_saturates _ _ Hnow Hnow0).
  unfold add64, wrap_signed, is_int64, min_int64, max_int64 in *.
  change (2 ^ (64 - 1)) with 9223372036854775808.
  change (2 ^ 63) with 9223372036854775808 in *.
  change (2 ^ 64) with 18446744073709551616.
  pose proof (Z.div_mod (sample0 + gapThreshold0 + 9223372036854775808)
                18446744073709551616 ltac:(lia)) as E.
  pose proof (Z.mod_pos_bound (sample0 + gapThreshold0 + 9223372036854775808)
                18446744073709551616 ltac:(lia)) as B.
  apply Z.geb_le. lia.
Qed.

Lemma overflowing_threshold_always_signals_example :
  snd (tick (StartWakeGapWatcher 1000000000 9223372036854775807 0) 1000000000) = true.
Proof.
  apply (overflowing_threshold_always_signals 1000000000 9223372036854775807 0 1000000000);
    unfold is_int64, min_int64, max_int64; lia.
Defined.

End WakeGapMoreFacts.

(** * Facts on the probe quorum *)

Module ProbeFacts.
Import Probe.

(** The loop with [n] turns left and [ok] successes so far, short of the
    quorum: it answers ["ok"] when the results still to come before the
    context ends hold the successes that are missing, ["timeout"] when
    the context ends first, ["insufficient successes"] otherwise. *)
Lemma quorum_spec (n : nat) :
  forall (require ok : Z) (picks : list Pick),
    ok < require ->
    quorum n require ok picks =
    if require - ok <=? len (filter succeeded (firstn n (beforeDone picks)))
    then (true, "ok"%string)
    else if (length (beforeDone picks) <? n)%nat then (false, "timeout"%string)
    else (false, "insufficient successes"%string).
Proof.
  induction n as [|n IH]; intros require ok picks Hlt.
  - cbn [quorum firstn filter]. unfold len. cbn [length].
    destruct (Z.geb_spec ok require); [lia|].
    destruct (Z.leb_spec (require - ok) (Z.of_nat 0)); [lia|]. reflexivity.
  - cbn [quorum]. destruct picks as [|[[e|]|] rest]; cbn [beforeDone firstn filter succeeded].
    + unfold len. cbn [length].
      destruct (Z.geb_spec ok require); [lia|].
      destruct (Z.leb_spec (require - ok) (Z.of_nat 0)); [lia|]. reflexivity.
    + rewrite IH by exact Hlt. cbn [length]. reflexivity.
    + unfold len. cbn [length]. rewrite Nat2Z.inj_succ.
      destruct (Z.geb_spec (ok + 1) require) as [Hq|Hq].
      * destruct (Z.leb_spec (require - ok)
                    (Z.succ (Z.of_nat (length (filter succeeded
                                                 (firstn n (beforeDone rest))))))); [reflexivity|lia].
      * rewrite IH by lia. unfold len.
        destruct (Z.leb_spec (require - (ok + 1))
                    (Z.of_nat (length (filter succeeded (firstn n (beforeDone rest))))));
          destruct (Z.leb_spec (require - ok)
                      (Z.succ (Z.of_nat (length (filter succeeded
                                                   (firstn n (beforeDone rest)))))));
          try lia; reflexivity.
    + unfold len. cbn [length].
      destruct (Z.geb_spec ok require); [lia|].
      destruct (Z.leb_spec (require - ok) (Z.of_nat 0)); [lia|]. reflexivity.
Qed.

(** [connectivityCheck] accepts exactly when, among the at most six probe
    results received before the context ends, at least [require] are
    successes ([require] counting as 1 when it is not positive), and then
    with the text ["ok"]. Otherwise it answers ["timeout"] when the
    context ended before six results came, and ["insufficient successes"]
    when all six came. *)
Theorem connectivityCheck_quorum (require : Z) (picks : list Pick) :
  connectivityCheck require picks =
  if (if require <=? 0 then 1 else require) <=? successes picks
  then (true, "ok"%string)
  else if (length (beforeDone picks) <? nProbes)%nat then (false, "timeout"%string)
  else (false, "insufficient successes"%string).
Proof.
  unfold connectivityCheck, successes.
  rewrite quorum_spec by (destruct (Z.leb_spec require 0); lia).
  rewrite Z.sub_0_r. reflexivity.
Qed.

(** The answer ["ok (timeout after quorum)"] is never given: the loop
    returns as soon as the quorum is reached, so the context never ends
    with the quorum met. And a quorum above six is never met. *)
Theorem never_timeout_after_quorum (require : Z) (picks : list Pick) :
  snd (connectivityCheck require picks) <> "ok (timeout after quorum)"%string /\
  (6 < require -> fst (connectivityCheck require picks) = false).
Proof.
  unfold connectivityCheck.
  rewrite quorum_spec by (destruct (Z.leb_spec require 0); lia).
  split.
  - repeat match goal with |- context [if ?c then _ else _] => destruct c end;
      cbn [snd]; discriminate.
  - intros H6. destruct (Z.leb_spec require 0); [lia|].
    assert (B : len (filter succeeded (firstn nProbes (beforeDone picks))) <= 6).
    { unfold len.
      pose proof (filter_length_le succeeded (firstn nProbes (beforeDone picks))) as F.
      pose proof (firstn_le_length nProbes (beforeDone picks)) as G.
      unfold nProbes in *. lia. }
    destruct (Z.leb_spec (require - 0)
                (len (filter succeeded (firstn nProbes (beforeDone picks))))); [lia|].
    destruct (length (beforeDone picks) <? nProbes)%nat; reflexivity.
Qed.

End ProbeFacts.
